(** * xerosdk: OAuth2 session handling, resource modules and the example
    front controller, embedded in Rocq.

    The development follows the packages of the repository:
    - [Go]          the fragment of Go's run-time behaviour the code relies on
                    (values paired with errors, panics, in-place updates);
    - [DotNetDate]  date normalisation of the [helpers] package;
    - [Helpers]     the resource gateway of the [helpers] package;
    - [Auth]        tokens, sessions, the token store and the provider;
    - [Accounting]  the contact and account resource modules;
    - [Main]        the handlers of the example web application. *)

From Stdlib Require Import ZArith String Ascii List Lia Bool.
From stdpp Require Import base option list gmap strings.
Import ListNotations.

Local Open Scope string_scope.
Local Open Scope list_scope.
Local Open Scope Z_scope.

(* ===================================================================== *)
(** ** Go values *)
(* ===================================================================== *)

Module Go.

(** Go's [error] values, split along the taxonomy the repository uses. *)
Inductive error : Type :=
| AuthError (msg : string)          (* authorisation, exchange, refresh *)
| NotFoundError (msg : string)      (* no session for the user *)
| TransportError (msg : string)     (* the HTTP exchange itself failed *)
| DecodeError (msg : string)        (* malformed payload or date *)
| ConnectionError (cause : error)   (* tenant enumeration failed *)
| FetchError (cause : error).       (* resource gateway failed *)

(** What a goroutine can die of. *)
Inductive panic : Type :=
| LogPanic (e : error)          (* log.Panic(err) *)
| NilDereference                (* runtime error: invalid memory address *)
| IndexOutOfRange.              (* runtime error: index out of range *)

(** [[]byte] *)
Definition bytes := list ascii.

(** A Go result pair [(v, err)] in which exactly one side is set. *)
Inductive Result (A : Type) : Type :=
| Ok (a : A)
| Err (e : error).
Arguments Ok {A} a.
Arguments Err {A} e.

(** How a call ends: it returns, or the goroutine panics. *)
Inductive outcome (A : Type) : Type :=
| Returned (a : A)
| Panicked (p : panic).
Arguments Returned {A} a.
Arguments Panicked {A} p.

(** Computations over a mutable world [W]. *)
Definition M (W A : Type) : Type := W -> outcome A * W.

Definition ret {W A} (a : A) : M W A := fun w => (Returned a, w).

Definition bind {W A B} (m : M W A) (k : A -> M W B) : M W B :=
  fun w => match m w with
           | (Returned a, w') => k a w'
           | (Panicked p, w') => (Panicked p, w')
           end.

Definition throw {W A} (p : panic) : M W A := fun w => (Panicked p, w).

(** [log.Panic(err)] *)
Definition log_Panic {W A} (e : error) : M W A := throw (LogPanic e).

Definition get {W} : M W W := fun w => (Returned w, w).
Definition modify {W} (f : W -> W) : M W unit := fun w => (Returned tt, f w).

(** [for _, x := range xs { acc = body x acc }] *)
Fixpoint for_range {W A B} (xs : list A) (acc : B) (body : A -> B -> M W B)
  : M W B :=
  match xs with
  | [] => ret acc
  | x :: rest => bind (body x acc) (fun acc' => for_range rest acc' body)
  end.

End Go.
Export Go.

Notation "'let*' x ':=' m 'in' k" := (bind m (fun x => k))
  (at level 10, x pattern, m at level 200, k at level 200).


(* ===================================================================== *)
(** ** helpers: the legacy date format *)
(* ===================================================================== *)

Module DotNetDate.

Definition isDigit (c : ascii) : bool :=
  let n := nat_of_ascii c in (48 <=? n)%nat && (n <=? 57)%nat.

Definition digitValue (c : ascii) : Z := Z.of_nat (nat_of_ascii c) - 48.

(** The decimal digit for [n mod 10]. *)
Definition digit (n : Z) : ascii :=
  match Z.to_nat (n mod 10) with
  | 0%nat => "0" | 1%nat => "1" | 2%nat => "2" | 3%nat => "3" | 4%nat => "4"
  | 5%nat => "5" | 6%nat => "6" | 7%nat => "7" | 8%nat => "8" | _ => "9"
  end%char.

Definition pad2 (n : Z) : list ascii := [digit (n / 10); digit n].
Definition pad4 (n : Z) : list ascii :=
  [digit (n / 1000); digit (n / 100); digit (n / 10); digit n].

(** Longest prefix of digits, and what follows it. *)
Fixpoint spanDigits (cs : list ascii) : list ascii * list ascii :=
  match cs with
  | c :: r => if isDigit c
              then let '(ds, rest) := spanDigits r in (c :: ds, rest)
              else ([], cs)
  | [] => ([], [])
  end.

Definition decimal (ds : list ascii) : Z :=
  fold_left (fun acc c => 10 * acc + digitValue c) ds 0.

(** [stripPrefix p s] is what remains of [s] after the prefix [p]. *)
Fixpoint stripPrefix (p s : list ascii) : option (list ascii) :=
  match p, s with
  | [], _ => Some s
  | a :: p', b :: s' => if Ascii.eqb a b then stripPrefix p' s' else None
  | _ :: _, [] => None
  end.

(** The time-zone suffix of a legacy date: a sign and four digits. *)
Definition isZoneSuffix (cs : list ascii) : bool :=
  match cs with
  | [sg; a; b; c; d] =>
      (Ascii.eqb sg "+" || Ascii.eqb sg "-")
      && isDigit a && isDigit b && isDigit c && isDigit d
  | _ => false
  end.

(** Milliseconds since the epoch carried by ["/Date(<ms>[+-hhmm])/"]. *)
Definition parseDotNetDate (s : string) : option Z :=
  match stripPrefix (list_ascii_of_string "/Date(") (list_ascii_of_string s) with
  | None => None
  | Some body =>
      let '(neg, body) :=
        match body with
        | "-"%char :: r => (true, r)
        | _ => (false, body)
        end in
      let '(ds, rest) := spanDigits body in
      match ds with
      | [] => None
      | _ :: _ =>
          let ms := if neg then - decimal ds else decimal ds in
          match rest with
          | [")"; "/"]%char => Some ms
          | [sg; a; b; c; d; ")"; "/"]%char =>
              if isZoneSuffix [sg; a; b; c; d] then Some ms else None
          | _ => None
          end
      end
  end.

(** Proleptic Gregorian date of a day count relative to 1970-01-01. *)
Definition civilFromDays (days : Z) : Z * Z * Z :=
  let z := days + 719468 in
  let era := z / 146097 in
  let doe := z - era * 146097 in
  let yoe := (doe - doe / 1460 + doe / 36524 - doe / 146096) / 365 in
  let doy := doe - (365 * yoe + yoe / 4 - yoe / 100) in
  let mp := (5 * doy + 2) / 153 in
  let d := doy - (153 * mp + 2) / 5 + 1 in
  let m := if mp <? 10 then mp + 3 else mp - 9 in
  let y := yoe + era * 400 in
  (if m <=? 2 then y + 1 else y, m, d).

(** [time.RFC3339] layout of an instant in UTC, whole seconds. *)
Definition formatRFC3339 (year month day secOfDay : Z) : string :=
  string_of_list_ascii
    (pad4 year ++ ["-"%char] ++ pad2 month ++ ["-"%char] ++ pad2 day
     ++ ["T"%char] ++ pad2 (secOfDay / 3600)
     ++ [":"%char] ++ pad2 (secOfDay / 60 mod 60)
     ++ [":"%char] ++ pad2 (secOfDay mod 60) ++ ["Z"%char]).

(** Modelled from the spec: [helpers.DotNetJSONTimeToRFC3339] is not among the
    sources.  The spec describes it as the conversion of the platform's
    legacy ["/Date(<milliseconds>+hhmm)/"] text into the equivalent RFC3339
    timestamp, and requires that a value that is not in the legacy form is
    either returned as it is or reported as an error, never rewritten
    silently; of the two this model reports the error.  The result is Go's
    [(string, error)] pair.  RFC3339 has four-digit years, other instants
    are an error.  The spec gives no separate rendering for [isUTC = false]. *)
Definition DotNetJSONTimeToRFC3339 (jsonTime : string) (isUTC : bool)
  : string * option error :=
  match parseDotNetDate jsonTime with
  | None => ("", Some (DecodeError "not a .Net JSON date"))
  | Some ms =>
      let secs := ms / 1000 in
      let '(y, m, d) := civilFromDays (secs / 86400) in
      if (0 <=? y) && (y <=? 9999)
      then (formatRFC3339 y m d (secs mod 86400), None)
      else ("", Some (DecodeError "year outside of RFC3339"))
  end.

(** Shape of the timestamps [formatRFC3339] writes. *)
Definition isRFC3339 (s : string) : bool :=
  match list_ascii_of_string s with
  | [y1; y2; y3; y4; p1; m1; m2; p2; d1; d2; p3;
     h1; h2; p4; n1; n2; p5; s1; s2; p6] =>
      forallb isDigit [y1; y2; y3; y4; m1; m2; d1; d2; h1; h2; n1; n2; s1; s2]
      && String.eqb (string_of_list_ascii [p1; p2; p3; p4; p5; p6]) "--T::Z"
  | _ => false
  end.

End DotNetDate.


(* ===================================================================== *)
(** ** Data model *)
(* ===================================================================== *)

Module Schema.

(** [uuid.UUID]: sixteen bytes, read as one number; [uuid.Nil] is zero. *)
Definition UUID := N.
Definition uuid_Nil : UUID := 0%N.

(** [oauth2.Token]; [Expiry] in seconds since the epoch. *)
Record Token : Type := {
  AccessToken : string;
  TokenType : string;
  RefreshToken : string;
  Expiry : Z
}.

(** [auth.Session].  The [Repo] field of the Go struct points to the one
    token store of the process, which is the [repo] of the world below. *)
Record Session : Type := {
  Token_ : option Token;     (* pointer to oauth2.Token, nil when there is none *)
  UserID : UUID;
  TenantID : UUID
}.

(** The resource modules whose sources are not at hand. *)
Inductive Resource : Type :=
| Invoices | Organisations | BankTransactions | BankTransfers
| BrandingThemes | ContactGroups | CreditNotes | Currencies | Employees
| InvoiceReminders | Items.

(** Types the code uses and other packages declare. *)
Class Foreign : Type := {
  float64 : Type;
  float64_zero : float64;
  ContactPerson : Type;
  Address : Type;
  Phone : Type;
  TrackingCategory : Type;
  BatchPayment : Type;
  BatchPayment_zero : BatchPayment;
  element : Resource -> Type;   (* accounting.Invoice, accounting.Item, ... *)
  Tenant : Type;                (* connection.Tenant *)
  Tenant_TenantID : Tenant -> UUID
}.

Section Records.
Context `{Foreign}.

Record Balance : Type := {
  Outstanding : float64;
  Overdue : float64
}.

Record Balances : Type := {
  AccountsReceivable : Balance;
  AccountsPayable : Balance
}.

Record Contact : Type := {
  ContactID : string;
  ContactNumber : string;
  AccountNumber : string;
  ContactStatus : string;
  Name : string;
  FirstName : string;
  LastName : string;
  EmailAddress : string;
  SkypeUserName : string;
  ContactPersons : option (list ContactPerson);
  BankAccountDetails : string;
  TaxNumber : string;
  AccountsReceivableTaxType : string;
  AccountsPayableTaxType : string;
  Addresses : option (list Address);
  Phones : option (list Phone);
  IsSupplier : bool;
  IsCustomer : bool;
  DefaultCurrency : string;
  XeroNetworkKey : string;
  SalesDefaultAccountCode : string;
  PurchasesDefaultAccountCode : string;
  SalesTrackingCategories : option (list TrackingCategory);
  PurchasesTrackingCategories : option (list TrackingCategory);
  TrackingCategoryName : string;
  TrackingCategoryOption : string;
  UpdatedDateUTC : string;
  ContactGroups_ : option (list (element ContactGroups));
  Website : string;
  BatchPayments : BatchPayment;
  Discount : float64;
  Balances_ : Balances;
  HasAttachments : bool
}.

(** [c.UpdatedDateUTC = s] *)
Definition Contact_setUpdatedDateUTC (s : string) (c : Contact) : Contact :=
  {| ContactID := ContactID c;
     ContactNumber := ContactNumber c;
     AccountNumber := AccountNumber c;
     ContactStatus := ContactStatus c;
     Name := Name c;
     FirstName := FirstName c;
     LastName := LastName c;
     EmailAddress := EmailAddress c;
     SkypeUserName := SkypeUserName c;
     ContactPersons := ContactPersons c;
     BankAccountDetails := BankAccountDetails c;
     TaxNumber := TaxNumber c;
     AccountsReceivableTaxType := AccountsReceivableTaxType c;
     AccountsPayableTaxType := AccountsPayableTaxType c;
     Addresses := Addresses c;
     Phones := Phones c;
     IsSupplier := IsSupplier c;
     IsCustomer := IsCustomer c;
     DefaultCurrency := DefaultCurrency c;
     XeroNetworkKey := XeroNetworkKey c;
     SalesDefaultAccountCode := SalesDefaultAccountCode c;
     PurchasesDefaultAccountCode := PurchasesDefaultAccountCode c;
     SalesTrackingCategories := SalesTrackingCategories c;
     PurchasesTrackingCategories := PurchasesTrackingCategories c;
     TrackingCategoryName := TrackingCategoryName c;
     TrackingCategoryOption := TrackingCategoryOption c;
     UpdatedDateUTC := s;
     ContactGroups_ := ContactGroups_ c;
     Website := Website c;
     BatchPayments := BatchPayments c;
     Discount := Discount c;
     Balances_ := Balances_ c;
     HasAttachments := HasAttachments c |}.

Record Account : Type := {
  Code : string;
  AccountName : string;               (* Name *)
  Type_ : string;                     (* Type *)
  BankAccountNumber : string;
  Status : string;
  Description : string;
  BankAccountType : string;
  CurrencyCode : string;
  TaxType : string;
  EnablePaymentsToAccount : bool;
  ShowInExpenseClaims : bool;
  AccountID : string;
  Class_ : string;                    (* Class *)
  SystemAccount : string;
  ReportingCode : string;
  ReportingCodeName : string;
  AccountHasAttachments : bool;       (* HasAttachments *)
  AccountUpdatedDateUTC : string      (* UpdatedDateUTC *)
}.

(** [a.UpdatedDateUTC = s] *)
Definition Account_setUpdatedDateUTC (s : string) (a : Account) : Account :=
  {| Code := Code a;
     AccountName := AccountName a;
     Type_ := Type_ a;
     BankAccountNumber := BankAccountNumber a;
     Status := Status a;
     Description := Description a;
     BankAccountType := BankAccountType a;
     CurrencyCode := CurrencyCode a;
     TaxType := TaxType a;
     EnablePaymentsToAccount := EnablePaymentsToAccount a;
     ShowInExpenseClaims := ShowInExpenseClaims a;
     AccountID := AccountID a;
     Class_ := Class_ a;
     SystemAccount := SystemAccount a;
     ReportingCode := ReportingCode a;
     ReportingCodeName := ReportingCodeName a;
     AccountHasAttachments := AccountHasAttachments a;
     AccountUpdatedDateUTC := s |}.

(** The gateway primitive a request goes through. *)
Inductive GatewayOp : Type := OpFind | OpCreate | OpUpdate | OpRemove.

(** A request as it is handed to the HTTP client. *)
Record Request : Type := {
  op : GatewayOp;
  url : string;
  headers : gmap string string;
  query : gmap string string;
  body : bytes
}.

(** [*http.Client] as [Provider.Client] builds it: what tells two of
    them apart is the session the transport is bound to. *)
Record HTTPClient : Type := { session : Session }.

(** What happened so far, oldest first. *)
Inductive Event : Type :=
| EvGetSession (user : UUID)
| EvCreateSession (user : UUID) (t : Token)
| EvUpdateSession (user : UUID) (t : Token)
| EvExchange (code : string)                      (* code for token *)
| EvRefresh (t : option Token)                    (* Provider.Refresh *)
| EvSend (tenant : UUID) (bearer : string) (rq : Request).

(** Objects that live behind pointers: the collection structs. *)
Inductive Object : Type :=
| OContacts (cs : list Contact)
| OAccounts (accs : list Account).

(** The process: token store, heap and the log of what it did. *)
Record World : Type := {
  repo : gmap UUID Token;
  heap : list Object;
  trace : list Event
}.

End Records.

End Schema.
Export Schema.

(* ===================================================================== *)
(** ** What lies outside of the sources *)
(* ===================================================================== *)

(** The remote platform, the clock and the library functions the code calls.
    The platform answers as a function of everything that happened before. *)
Class Environment `{Foreign} : Type := {
  (* the remote platform *)
  clock : list Event -> Z;
  tokenExchange : list Event -> string -> option Token;
  tokenRefresh : list Event -> Token -> option Token;
  apiRespond : list Event -> UUID -> string -> Request -> option bytes;
  (* constants and pure functions of packages not at hand *)
  authURL : string -> string;
  connectionsURL : string;
  decodeTenants : bytes -> option (list Tenant);
  resourceURL : Resource -> string;
  decodeResource : forall k : Resource, bytes -> Result (list (element k));
  helpers_DotNetJSONTimeToRFC3339 : string -> bool -> string * option error;
  (* libraries *)
  uuid_NewV4 : list Event -> UUID;
  UUID_String : UUID -> string;
  time_Format_RFC3339 : Z -> string;
  json_Unmarshal_Contacts : bytes -> Result (option (list Contact));
  json_Marshal_Contacts : option (list Contact) -> Result bytes;
  json_Unmarshal_Accounts : bytes -> Result (option (list Account));
  json_Marshal_Accounts : option (list Account) -> Result bytes
}.

(* ===================================================================== *)
(** ** auth: token store, provider, authenticated transport *)
(* ===================================================================== *)

Module Auth.
Section Auth.
Context `{Environment}.

Definition emit (e : Event) : M World unit :=
  modify (fun w => {| repo := repo w; heap := heap w;
                      trace := trace w ++ [e] |}).

Definition setRepo (r : gmap UUID Token) : M World unit :=
  modify (fun w => {| repo := r; heap := heap w; trace := trace w |}).

Definition setHeap (h : list Object) : M World unit :=
  modify (fun w => {| repo := repo w; heap := h; trace := trace w |}).

(** Modelled from the spec: the token store ([auth.Repository] and the
    [NewRepository] of the example) is not among the sources.
    [CreateSession] stores the token under the user and silently
    replaces one that is there. *)
Definition CreateSession (userID : UUID) (token : Token) : M World unit :=
  let* _ := emit (EvCreateSession userID token) in
  let* w := get in
  setRepo (<[userID := token]> (repo w)).

(** Modelled from the spec: [GetSession] returns the stored token, or
    nil and a not-found error; it never touches the network. *)
Definition GetSession (userID : UUID)
  : M World (option Token * option error) :=
  let* _ := emit (EvGetSession userID) in
  let* w := get in
  match repo w !! userID with
  | Some t => ret (Some t, None)
  | None => ret (None, Some (NotFoundError "no session"))
  end.

(** Modelled from the spec: [UpdateSession] replaces the stored token
    and fails with [NotFoundError] when the user has no session. *)
Definition UpdateSession (userID : UUID) (token : Token)
  : M World (option error) :=
  let* _ := emit (EvUpdateSession userID token) in
  let* w := get in
  match repo w !! userID with
  | Some _ =>
      let* _ := setRepo (<[userID := token]> (repo w)) in
      ret None
  | None => ret (Some (NotFoundError "no session"))
  end.

(** Modelled from the spec: [Provider.GetAuthURL] builds the
    authorisation URL from the configuration and the state. *)
Definition GetAuthURL (state : string) : string := authURL state.

(** Modelled from the spec: [Provider.GetTokenFromCode] exchanges the
    code at the token endpoint; every failure is an [AuthError]. *)
Definition GetTokenFromCode (code : string) : M World (Result Token) :=
  let* w := get in
  let* _ := emit (EvExchange code) in
  match tokenExchange (trace w) code with
  | Some t => ret (Ok t)
  | None => ret (Err (AuthError "code exchange failed"))
  end.

(** Modelled from the spec: [Provider.Refresh] performs the
    refresh-token exchange; it fails with [AuthError] when there is no
    refresh token or the endpoint rejects it. *)
Definition Refresh (current : option Token) : M World (Result Token) :=
  let* w := get in
  let* _ := emit (EvRefresh current) in
  match current with
  | None => ret (Err (AuthError "no token"))
  | Some t =>
      if String.eqb (RefreshToken t) ""
      then ret (Err (AuthError "no refresh token"))
      else match tokenRefresh (trace w) t with
           | Some t' => ret (Ok t')
           | None => ret (Err (AuthError "refresh rejected"))
           end
  end.

(** Modelled from the spec: [Provider.Client] returns an HTTP client
    whose transport is bound to the session. *)
Definition Client (se : Session) : HTTPClient := {| session := se |}.

(** Modelled from the spec: part of the transport of [Provider.Client];
    the request leaves with the access token as bearer credential. *)
Definition send (se : Session) (t : Token) (rq : Request)
  : M World (Result bytes) :=
  let* w := get in
  let* _ := emit (EvSend (TenantID se) (AccessToken t) rq) in
  match apiRespond (trace w) (TenantID se) (AccessToken t) rq with
  | Some b => ret (Ok b)
  | None => ret (Err (TransportError "request failed"))
  end.

(** Modelled from the spec: a token has expired when its expiry is in the
    past. *)
Definition expired (now : Z) (t : Token) : bool := Expiry t <? now.

(** Modelled from the spec: the transport of [Provider.Client] is not
    among the sources.  Before each request it checks the expiry of the
    session's token; an expired token is refreshed and the new one is
    stored through [UpdateSession] before the request goes out with it;
    otherwise the request goes out with the current token. *)
Definition Do (cl : HTTPClient) (rq : Request) : M World (Result bytes) :=
  let se := session cl in
  match Token_ se with
  | None => ret (Err (AuthError "no token"))
  | Some t =>
      let* w := get in
      if expired (clock (trace w)) t then
        let* r := Refresh (Some t) in
        match r with
        | Err e => ret (Err e)
        | Ok t' =>
            let* failed := UpdateSession (UserID se) t' in
            match failed with
            | Some e => ret (Err e)
            | None => send se t' rq
            end
        end
      else send se t rq
  end.

End Auth.
End Auth.

(* ===================================================================== *)
(** ** helpers: the resource gateway;  connection: tenants *)
(* ===================================================================== *)

Module Helpers.
Section Helpers.
Context `{Environment}.

(** Modelled from the spec: every failure of the gateway is surfaced to
    the caller as a [FetchError]. *)
Definition surface (r : Result bytes) : Result bytes :=
  match r with
  | Ok b => Ok b
  | Err e => Err (FetchError e)
  end.

(** Modelled from the spec: the one fetch primitive behind [helpers.Find],
    [Create], [Update] and [Remove], a request through the client. *)
Definition gateway (cl : HTTPClient) (rq : Request) : M World (Result bytes) :=
  let* r := Auth.Do cl rq in ret (surface r).

(** Modelled from the spec: [helpers.Find] is not among the sources; a
    GET with optional headers and query parameters that returns the raw
    body, every failure surfaced as [FetchError]. *)
Definition Find (cl : HTTPClient) (resourceURL : string)
    (additionalHeaders queryParameters : gmap string string) :=
  gateway cl {| op := OpFind; url := resourceURL;
                headers := additionalHeaders; query := queryParameters;
                body := [] |}.

(** Modelled from the spec: [helpers.Create] sends the raw JSON body. *)
Definition Create (cl : HTTPClient) (resourceURL : string) (buf : bytes) :=
  gateway cl {| op := OpCreate; url := resourceURL;
                headers := ∅; query := ∅; body := buf |}.

(** Modelled from the spec: [helpers.Update] sends the body to a
    specific resource path. *)
Definition Update (cl : HTTPClient) (resourceURL : string) (buf : bytes) :=
  gateway cl {| op := OpUpdate; url := resourceURL;
                headers := ∅; query := ∅; body := buf |}.

(** Modelled from the spec: [helpers.Remove] deletes the resource. *)
Definition Remove (cl : HTTPClient) (resourceURL : string) :=
  gateway cl {| op := OpRemove; url := resourceURL;
                headers := ∅; query := ∅; body := [] |}.

End Helpers.
End Helpers.

Module Connection.
Section Connection.
Context `{Environment}.

(** Modelled from the spec: [connection.GetTenants] is not among the
    sources; one authenticated GET to the connections endpoint, the
    body decoded into the tenant list, every failure wrapped in a
    [ConnectionError]. *)
Definition GetTenants (cl : HTTPClient) : M World (Result (list Tenant)) :=
  let* r := Auth.Do cl {| op := OpFind; url := connectionsURL;
                          headers := ∅; query := ∅; body := [] |} in
  match r with
  | Err e => ret (Err (ConnectionError e))
  | Ok b =>
      match decodeTenants b with
      | Some ts => ret (Ok ts)
      | None => ret (Err (ConnectionError (DecodeError "tenants")))
      end
  end.

End Connection.
End Connection.

(* ===================================================================== *)
(** ** accounting: contacts and accounts *)
(* ===================================================================== *)

Module Accounting.
Section Accounting.
Context `{Environment}.

(** *** Pointers

    A [*Contacts] or [*Accounts] is [None] (nil) or the address of a
    collection object on the heap.  A [*Contact] or [*Account] is nil or
    the address of a collection and an index into it, as in
    [&c.Contacts[0]]. *)

Definition new (o : Object) : M World nat :=
  let* w := get in
  let* _ := Auth.setHeap (heap w ++ [o]) in
  ret (length (heap w)).

(** [c.Contacts] through a [*Contacts] *)
Definition loadContacts (c : option nat) : M World (list Contact) :=
  match c with
  | None => throw NilDereference
  | Some l =>
      let* w := get in
      match heap w !! l with
      | Some (OContacts cs) => ret cs
      | _ => throw NilDereference
      end
  end.

Definition storeContacts (c : option nat) (cs : list Contact) : M World unit :=
  match c with
  | None => throw NilDereference
  | Some l =>
      let* w := get in Auth.setHeap (<[l := OContacts cs]> (heap w))
  end.

(** [*c] through a [*Contact] *)
Definition loadContact (c : option (nat * nat)) : M World Contact :=
  match c with
  | None => throw NilDereference
  | Some (l, i) =>
      let* cs := loadContacts (Some l) in
      match cs !! i with
      | Some x => ret x
      | None => throw IndexOutOfRange
      end
  end.

(** [a.Accounts] through an [*Accounts] *)
Definition loadAccounts (a : option nat) : M World (list Account) :=
  match a with
  | None => throw NilDereference
  | Some l =>
      let* w := get in
      match heap w !! l with
      | Some (OAccounts accs) => ret accs
      | _ => throw NilDereference
      end
  end.

Definition storeAccounts (a : option nat) (accs : list Account) : M World unit :=
  match a with
  | None => throw NilDereference
  | Some l =>
      let* w := get in Auth.setHeap (<[l := OAccounts accs]> (heap w))
  end.

(** [*a] through an [*Account] *)
Definition loadAccount (a : option (nat * nat)) : M World Account :=
  match a with
  | None => throw NilDereference
  | Some (l, i) =>
      let* accs := loadAccounts (Some l) in
      match accs !! i with
      | Some x => ret x
      | None => throw IndexOutOfRange
      end
  end.

(** *** contacts *)

Definition contactsURL : string := "https://api.xero.com/api.xro/2.0/Contacts".

(** The body of the loop of [convertDates] for [n = k - 1], followed by
    the iterations below it. *)
Fixpoint Contacts_convertDates_from (c : option nat) (k : nat)
  : M World (option error) :=
  match k with
  | O => ret None
  | S n =>
      let* cs := loadContacts c in
      match cs !! n with
      | None => throw IndexOutOfRange
      | Some x =>
          let '(s, err) := helpers_DotNetJSONTimeToRFC3339 (UpdatedDateUTC x) true in
          let* _ := storeContacts c (<[n := Contact_setUpdatedDateUTC s x]> cs) in
          match err with
          | Some e => ret (Some e)
          | None => Contacts_convertDates_from c n
          end
      end
  end.

(** [func (c *Contacts) convertDates() error] *)
Definition Contacts_convertDates (c : option nat) : M World (option error) :=
  let* cs := loadContacts c in
  Contacts_convertDates_from c (length cs).

(** [func unmarshalContact(contactResponseBytes []byte) -> Contacts pointer, error] *)
Definition unmarshalContact (contactResponseBytes : bytes)
  : M World (Result nat) :=
  match json_Unmarshal_Contacts contactResponseBytes with
  | Err e => ret (Err e)
  | Ok decoded =>
      let* contactResponse :=
        match decoded with
        | None => ret None                      (* JSON null: still nil *)
        | Some cs => let* l := new (OContacts cs) in ret (Some l)
        end in
      let* err := Contacts_convertDates contactResponse in
      match err, contactResponse with
      | Some e, _ => ret (Err e)
      | None, Some l => ret (Ok l)
      | None, None => throw NilDereference
      end
  end.

(** [func FindContacts(cl *http.Client) -> Contacts pointer, error] *)
Definition FindContacts (cl : HTTPClient) : M World (Result nat) :=
  let* r := Helpers.Find cl contactsURL ∅ ∅ in
  match r with
  | Err e => ret (Err e)
  | Ok contactResponseBytes => unmarshalContact contactResponseBytes
  end.

(** [func FindContact(cl *http.Client, contactID uuid.UUID) -> Contact pointer, error] *)
Definition FindContact (cl : HTTPClient) (contactID : UUID)
  : M World (Result (option (nat * nat))) :=
  let* r := Helpers.Find cl (contactsURL +:+ "/" +:+ UUID_String contactID) ∅ ∅ in
  match r with
  | Err e => ret (Err e)
  | Ok contactResponseBytes =>
      let* r := unmarshalContact contactResponseBytes in
      match r with
      | Err e => ret (Err e)
      | Ok c =>
          let* cs := loadContacts (Some c) in
          if (0 <? length cs)%nat then ret (Ok (Some (c, 0%nat)))
          else ret (Ok None)
      end
  end.

(** [func (c *Contacts) Create(cl *http.Client) -> Contacts pointer, error] *)
Definition Contacts_Create (c : option nat) (cl : HTTPClient)
  : M World (Result nat) :=
  let* v := match c with
            | None => ret None
            | Some _ => let* cs := loadContacts c in ret (Some cs)
            end in
  match json_Marshal_Contacts v with
  | Err e => ret (Err e)
  | Ok buf =>
      let* r := Helpers.Create cl contactsURL buf in
      match r with
      | Err e => ret (Err e)
      | Ok contactResponseBytes => unmarshalContact contactResponseBytes
      end
  end.

(** [func (c *Contact) Update(cl *http.Client) -> Contacts pointer, error] *)
Definition Contact_Update (c : option (nat * nat)) (cl : HTTPClient)
  : M World (Result nat) :=
  let* x := loadContact c in
  let cn := [x] in
  match json_Marshal_Contacts (Some cn) with
  | Err e => ret (Err e)
  | Ok buf =>
      let* x' := loadContact c in
      let* r := Helpers.Update cl (contactsURL +:+ "/" +:+ ContactID x') buf in
      match r with
      | Err e => ret (Err e)
      | Ok contactResponseBytes => unmarshalContact contactResponseBytes
      end
  end.

(** *** accounts *)

Definition accountsURL : string := "https://api.xero.com/api.xro/2.0/Accounts".

Fixpoint Accounts_convertDates_from (a : option nat) (k : nat)
  : M World (option error) :=
  match k with
  | O => ret None
  | S n =>
      let* accs := loadAccounts a in
      match accs !! n with
      | None => throw IndexOutOfRange
      | Some x =>
          let '(s, err) :=
            helpers_DotNetJSONTimeToRFC3339 (AccountUpdatedDateUTC x) true in
          let* _ := storeAccounts a (<[n := Account_setUpdatedDateUTC s x]> accs) in
          match err with
          | Some e => ret (Some e)
          | None => Accounts_convertDates_from a n
          end
      end
  end.

(** [func (a *Accounts) convertDates() error] *)
Definition Accounts_convertDates (a : option nat) : M World (option error) :=
  let* accs := loadAccounts a in
  Accounts_convertDates_from a (length accs).

(** [func unmarshalAccount(accountResponseBytes []byte) -> Accounts pointer, error] *)
Definition unmarshalAccount (accountResponseBytes : bytes)
  : M World (Result nat) :=
  match json_Unmarshal_Accounts accountResponseBytes with
  | Err e => ret (Err e)
  | Ok decoded =>
      let* accountResponse :=
        match decoded with
        | None => ret None
        | Some accs => let* l := new (OAccounts accs) in ret (Some l)
        end in
      let* err := Accounts_convertDates accountResponse in
      match err, accountResponse with
      | Some e, _ => ret (Err e)
      | None, Some l => ret (Ok l)
      | None, None => throw NilDereference
      end
  end.

(** [func FindAccountsModifiedSince(cl, modifiedSince, queryParameters)] *)
Definition FindAccountsModifiedSince (cl : HTTPClient) (modifiedSince : Z)
    (queryParameters : gmap string string) : M World (Result nat) :=
  let additionalHeaders : gmap string string := ∅ in
  let additionalHeaders :=
    <["If-Modified-Since" := time_Format_RFC3339 modifiedSince]> additionalHeaders in
  let* r := Helpers.Find cl accountsURL additionalHeaders queryParameters in
  match r with
  | Err e => ret (Err e)
  | Ok accountResponseBytes => unmarshalAccount accountResponseBytes
  end.

(** [func FindAccounts(cl, queryParameters) -> Accounts pointer, error] *)
Definition FindAccounts (cl : HTTPClient)
    (queryParameters : gmap string string) : M World (Result nat) :=
  let* r := Helpers.Find cl accountsURL ∅ queryParameters in
  match r with
  | Err e => ret (Err e)
  | Ok accountResponseBytes => unmarshalAccount accountResponseBytes
  end.

(** [func FindAccount(cl, accountID uuid.UUID) -> Account pointer, error] *)
Definition FindAccount (cl : HTTPClient) (accountID : UUID)
  : M World (Result (option (nat * nat))) :=
  let* r := Helpers.Find cl (accountsURL +:+ "/" +:+ UUID_String accountID) ∅ ∅ in
  match r with
  | Err e => ret (Err e)
  | Ok accountResponseBytes =>
      let* r := unmarshalAccount accountResponseBytes in
      match r with
      | Err e => ret (Err e)
      | Ok a =>
          let* accs := loadAccounts (Some a) in
          if (0 <? length accs)%nat then ret (Ok (Some (a, 0%nat)))
          else ret (Ok None)
      end
  end.

(** [func RemoveAccount(cl, accountID uuid.UUID) -> Accounts pointer, error] *)
Definition RemoveAccount (cl : HTTPClient) (accountID : UUID)
  : M World (Result nat) :=
  let* r := Helpers.Remove cl (accountsURL +:+ "/" +:+ UUID_String accountID) in
  match r with
  | Err e => ret (Err e)
  | Ok accountResponseBytes => unmarshalAccount accountResponseBytes
  end.

(** [func (a *Accounts) Create(cl *http.Client) -> Accounts pointer, error] *)
Definition Accounts_Create (a : option nat) (cl : HTTPClient)
  : M World (Result nat) :=
  let* v := match a with
            | None => ret None
            | Some _ => let* accs := loadAccounts a in ret (Some accs)
            end in
  match json_Marshal_Accounts v with
  | Err e => ret (Err e)
  | Ok buf =>
      let* r := Helpers.Create cl accountsURL buf in
      match r with
      | Err e => ret (Err e)
      | Ok accountResponseBytes => unmarshalAccount accountResponseBytes
      end
  end.

(** [func (a *Account) Update(cl *http.Client) -> Accounts pointer, error] *)
Definition Account_Update (a : option (nat * nat)) (cl : HTTPClient)
  : M World (Result nat) :=
  let* x := loadAccount a in
  let acc := [x] in
  match json_Marshal_Accounts (Some acc) with
  | Err e => ret (Err e)
  | Ok buf =>
      let* x' := loadAccount a in
      let* r := Helpers.Update cl (accountsURL +:+ "/" +:+ AccountID x') buf in
      match r with
      | Err e => ret (Err e)
      | Ok accountResponseBytes => unmarshalAccount accountResponseBytes
      end
  end.

(** Modelled from the spec: the resource modules for invoices,
    organisations, bank transactions and the like are not among the
    sources.  The spec describes each as a thin call that fetches the
    resource URL through the gateway and decodes the body (date
    normalisation included) into the list of that resource. *)
Definition FindResource (k : Resource) (cl : HTTPClient)
  : M World (Result (list (element k))) :=
  let* r := Helpers.Find cl (resourceURL k) ∅ ∅ in
  match r with
  | Err e => ret (Err e)
  | Ok b => ret (decodeResource k b)
  end.

(** The handlers leave the optional arguments of these calls nil
    ([FindBankTransactions(cl, nil)], [FindItems(cl, nil, nil)], ...); the
    names below stand for the calls with those arguments. *)
Definition FindInvoices := FindResource Invoices.
Definition FindOrganisations := FindResource Organisations.
Definition FindBankTransactions := FindResource BankTransactions.
Definition FindBankTransfers := FindResource BankTransfers.
Definition FindBrandingThemes := FindResource BrandingThemes.
Definition FindContactGroups := FindResource ContactGroups.
Definition FindCreditNotes := FindResource CreditNotes.
Definition FindCurrencies := FindResource Currencies.
Definition FindEmployees := FindResource Employees.
Definition FindInvoiceReminders := FindResource InvoiceReminders.
Definition FindItems := FindResource Items.

End Accounting.
End Accounting.

(* ===================================================================== *)
(** ** main: the handlers of the example application *)
(* ===================================================================== *)

Module Main.
Section Main.
Context `{Environment}.

(** The template constants of the example. *)
Inductive Template : Type :=
| indexTemplate | connectedTemplate | contactsTemplate | invoicesTemplate
| organisationsTemplate | accountsTemplate | bankTransactionsTemplate
| bankTransfersTemplate | brandingThemesTemplate | contactGroupsTemplate
| creditNotesTemplate | currenciesTemplate | employeesTemplate
| invoiceRemindersTemplate | invoiceItemsTemplate.

(** What a template is executed on. *)
Inductive Data : Type :=
| TokenData (t : option Token)
| ContactsData (contacts : list Contact)
| AccountsData (accounts : list Account)
| ResourceData (k : Resource) (items : list (element k)).

(** What a handler writes to its [http.ResponseWriter]. *)
Inductive Response : Type :=
| Executed (t : Template) (data : Data)        (* t.Execute(w, data) *)
| Redirected (location : string) (code : Z)    (* http.Redirect *)
| Encoded (tenants : list Tenant).             (* json encoding of the tenants *)

Definition StatusOK : Z := 200.
Definition StatusFound : Z := 302.
Definition StatusUnauthorized : Z := 401.

Definition statusCode (r : Response) : Z :=
  match r with
  | Redirected _ code => code
  | Executed _ _ | Encoded _ => StatusOK
  end.

(** [&auth.Session{Token: se, UserID: uuid.Nil, TenantID: id, Repo: repo}] *)
Definition sessionFor (se : option Token) (id : UUID) : Session :=
  {| Token_ := se; UserID := uuid_Nil; TenantID := id |}.

Definition HomeHandler : M World Response :=
  let* (se, _) := Auth.GetSession uuid_Nil in
  let t := match se with
           | Some _ => connectedTemplate
           | None => indexTemplate
           end in
  ret (Executed t (TokenData se)).

Definition StartXeroAuthHandler : M World Response :=
  ret (Redirected (Auth.GetAuthURL "uniq_state") StatusFound).

(** [code] is [r.FormValue("code")]. *)
Definition XeroAuthCallbackHandler (code : string) : M World Response :=
  let* r := Auth.GetTokenFromCode code in
  match r with
  | Err err => log_Panic err
  | Ok token =>
      let* _ := Auth.CreateSession uuid_Nil token in
      ret (Executed connectedTemplate (TokenData (Some token)))
  end.

Definition XeroConnectionsHandler : M World Response :=
  let* (se, _) := Auth.GetSession uuid_Nil in
  let* r := Connection.GetTenants (Auth.Client (sessionFor se uuid_Nil)) in
  match r with
  | Err err => log_Panic err
  | Ok tenants => ret (Encoded tenants)
  end.

Definition XeroRefreshTokenHandler : M World Response :=
  let* (se, _) := Auth.GetSession uuid_Nil in
  let* r := Auth.Refresh se in
  match r with
  | Err err => log_Panic err
  | Ok newToken =>
      let* _ := Auth.UpdateSession uuid_Nil newToken in
      ret (Redirected "/" StatusFound)
  end.

Definition XeroContactsHandler : M World Response :=
  let* (se, _) := Auth.GetSession uuid_Nil in
  let cl := Auth.Client (sessionFor se uuid_Nil) in
  let contacts : list Contact := [] in
  let* r := Connection.GetTenants cl in
  match r with
  | Err err => log_Panic err
  | Ok tenants =>
      let* contacts :=
        for_range tenants contacts (fun tenant contacts =>
          let* r := Accounting.FindContacts
                      (Auth.Client (sessionFor se (Tenant_TenantID tenant))) in
          match r with
          | Err err => log_Panic err
          | Ok c =>
              let* cs := Accounting.loadContacts (Some c) in
              ret (contacts ++ cs)
          end) in
      ret (Executed contactsTemplate (ContactsData contacts))
  end.

(** The dummy contact of [XeroContactsCreateHandler]. *)
Definition testContact (contactID : UUID) : Contact :=
  let zero := {| Outstanding := float64_zero; Overdue := float64_zero |} in
  {| ContactID := "";
     ContactNumber := "";
     AccountNumber := "";
     ContactStatus := "";
     Name := "Test " +:+ UUID_String contactID;
     FirstName := "Test FirstName";
     LastName := "Test LastName";
     EmailAddress := "Test Email " +:+ UUID_String contactID;
     SkypeUserName := "";
     ContactPersons := None;
     BankAccountDetails := "";
     TaxNumber := "";
     AccountsReceivableTaxType := "";
     AccountsPayableTaxType := "";
     Addresses := None;
     Phones := None;
     IsSupplier := false;
     IsCustomer := false;
     DefaultCurrency := "";
     XeroNetworkKey := "";
     SalesDefaultAccountCode := "";
     PurchasesDefaultAccountCode := "";
     SalesTrackingCategories := None;
     PurchasesTrackingCategories := None;
     TrackingCategoryName := "";
     TrackingCategoryOption := "";
     UpdatedDateUTC := "";
     ContactGroups_ := None;
     Website := "";
     BatchPayments := BatchPayment_zero;
     Discount := float64_zero;
     Balances_ := {| AccountsReceivable := zero; AccountsPayable := zero |};
     HasAttachments := false |}.

Definition XeroContactsCreateHandler : M World Response :=
  let* (se, _) := Auth.GetSession uuid_Nil in
  let* w := get in
  let contactID := uuid_NewV4 (trace w) in
  let* contacts := Accounting.new (OContacts [testContact contactID]) in
  let* r := Connection.GetTenants (Auth.Client (sessionFor se uuid_Nil)) in
  match r with
  | Err err => log_Panic err
  | Ok tenants =>
      match tenants !! 0%nat with
      | None => throw IndexOutOfRange
      | Some tenant0 =>
          let* r := Accounting.Contacts_Create (Some contacts)
                      (Auth.Client (sessionFor se (Tenant_TenantID tenant0))) in
          match r with
          | Err err => log_Panic err
          | Ok _ => ret (Redirected "/" StatusFound)
          end
      end
  end.

Definition XeroAccountsHandler : M World Response :=
  let accounts : list Account := [] in
  let* (se, _) := Auth.GetSession uuid_Nil in
  let* r := Connection.GetTenants (Auth.Client (sessionFor se uuid_Nil)) in
  match r with
  | Err err => log_Panic err
  | Ok tenants =>
      let* accounts :=
        for_range tenants accounts (fun tenant accounts =>
          let* r := Accounting.FindAccounts
                      (Auth.Client (sessionFor se (Tenant_TenantID tenant))) ∅ in
          match r with
          | Err err => log_Panic err
          | Ok accs =>
              let* l := Accounting.loadAccounts (Some accs) in
              ret (accounts ++ l)
          end) in
      ret (Executed accountsTemplate (AccountsData accounts))
  end.

Definition XeroInvoicesHandler : M World Response :=
  let invoices : list (element Invoices) := [] in
  let* (se, _) := Auth.GetSession uuid_Nil in
  let* r := Connection.GetTenants (Auth.Client (sessionFor se uuid_Nil)) in
  match r with
  | Err err => log_Panic err
  | Ok tenants =>
      let* invoices :=
        for_range tenants invoices (fun tenant invoices =>
          let* r := Accounting.FindInvoices
                      (Auth.Client (sessionFor se (Tenant_TenantID tenant))) in
          match r with
          | Err err => log_Panic err
          | Ok i => ret (invoices ++ i)
          end) in
      ret (Executed invoicesTemplate (ResourceData Invoices invoices))
  end.

Definition XeroOrganisationsHandler : M World Response :=
  let organisations : list (element Organisations) := [] in
  let* (se, _) := Auth.GetSession uuid_Nil in
  let* r := Connection.GetTenants (Auth.Client (sessionFor se uuid_Nil)) in
  match r with
  | Err err => log_Panic err
  | Ok tenants =>
      let* organisations :=
        for_range tenants organisations (fun tenant organisations =>
          let* r := Accounting.FindOrganisations
                      (Auth.Client (sessionFor se (Tenant_TenantID tenant))) in
          match r with
          | Err err => log_Panic err
          | Ok orgs => ret (organisations ++ orgs)
          end) in
      ret (Executed organisationsTemplate (ResourceData Organisations organisations))
  end.

Definition XeroBankTransactionsHandler : M World Response :=
  let bankTransactions : list (element BankTransactions) := [] in
  let* (se, _) := Auth.GetSession uuid_Nil in
  let* r := Connection.GetTenants (Auth.Client (sessionFor se uuid_Nil)) in
  match r with
  | Err err => log_Panic err
  | Ok tenants =>
      let* bankTransactions :=
        for_range tenants bankTransactions (fun tenant bankTransactions =>
          let* r := Accounting.FindBankTransactions
                      (Auth.Client (sessionFor se (Tenant_TenantID tenant))) in
          match r with
          | Err err => log_Panic err
          | Ok bankTr => ret (bankTransactions ++ bankTr)
          end) in
      ret (Executed bankTransactionsTemplate (ResourceData BankTransactions bankTransactions))
  end.

Definition XeroBankTransfersHandler : M World Response :=
  let bankTransfers : list (element BankTransfers) := [] in
  let* (se, _) := Auth.GetSession uuid_Nil in
  let* r := Connection.GetTenants (Auth.Client (sessionFor se uuid_Nil)) in
  match r with
  | Err err => log_Panic err
  | Ok tenants =>
      let* bankTransfers :=
        for_range tenants bankTransfers (fun tenant bankTransfers =>
          let* r := Accounting.FindBankTransfers
                      (Auth.Client (sessionFor se (Tenant_TenantID tenant))) in
          match r with
          | Err err => log_Panic err
          | Ok bankTrns => ret (bankTransfers ++ bankTrns)
          end) in
      ret (Executed bankTransfersTemplate (ResourceData BankTransfers bankTransfers))
  end.

Definition XeroBrandingThemeHandler : M World Response :=
  let brandingThemes : list (element BrandingThemes) := [] in
  let* (se, _) := Auth.GetSession uuid_Nil in
  let* r := Connection.GetTenants (Auth.Client (sessionFor se uuid_Nil)) in
  match r with
  | Err err => log_Panic err
  | Ok tenants =>
      let* brandingThemes :=
        for_range tenants brandingThemes (fun tenant brandingThemes =>
          let* r := Accounting.FindBrandingThemes
                      (Auth.Client (sessionFor se (Tenant_TenantID tenant))) in
          match r with
          | Err err => log_Panic err
          | Ok themes => ret (brandingThemes ++ themes)
          end) in
      ret (Executed brandingThemesTemplate (ResourceData BrandingThemes brandingThemes))
  end.

Definition XeroContactGroupsHandler : M World Response :=
  let contactGroups : list (element ContactGroups) := [] in
  let* (se, _) := Auth.GetSession uuid_Nil in
  let* r := Connection.GetTenants (Auth.Client (sessionFor se uuid_Nil)) in
  match r with
  | Err err => log_Panic err
  | Ok tenants =>
      let* contactGroups :=
        for_range tenants contactGroups (fun tenant contactGroups =>
          let* r := Accounting.FindContactGroups
                      (Auth.Client (sessionFor se (Tenant_TenantID tenant))) in
          match r with
          | Err err => log_Panic err
          | Ok groups => ret (contactGroups ++ groups)
          end) in
      ret (Executed contactGroupsTemplate (ResourceData ContactGroups contactGroups))
  end.

Definition XeroCreditNotesHandler : M World Response :=
  let creditNotes : list (element CreditNotes) := [] in
  let* (se, _) := Auth.GetSession uuid_Nil in
  let* r := Connection.GetTenants (Auth.Client (sessionFor se uuid_Nil)) in
  match r with
  | Err err => log_Panic err
  | Ok tenants =>
      let* creditNotes :=
        for_range tenants creditNotes (fun tenant creditNotes =>
          let* r := Accounting.FindCreditNotes
                      (Auth.Client (sessionFor se (Tenant_TenantID tenant))) in
          match r with
          | Err err => log_Panic err
          | Ok notes => ret (creditNotes ++ notes)
          end) in
      ret (Executed creditNotesTemplate (ResourceData CreditNotes creditNotes))
  end.

Definition XeroCurrencyHandler : M World Response :=
  let currencies : list (element Currencies) := [] in
  let* (se, _) := Auth.GetSession uuid_Nil in
  let* r := Connection.GetTenants (Auth.Client (sessionFor se uuid_Nil)) in
  match r with
  | Err err => log_Panic err
  | Ok tenants =>
      let* currencies :=
        for_range tenants currencies (fun tenant currencies =>
          let* r := Accounting.FindCurrencies
                      (Auth.Client (sessionFor se (Tenant_TenantID tenant))) in
          match r with
          | Err err => log_Panic err
          | Ok c => ret (currencies ++ c)
          end) in
      ret (Executed currenciesTemplate (ResourceData Currencies currencies))
  end.

Definition XeroEmployeesHandler : M World Response :=
  let employees : list (element Employees) := [] in
  let* (se, _) := Auth.GetSession uuid_Nil in
  let* r := Connection.GetTenants (Auth.Client (sessionFor se uuid_Nil)) in
  match r with
  | Err err => log_Panic err
  | Ok tenants =>
      let* employees :=
        for_range tenants employees (fun tenant employees =>
          let* r := Accounting.FindEmployees
                      (Auth.Client (sessionFor se (Tenant_TenantID tenant))) in
          match r with
          | Err err => log_Panic err
          | Ok e => ret (employees ++ e)
          end) in
      ret (Executed employeesTemplate (ResourceData Employees employees))
  end.

Definition XeroInvoiceRemindersHandler : M World Response :=
  let reminders : list (element InvoiceReminders) := [] in
  let* (se, _) := Auth.GetSession uuid_Nil in
  let* r := Connection.GetTenants (Auth.Client (sessionFor se uuid_Nil)) in
  match r with
  | Err err => log_Panic err
  | Ok tenants =>
      let* reminders :=
        for_range tenants reminders (fun tenant reminders =>
          let* r := Accounting.FindInvoiceReminders
                      (Auth.Client (sessionFor se (Tenant_TenantID tenant))) in
          match r with
          | Err err => log_Panic err
          | Ok rem => ret (reminders ++ rem)
          end) in
      ret (Executed invoiceRemindersTemplate (ResourceData InvoiceReminders reminders))
  end.

Definition XeroInvoiceItemsHandler : M World Response :=
  let items : list (element Items) := [] in
  let* (se, _) := Auth.GetSession uuid_Nil in
  let* r := Connection.GetTenants (Auth.Client (sessionFor se uuid_Nil)) in
  match r with
  | Err err => log_Panic err
  | Ok tenants =>
      let* items :=
        for_range tenants items (fun tenant items =>
          let* r := Accounting.FindItems
                      (Auth.Client (sessionFor se (Tenant_TenantID tenant))) in
          match r with
          | Err err => log_Panic err
          | Ok its => ret (items ++ its)
          end) in
      ret (Executed invoiceItemsTemplate (ResourceData Items items))
  end.

(** The part of [*http.Request] the handlers read. *)
Record HTTPRequest : Type := { FormValue : string -> string }.

Definition Handler : Type := HTTPRequest -> M World Response.

(** The routes [main] registers with the router, in its order. *)
Definition routes : list (string * Handler) :=
  [ ("/", fun _ => HomeHandler);
    ("/auth/xero", fun _ => StartXeroAuthHandler);
    ("/auth/xero/callback", fun r => XeroAuthCallbackHandler (FormValue r "code"));
    ("/connections", fun _ => XeroConnectionsHandler);
    ("/contacts", fun _ => XeroContactsHandler);
    ("/contacts/create", fun _ => XeroContactsCreateHandler);
    ("/invoices", fun _ => XeroInvoicesHandler);
    ("/refresh", fun _ => XeroRefreshTokenHandler);
    ("/organisations", fun _ => XeroOrganisationsHandler);
    ("/accounts", fun _ => XeroAccountsHandler);
    ("/bankTransactions", fun _ => XeroBankTransactionsHandler);
    ("/bankTransfers", fun _ => XeroBankTransfersHandler);
    ("/brandingThemes", fun _ => XeroBrandingThemeHandler);
    ("/contactGroups", fun _ => XeroContactGroupsHandler);
    ("/creditNotes", fun _ => XeroCreditNotesHandler);
    ("/currencies", fun _ => XeroCurrencyHandler);
    ("/employees", fun _ => XeroEmployeesHandler);
    ("/invoiceReminders", fun _ => XeroInvoiceRemindersHandler);
    ("/invoiceItems", fun _ => XeroInvoiceItemsHandler) ].

(** The handler the router picks for a path. *)
Fixpoint lookupRoute (table : list (string * Handler)) (path : string)
  : option Handler :=
  match table with
  | [] => None
  | (p, h) :: rest => if String.eqb p path then Some h else lookupRoute rest path
  end.

Definition router (path : string) : option Handler := lookupRoute routes path.

End Main.
End Main.

(* ===================================================================== *)
(** ** Reference definitions used to state the properties *)
(* ===================================================================== *)

Section Reference.
Context `{Environment}.

(** The world after some more events. *)
Definition logged (w : World) (evs : list Event) : World :=
  {| repo := repo w; heap := heap w; trace := trace w ++ evs |}.

(** The world with another heap. *)
Definition withHeap (w : World) (h : list Object) : World :=
  {| repo := repo w; heap := h; trace := trace w |}.

(** The requests among some events, in order. *)
Definition sentRequests (evs : list Event) : list Request :=
  flat_map (fun e => match e with
                     | EvSend _ _ rq => [rq]
                     | _ => []
                     end) evs.

(** The date conversion the resource modules apply to [UpdatedDateUTC]. *)
Definition converted (date : string) : string :=
  fst (helpers_DotNetJSONTimeToRFC3339 date true).

Definition converts (date : string) : Prop :=
  snd (helpers_DotNetJSONTimeToRFC3339 date true) = None.

Definition normaliseContact (c : Contact) : Contact :=
  Contact_setUpdatedDateUTC (converted (UpdatedDateUTC c)) c.

Definition normaliseAccount (a : Account) : Account :=
  Account_setUpdatedDateUTC (converted (AccountUpdatedDateUTC a)) a.

(** The collection at address [l] of world [w] is the decoding of [bs] with
    the date of every element converted, none skipped and none failing. *)
Definition contactsNormalised (bs : bytes) (l : nat) (w : World) : Prop :=
  exists decoded,
    json_Unmarshal_Contacts bs = Ok (Some decoded)
    /\ Forall (fun c => converts (UpdatedDateUTC c)) decoded
    /\ heap w !! l = Some (OContacts (map normaliseContact decoded)).

Definition accountsNormalised (bs : bytes) (l : nat) (w : World) : Prop :=
  exists decoded,
    json_Unmarshal_Accounts bs = Ok (Some decoded)
    /\ Forall (fun a => converts (AccountUpdatedDateUTC a)) decoded
    /\ heap w !! l = Some (OAccounts (map normaliseAccount decoded)).

(** Every collection pointer [m] returns points to a normalised collection. *)
Definition returnsNormalisedContacts (m : M World (Result nat)) : Prop :=
  forall w l w', m w = (Returned (Ok l), w') ->
                 exists bs, contactsNormalised bs l w'.

Definition returnsNormalisedAccounts (m : M World (Result nat)) : Prop :=
  forall w l w', m w = (Returned (Ok l), w') ->
                 exists bs, accountsNormalised bs l w'.

(** *** Who refreshes *)

Definition isRefresh (e : Event) : bool :=
  match e with
  | EvRefresh _ => true
  | _ => false
  end.

(** The clock never passes the expiry of [t]. *)
Definition neverExpires (t : Token) : Prop :=
  forall history, Auth.expired (clock history) t = false.

Definition validToken (se : option Token) : Prop :=
  forall t, se = Some t -> neverExpires t.

(** Running [m] in [w] adds no call of [Provider.Refresh] to the log. *)
Definition quietAt {A : Type} (m : M World A) (w : World) : Prop :=
  exists evs, trace (snd (m w)) = trace w ++ evs
              /\ Forall (fun e => isRefresh e = false) evs.

Definition quiet {A : Type} (m : M World A) : Prop := forall w, quietAt m w.

(** *** The listing loop, as the specification words it *)

(** (d) Fetch the resource from every tenant, in the order of the tenants;
    an error aborts the request. *)
Fixpoint fetchFromEvery {A : Type}
    (fetch : HTTPClient -> M World (Result (list A)))
    (se : option Token) (tenants : list Tenant) : M World (list (list A)) :=
  match tenants with
  | [] => ret []
  | tenant :: rest =>
      let* r := fetch (Auth.Client (Main.sessionFor se (Tenant_TenantID tenant))) in
      match r with
      | Err e => log_Panic e
      | Ok items =>
          let* others := fetchFromEvery fetch se rest in
          ret (items :: others)
      end
  end.

(** (a) load the current session, (b) build an authenticated transport,
    (c) resolve all tenants, (d) fetch from every tenant and concatenate,
    (e) render. *)
Definition listAcrossTenants {A : Type}
    (fetch : HTTPClient -> M World (Result (list A)))
    (render : list A -> Main.Response) : M World Main.Response :=
  let* (se, _) := Auth.GetSession uuid_Nil in
  let transport := Auth.Client (Main.sessionFor se uuid_Nil) in
  let* r := Connection.GetTenants transport in
  match r with
  | Err e => log_Panic e
  | Ok tenants =>
      let* results := fetchFromEvery fetch se tenants in
      ret (render (concat results))
  end.

(** The contacts of one tenant: [FindContacts], then [c.Contacts]. *)
Definition fetchContacts (cl : HTTPClient) : M World (Result (list Contact)) :=
  let* r := Accounting.FindContacts cl in
  match r with
  | Err e => ret (Err e)
  | Ok c => let* cs := Accounting.loadContacts (Some c) in ret (Ok cs)
  end.

(** The accounts of one tenant: [FindAccounts], then [accs.Accounts]. *)
Definition fetchAccounts (cl : HTTPClient) : M World (Result (list Account)) :=
  let* r := Accounting.FindAccounts cl ∅ in
  match r with
  | Err e => ret (Err e)
  | Ok a => let* accs := Accounting.loadAccounts (Some a) in ret (Ok accs)
  end.

(** The handler and the template of each of the other resources. *)
Definition resourceHandler (k : Resource) : M World Main.Response :=
  match k with
  | Invoices => Main.XeroInvoicesHandler
  | Organisations => Main.XeroOrganisationsHandler
  | BankTransactions => Main.XeroBankTransactionsHandler
  | BankTransfers => Main.XeroBankTransfersHandler
  | BrandingThemes => Main.XeroBrandingThemeHandler
  | ContactGroups => Main.XeroContactGroupsHandler
  | CreditNotes => Main.XeroCreditNotesHandler
  | Currencies => Main.XeroCurrencyHandler
  | Employees => Main.XeroEmployeesHandler
  | InvoiceReminders => Main.XeroInvoiceRemindersHandler
  | Items => Main.XeroInvoiceItemsHandler
  end.

Definition resourceTemplate (k : Resource) : Main.Template :=
  match k with
  | Invoices => Main.invoicesTemplate
  | Organisations => Main.organisationsTemplate
  | BankTransactions => Main.bankTransactionsTemplate
  | BankTransfers => Main.bankTransfersTemplate
  | BrandingThemes => Main.brandingThemesTemplate
  | ContactGroups => Main.contactGroupsTemplate
  | CreditNotes => Main.creditNotesTemplate
  | Currencies => Main.currenciesTemplate
  | Employees => Main.employeesTemplate
  | InvoiceReminders => Main.invoiceRemindersTemplate
  | Items => Main.invoiceItemsTemplate
  end.

(** The paths of the listing views and their handlers. *)
Definition listingRoutes : list (string * M World Main.Response) :=
  [ ("/contacts", Main.XeroContactsHandler);
    ("/invoices", resourceHandler Invoices);
    ("/organisations", resourceHandler Organisations);
    ("/accounts", Main.XeroAccountsHandler);
    ("/bankTransactions", resourceHandler BankTransactions);
    ("/bankTransfers", resourceHandler BankTransfers);
    ("/brandingThemes", resourceHandler BrandingThemes);
    ("/contactGroups", resourceHandler ContactGroups);
    ("/creditNotes", resourceHandler CreditNotes);
    ("/currencies", resourceHandler Currencies);
    ("/employees", resourceHandler Employees);
    ("/invoiceReminders", resourceHandler InvoiceReminders);
    ("/invoiceItems", resourceHandler Items) ].

(** A listing handler [h] aborts on the errors of its remote calls: when
    tenant resolution returns an error, and when, the tenants before it
    having been fetched, the fetch for some tenant returns an error, [h]
    panics with that error in the world the failing call left. *)
Definition abortsOnError {A : Type} (h : M World Main.Response)
    (fetch : HTTPClient -> M World (Result (list A))) : Prop :=
  (forall w e w2,
      Connection.GetTenants
        (Auth.Client (Main.sessionFor (repo w !! uuid_Nil) uuid_Nil))
        (logged w [EvGetSession uuid_Nil]) = (Returned (Err e), w2) ->
      h w = (Panicked (LogPanic e), w2))
  /\
  (forall w before tenant after w2 results w3 e w4,
      Connection.GetTenants
        (Auth.Client (Main.sessionFor (repo w !! uuid_Nil) uuid_Nil))
        (logged w [EvGetSession uuid_Nil])
        = (Returned (Ok (before ++ tenant :: after)), w2) ->
      fetchFromEvery fetch (repo w !! uuid_Nil) before w2 = (Returned results, w3) ->
      fetch (Auth.Client (Main.sessionFor (repo w !! uuid_Nil) (Tenant_TenantID tenant))) w3
        = (Returned (Err e), w4) ->
      h w = (Panicked (LogPanic e), w4)).

(** *** What the resource modules leave alone *)

(** Two contacts, or two accounts, that differ at most in [UpdatedDateUTC]. *)
Definition sameContactButDate (c c' : Contact) : Prop :=
  Contact_setUpdatedDateUTC "" c = Contact_setUpdatedDateUTC "" c'.

Definition sameAccountButDate (a a' : Account) : Prop :=
  Account_setUpdatedDateUTC "" a = Account_setUpdatedDateUTC "" a'.

(** [m] only allocates: the objects of the heap it starts from are
    afterwards where and what they were, however [m] ends. *)
Definition allocatesOnly {A : Type} (m : M World A) : Prop :=
  forall w, exists added, heap (snd (m w)) = heap w ++ added.

(** [m] only allocates, and a pointer it returns (the one [ptr] finds in
    its result) is the address of one of the objects it allocated. *)
Definition allocatesFresh {A : Type} (ptr : A -> option nat)
    (m : M World (Result A)) : Prop :=
  forall w, exists added,
    heap (snd (m w)) = heap w ++ added
    /\ forall a l, fst (m w) = Returned (Ok a) -> ptr a = Some l ->
                   (length (heap w) <= l < length (heap w) + length added)%nat.

(** The collection an element pointer points into. *)
Definition collectionOf (p : option (nat * nat)) : option nat :=
  match p with
  | Some (l, _) => Some l
  | None => None
  end.

(** *** What a call sends *)

(** Running [m] in [w] hands no request to the transport but [rq], at most
    once, and exactly once when [m] returns a result. *)
Definition sendsOnlyAt {A : Type} (m : M World (Result A)) (rq : Request)
    (w : World) : Prop :=
  exists evs,
    trace (snd (m w)) = trace w ++ evs
    /\ (sentRequests evs = [] \/ sentRequests evs = [rq])
    /\ (forall a, fst (m w) = Returned (Ok a) -> sentRequests evs = [rq]).

Definition sendsOnly {A : Type} (m : M World (Result A)) (rq : Request) : Prop :=
  forall w, sendsOnlyAt m rq w.

(** The GET of [helpers.Find], the POST of [helpers.Create] and the DELETE
    of [helpers.Remove], as requests. *)
Definition findRequest (resource : string) (hs qs : gmap string string) : Request :=
  {| op := OpFind; url := resource; headers := hs; query := qs; body := [] |}.

Definition createRequest (resource : string) (buf : bytes) : Request :=
  {| op := OpCreate; url := resource; headers := ∅; query := ∅; body := buf |}.

Definition removeRequest (resource : string) : Request :=
  {| op := OpRemove; url := resource; headers := ∅; query := ∅; body := [] |}.

(** *** What happens to the token store *)

(** The sessions of all users but [uuid.Nil] are the same in both stores. *)
Definition othersKept (r r' : gmap UUID Token) : Prop :=
  forall u, u <> uuid_Nil -> r' !! u = r !! u.

(** Running [m] in [w] takes the token store to one related to it by [R]. *)
Definition storeAt {A : Type} (R : gmap UUID Token -> gmap UUID Token -> Prop)
    (m : M World A) (w : World) : Prop :=
  R (repo w) (repo (snd (m w))).

Definition store {A : Type} (R : gmap UUID Token -> gmap UUID Token -> Prop)
    (m : M World A) : Prop :=
  forall w, storeAt R m w.

(** *** What a listing shows and asks for *)

(** A contact, or an account, as decoding leaves it: some element whose
    date converts, with the converted date. *)
Definition normalisedContact (c : Contact) : Prop :=
  exists c0, converts (UpdatedDateUTC c0) /\ c = normaliseContact c0.

Definition normalisedAccount (a : Account) : Prop :=
  exists a0, converts (AccountUpdatedDateUTC a0) /\ a = normaliseAccount a0.

(** The request of [connection.GetTenants]. *)
Definition connectionsRequest : Request := findRequest connectionsURL ∅ ∅.

(** One request [rq] per tenant, in the order of the tenants, each sent for
    its tenant with the access token of [t]. *)
Definition tenantRequests (t : Token) (rq : Request) (tenants : list Tenant)
  : list Event :=
  map (fun tenant => EvSend (Tenant_TenantID tenant) (AccessToken t) rq) tenants.

(** All that a listing that returned has logged: the session was read, the
    tenants were asked for, and [rq] went to every tenant. *)
Definition asksEveryTenant (h : M World Main.Response) (rq : Request)
    (t : Token) (w : World) : Prop :=
  forall resp w',
    h w = (Returned resp, w') ->
    exists tenants w2,
      Connection.GetTenants
        (Auth.Client (Main.sessionFor (Some t) uuid_Nil))
        (logged w [EvGetSession uuid_Nil]) = (Returned (Ok tenants), w2)
      /\ trace w' = trace w ++ EvGetSession uuid_Nil
                      :: EvSend uuid_Nil (AccessToken t) connectionsRequest
                      :: tenantRequests t rq tenants.

(** *** Who refreshes, whatever the token *)

(** What one call through the transport logs when the request leaves, for
    a client of [uuid.Nil] that carries the token [se]: the request alone,
    sent with that token, or one refresh of that token, the new token
    stored, and the request sent with the new one. *)
Inductive through (se : option Token) : list Event -> Prop :=
| through_sent (t : Token) (tenant : UUID) (rq : Request) :
    se = Some t -> through se [EvSend tenant (AccessToken t) rq]
| through_refreshed (t' : Token) (tenant : UUID) (rq : Request) :
    through se [EvRefresh se; EvUpdateSession uuid_Nil t';
                EvSend tenant (AccessToken t') rq].

(** What it logs when a refresh was made and the request did not leave:
    the refresh was refused, or the new token could not be stored. *)
Inductive stopped (se : option Token) : list Event -> Prop :=
| stopped_refused : stopped se [EvRefresh se]
| stopped_unstored (t' : Token) :
    stopped se [EvRefresh se; EvUpdateSession uuid_Nil t'].

(** Running [m] in [w] logs what one call through the transport logs; when
    the request did not leave, [m] returns no result. *)
Definition oneCall {A : Type} (se : option Token) (m : M World (Result A))
    (w : World) : Prop :=
  exists b,
    trace (snd (m w)) = trace w ++ b
    /\ (through se b
        \/ ((b = [] \/ stopped se b) /\ forall a, fst (m w) <> Returned (Ok a))).

(** Running [m] in [w] logs a sequence of calls whose requests left, and
    after them at most one call that stopped, at which [m] panicked. *)
Definition callsAt {A : Type} (se : option Token) (m : M World A)
    (w : World) : Prop :=
  exists calls last,
    trace (snd (m w)) = trace w ++ concat calls ++ last
    /\ Forall (through se) calls
    /\ (last = [] \/ (stopped se last /\ exists p, fst (m w) = Panicked p)).

(** All the handler [h] logs in [w] is: events of its own, none of them a
    refresh, and then calls through the transport with the stored token.
    So every [Refresh] in the log belongs to one request, comes first in
    it, and is followed at once by the storing of the new token and the
    sending of that request, or else ends the handler in a panic. *)
Definition refreshesOnlyInTransport (h : M World Main.Response) (w : World)
  : Prop :=
  exists own calls last,
    trace (snd (h w)) = trace w ++ own ++ concat calls ++ last
    /\ Forall (fun e => isRefresh e = false) own
    /\ Forall (through (repo w !! uuid_Nil)) calls
    /\ (last = []
        \/ (stopped (repo w !! uuid_Nil) last /\ exists p, fst (h w) = Panicked p)).

End Reference.

(** The downward loop of [convertDates] on the elements themselves: indices
    [k - 1], ..., [0] are rewritten in place until one fails. *)
Fixpoint convertPrefix {E : Type} (getDate : E -> string)
    (setDate : string -> E -> E)
    (convert : string -> bool -> string * option error)
    (xs : list E) (k : nat) : list E * option error :=
  match k with
  | O => (xs, None)
  | S n =>
      match xs !! n with
      | None => (xs, None)
      | Some x =>
          let '(s, err) := convert (getDate x) true in
          let xs' := <[n := setDate s x]> xs in
          match err with
          | Some e => (xs', Some e)
          | None => convertPrefix getDate setDate convert xs' n
          end
      end
  end.

(* ===================================================================== *)
(** ** A small platform to run the code on *)
(* ===================================================================== *)

Module Demo.

Definition foreign : Foreign :=
  {| float64 := Z;
     float64_zero := 0;
     ContactPerson := unit;
     Address := unit;
     Phone := unit;
     TrackingCategory := unit;
     BatchPayment := unit;
     BatchPayment_zero := tt;
     element := fun _ => string;
     Tenant := UUID;
     Tenant_TenantID := fun t => t |}.

#[local] Existing Instance foreign.

Definition contact (id name date : string) : Contact :=
  let zero := {| Outstanding := 0; Overdue := 0 |} in
  {| ContactID := id;
     ContactNumber := "";
     AccountNumber := "";
     ContactStatus := "ACTIVE";
     Name := name;
     FirstName := "";
     LastName := "";
     EmailAddress := "";
     SkypeUserName := "";
     ContactPersons := None;
     BankAccountDetails := "";
     TaxNumber := "";
     AccountsReceivableTaxType := "";
     AccountsPayableTaxType := "";
     Addresses := None;
     Phones := None;
     IsSupplier := false;
     IsCustomer := true;
     DefaultCurrency := "";
     XeroNetworkKey := "";
     SalesDefaultAccountCode := "";
     PurchasesDefaultAccountCode := "";
     SalesTrackingCategories := None;
     PurchasesTrackingCategories := None;
     TrackingCategoryName := "";
     TrackingCategoryOption := "";
     UpdatedDateUTC := date;
     ContactGroups_ := None;
     Website := "";
     BatchPayments := tt;
     Discount := 0;
     Balances_ := {| AccountsReceivable := zero; AccountsPayable := zero |};
     HasAttachments := false |}.

Definition account (id name date : string) : Account :=
  {| Code := "200";
     AccountName := name;
     Type_ := "REVENUE";
     BankAccountNumber := "";
     Status := "ACTIVE";
     Description := "";
     BankAccountType := "";
     CurrencyCode := "";
     TaxType := "";
     EnablePaymentsToAccount := false;
     ShowInExpenseClaims := false;
     AccountID := id;
     Class_ := "REVENUE";
     SystemAccount := "";
     ReportingCode := "";
     ReportingCodeName := "";
     AccountHasAttachments := false;
     AccountUpdatedDateUTC := date |}.

(** The token the code exchange hands out, the one a refresh hands out,
    and one that expired long ago. *)
Definition firstToken : Token :=
  {| AccessToken := "access-1"; TokenType := "Bearer";
     RefreshToken := "refresh-1"; Expiry := 2800 |}.

Definition secondToken : Token :=
  {| AccessToken := "access-2"; TokenType := "Bearer";
     RefreshToken := "refresh-2"; Expiry := 4600 |}.

Definition staleToken : Token :=
  {| AccessToken := "access-0"; TokenType := "Bearer";
     RefreshToken := "refresh-1"; Expiry := 10 |}.

Definition connections : string := "https://api.xero.com/connections".

(** The decimal digits of a number of more than four digits. *)
Fixpoint decimalDigits (fuel : nat) (n : Z) : list ascii :=
  match fuel with
  | O => []
  | S f => if n <? 10 then [DotNetDate.digit n]
           else decimalDigits f (n / 10) ++ [DotNetDate.digit n]
  end.

(** The year as [time.Format] writes it: four digits at least, a minus
    sign before the year of an instant before the year 0. *)
Definition yearDigits (y : Z) : list ascii :=
  let magnitude := Z.abs y in
  (if y <? 0 then ["-"%char] else [])
  ++ (if magnitude <=? 9999 then DotNetDate.pad4 magnitude
      else decimalDigits (S (Z.to_nat (Z.log2 magnitude))) magnitude).

(** [t.Format(time.RFC3339)] of the instant [secs] seconds after the epoch,
    in UTC. *)
Definition formatTime (secs : Z) : string :=
  let '(y, m, d) := DotNetDate.civilFromDays (secs / 86400) in
  string_of_list_ascii (yearDigits y)
  +:+ substring 4 16 (DotNetDate.formatRFC3339 y m d (secs mod 86400)).

(** The remote API: the first token sees two tenants, any other token a
    third one as well, whose contacts cannot be fetched; single-element
    lookups find nothing. *)
Definition respond (history : list Event) (tenant : UUID) (bearer : string)
    (rq : Request) : option bytes :=
  let answer (s : string) := Some (list_ascii_of_string s) in
  match op rq with
  | OpFind =>
      if String.eqb (url rq) connections then
        if String.eqb bearer "access-1" then answer "tenants-12"
        else answer "tenants-123"
      else if String.eqb (url rq) "https://api.xero.com/api.xro/2.0/Contacts" then
        match tenant with
        | 1%N => answer "contacts-1"
        | 2%N => answer "contacts-2"
        | _ => None
        end
      else if String.eqb (url rq) "https://api.xero.com/api.xro/2.0/Accounts" then
        answer "accounts"
      else if String.eqb (url rq) "https://api.xero.com/api.xro/2.0/Invoices" then
        answer "invoices"
      else answer "empty"
  | OpCreate | OpUpdate =>
      if String.prefix "https://api.xero.com/api.xro/2.0/Contacts" (url rq)
      then answer "contacts-1"
      else answer "accounts"
  | OpRemove => answer "accounts"
  end.

Definition environment : Environment :=
  {| clock := fun _ => 1000;
     tokenExchange := fun _ code =>
       if String.eqb code "fake-code" then Some firstToken else None;
     tokenRefresh := fun _ t =>
       if String.eqb (RefreshToken t) "refresh-1" then Some secondToken else None;
     apiRespond := respond;
     authURL := fun state =>
       "https://login.xero.com/identity/connect/authorize?state=" +:+ state;
     connectionsURL := connections;
     decodeTenants := fun b =>
       let s := string_of_list_ascii b in
       if String.eqb s "tenants-12" then Some [1%N; 2%N]
       else if String.eqb s "tenants-123" then Some [1%N; 2%N; 3%N]
       else None;
     resourceURL := fun _ => "https://api.xero.com/api.xro/2.0/Invoices";
     decodeResource := fun _ b => Ok [string_of_list_ascii b];
     helpers_DotNetJSONTimeToRFC3339 := DotNetDate.DotNetJSONTimeToRFC3339;
     uuid_NewV4 := fun history => (N.of_nat (length history) + 16)%N;
     UUID_String := fun u =>
       match u with
       | 0%N => "00000000-0000-0000-0000-000000000000"
       | _ => "6f1c2b9a-0000-4000-8000-000000000001"
       end;
     time_Format_RFC3339 := formatTime;
     json_Unmarshal_Contacts := fun b =>
       let s := string_of_list_ascii b in
       if String.eqb s "contacts-1" then
         Ok (Some [contact "c-1" "Ann" "/Date(1580000000000+0000)/"])
       else if String.eqb s "contacts-2" then
         Ok (Some [contact "c-2" "Bob" "/Date(1579990400000+0000)/";
                   contact "c-3" "Cy" "/Date(0)/"])
       else if String.eqb s "empty" then Ok (Some [])
       else if String.eqb s "null" then Ok None
       else Err (DecodeError "contacts");
     json_Marshal_Contacts := fun v =>
       match v with
       | Some cs => Ok (list_ascii_of_string (String.concat "," (map Name cs)))
       | None => Ok (list_ascii_of_string "null")
       end;
     json_Unmarshal_Accounts := fun b =>
       let s := string_of_list_ascii b in
       if String.eqb s "accounts" then
         Ok (Some [account "a-1" "Sales" "/Date(1580000000000+0000)/"])
       else if String.eqb s "empty" then Ok (Some [])
       else Err (DecodeError "accounts");
     json_Marshal_Accounts := fun v =>
       match v with
       | Some accs => Ok (list_ascii_of_string (String.concat "," (map AccountName accs)))
       | None => Ok (list_ascii_of_string "null")
       end |}.

#[local] Existing Instance environment.

(** No session yet; a session with the first token; one with the second;
    one with the stale token. *)
Definition emptyWorld : World := {| repo := ∅; heap := []; trace := [] |}.

Definition worldWith (t : Token) : World :=
  {| repo := {[ uuid_Nil := t ]}; heap := []; trace := [] |}.

(** A world with Ann and the sales account on the heap. *)
Definition worldWithObjects : World :=
  {| repo := {[ uuid_Nil := firstToken ]};
     heap := [OContacts [contact "c-1" "Ann" "2020-01-26T00:53:20Z"];
              OAccounts [account "a-1" "Sales" "2020-01-26T00:53:20Z"]];
     trace := [] |}.

Definition request : Main.HTTPRequest :=
  {| Main.FormValue := fun key => if String.eqb key "code" then "fake-code" else "" |}.

Definition clientOf (t : Token) (tenant : UUID) : HTTPClient :=
  Auth.Client (Main.sessionFor (Some t) tenant).

Definition someRequest : Request :=
  {| op := OpFind; url := "https://api.xero.com/api.xro/2.0/Contacts";
     headers := ∅; query := ∅; body := [] |}.

(** A token for a user who has connected no tenant yet. *)
Definition loneToken : Token :=
  {| AccessToken := "access-9"; TokenType := "Bearer";
     RefreshToken := "refresh-9"; Expiry := 2800 |}.

(** A rougher platform: with the lone token the connections are empty;
    tenant 9 answers [null] to everything, tenant 8 the contacts of
    tenant 2, tenant 7 the accounts; otherwise as [respond]. *)
Definition roughRespond (history : list Event) (tenant : UUID) (bearer : string)
    (rq : Request) : option bytes :=
  let answer (s : string) := Some (list_ascii_of_string s) in
  if String.eqb (url rq) connections && String.eqb bearer "access-9"
  then answer "tenants-0"
  else match tenant with
       | 9%N => answer "null"
       | 8%N => answer "contacts-2"
       | 7%N => answer "accounts"
       | _ => respond history tenant bearer rq
       end.

(** The platform of [environment] with [roughRespond], and a decoder that
    knows some more bodies: a collection with a date that is not a legacy
    date, and [null] for accounts as well. *)
Definition roughEnvironment : Environment :=
  {| clock := clock;
     tokenExchange := tokenExchange;
     tokenRefresh := tokenRefresh;
     apiRespond := roughRespond;
     authURL := authURL;
     connectionsURL := connectionsURL;
     decodeTenants := fun b =>
       if String.eqb (string_of_list_ascii b) "tenants-0" then Some []
       else decodeTenants b;
     resourceURL := resourceURL;
     decodeResource := decodeResource;
     helpers_DotNetJSONTimeToRFC3339 := helpers_DotNetJSONTimeToRFC3339;
     uuid_NewV4 := uuid_NewV4;
     UUID_String := UUID_String;
     time_Format_RFC3339 := time_Format_RFC3339;
     json_Unmarshal_Contacts := fun b =>
       if String.eqb (string_of_list_ascii b) "contacts-bad" then
         Ok (Some [contact "c-4" "Dee" "/Date(0)/";
                   contact "c-5" "Eve" "yesterday";
                   contact "c-6" "Fay" "/Date(86400000)/"])
       else json_Unmarshal_Contacts b;
     json_Marshal_Contacts := json_Marshal_Contacts;
     json_Unmarshal_Accounts := fun b =>
       let s := string_of_list_ascii b in
       if String.eqb s "accounts-bad" then
         Ok (Some [account "a-2" "Rent" "soon";
                   account "a-3" "Fees" "/Date(86400000)/"])
       else if String.eqb s "null" then Ok None
       else json_Unmarshal_Accounts b;
     json_Marshal_Accounts := json_Marshal_Accounts |}.

(** A world with three contacts and two accounts on the heap, the dates
    still as the platform sends them; the second contact and the first
    account carry a date that is not a legacy date. *)
Definition worldWithRawObjects : World :=
  {| repo := {[ uuid_Nil := firstToken ]};
     heap := [OContacts [contact "c-4" "Dee" "/Date(0)/";
                         contact "c-5" "Eve" "yesterday";
                         contact "c-6" "Fay" "/Date(86400000)/"];
              OAccounts [account "a-2" "Rent" "soon";
                         account "a-3" "Fees" "/Date(86400000)/"]];
     trace := [] |}.

(** A store with a second user beside [uuid.Nil]. *)
Definition worldWithTwoUsers : World :=
  {| repo := <[ 5%N := secondToken ]> {[ uuid_Nil := staleToken ]};
     heap := []; trace := [] |}.

End Demo.

(* ===================================================================== *)
(** * Properties *)
(* ===================================================================== *)

(** ** Date normalisation *)

Section DateNormalisation.
Import DotNetDate.

Lemma isDigit_digit (n : Z) : isDigit (digit n) = true.
Proof.
  unfold digit.
  destruct (Z.to_nat (n mod 10)) as [|[|[|[|[|[|[|[|[|k]]]]]]]]]; reflexivity.
Qed.

Lemma formatRFC3339_shape (y m d sod : Z) : isRFC3339 (formatRFC3339 y m d sod) = true.
Proof.
  unfold isRFC3339, formatRFC3339.
  rewrite list_ascii_of_string_of_list_ascii.
  unfold pad4, pad2. cbn [app forallb].
  rewrite !isDigit_digit. reflexivity.
Qed.

(** A timestamp starts with a digit, a legacy date with a slash. *)
Lemma isRFC3339_head (t : string) :
  isRFC3339 t = true -> exists c rest, t = String c rest /\ isDigit c = true.
Proof.
  destruct t as [|c rest]; [discriminate|].
  intros Ht. exists c, rest. split; [reflexivity|].
  unfold isRFC3339 in Ht. cbn [list_ascii_of_string] in Ht.
  repeat match type of Ht with
         | context [match ?l with [] => _ | _ :: _ => _ end] =>
             destruct l; try discriminate Ht
         end.
  apply andb_true_iff in Ht as [Ht _].
  cbn [forallb] in Ht. apply andb_true_iff in Ht as [Ht _]. exact Ht.
Qed.

Lemma not_legacy_when_digit (c : ascii) (rest : string) :
  isDigit c = true -> parseDotNetDate (String c rest) = None.
Proof.
  intros Hc. unfold parseDotNetDate. cbn [list_ascii_of_string stripPrefix].
  destruct (Ascii.eqb_spec "/"%char c) as [<-|_]; [discriminate Hc|reflexivity].
Qed.

(** C4 (amended).  The legacy input ["/Date(1580000000000+0000)/"] is
    normalised to the equivalent timestamp, which is
    [2020-01-26T00:53:20Z]; whatever normalisation produces has the shape
    of an RFC3339 timestamp; and normalising a value of that shape is a
    no-op or an explicit error: it never returns another value without an
    error. *)
Theorem legacy_date_becomes_the_equivalent_timestamp :
  DotNetJSONTimeToRFC3339 "/Date(1580000000000+0000)/" true
  = ("2020-01-26T00:53:20Z", None)
  /\ (forall s isUTC t,
        DotNetJSONTimeToRFC3339 s isUTC = (t, None) -> isRFC3339 t = true)
  /\ (forall t isUTC,
        isRFC3339 t = true ->
        DotNetJSONTimeToRFC3339 t isUTC = (t, None)
        \/ exists s e, DotNetJSONTimeToRFC3339 t isUTC = (s, Some e)).
Proof.
  split; [vm_compute; reflexivity|]. split.
  - intros s isUTC t. unfold DotNetJSONTimeToRFC3339.
    destruct (parseDotNetDate s) as [ms|]; [|discriminate].
    destruct (civilFromDays (ms / 1000 / 86400)) as [[y m] d].
    destruct ((0 <=? y) && (y <=? 9999)); [|discriminate].
    intros Ht. injection Ht as <-. apply formatRFC3339_shape.
  - intros t isUTC Ht.
    destruct (isRFC3339_head t Ht) as (c & rest & -> & Hc).
    unfold DotNetJSONTimeToRFC3339. rewrite (not_legacy_when_digit c rest Hc).
    right. eauto.
Qed.

End DateNormalisation.

(** ** Running the primitives *)

Section Primitives.
Context `{Environment}.

Lemma GetSession_run (u : UUID) (w : World) :
  Auth.GetSession u w =
  (Returned match repo w !! u with
            | Some t => (Some t, None)
            | None => (None, Some (NotFoundError "no session"))
            end,
   logged w [EvGetSession u]).
Proof.
  unfold Auth.GetSession, Auth.emit, bind, modify, get. cbn.
  destruct (repo w !! u); reflexivity.
Qed.

Lemma CreateSession_run (u : UUID) (t : Token) (w : World) :
  Auth.CreateSession u t w =
  (Returned tt, {| repo := <[u := t]> (repo w); heap := heap w;
                   trace := trace w ++ [EvCreateSession u t] |}).
Proof. reflexivity. Qed.

Lemma UpdateSession_run (u : UUID) (t : Token) (w : World) :
  Auth.UpdateSession u t w =
  match repo w !! u with
  | Some _ => (Returned None,
               {| repo := <[u := t]> (repo w); heap := heap w;
                  trace := trace w ++ [EvUpdateSession u t] |})
  | None => (Returned (Some (NotFoundError "no session")),
             logged w [EvUpdateSession u t])
  end.
Proof.
  unfold Auth.UpdateSession, Auth.emit, Auth.setRepo, bind, modify, get. cbn.
  destruct (repo w !! u); reflexivity.
Qed.

Lemma GetTokenFromCode_run (code : string) (w : World) :
  Auth.GetTokenFromCode code w =
  (Returned match tokenExchange (trace w) code with
            | Some t => Ok t
            | None => Err (AuthError "code exchange failed")
            end,
   logged w [EvExchange code]).
Proof.
  unfold Auth.GetTokenFromCode, Auth.emit, bind, modify, get. cbn.
  destruct (tokenExchange (trace w) code); reflexivity.
Qed.

Lemma Refresh_run (cur : option Token) (w : World) :
  exists r, Auth.Refresh cur w = (Returned r, logged w [EvRefresh cur]).
Proof.
  unfold Auth.Refresh, Auth.emit, bind, modify, get. cbn.
  destruct cur as [t|]; [|eauto].
  destruct (String.eqb (RefreshToken t) ""); [eauto|].
  destruct (tokenRefresh (trace w) t); eauto.
Qed.

Lemma router_home : Main.router "/" = Some (fun _ => Main.HomeHandler).
Proof. reflexivity. Qed.

Lemma router_callback :
  Main.router "/auth/xero/callback"
  = Some (fun r => Main.XeroAuthCallbackHandler (Main.FormValue r "code")).
Proof. reflexivity. Qed.

Lemma router_connections :
  Main.router "/connections" = Some (fun _ => Main.XeroConnectionsHandler).
Proof. reflexivity. Qed.

Lemma router_refresh :
  Main.router "/refresh" = Some (fun _ => Main.XeroRefreshTokenHandler).
Proof. reflexivity. Qed.

End Primitives.

(** ** Status page, callback, forced refresh, connections *)

Section SessionHandlers.
Context `{Environment}.

(** C7.  A GET to [/] with no stored session executes the index (not
    connected) template; a callback that completes stores the token it
    obtained, answers with the connected template on that token, and a GET to
    [/] afterwards executes the connected template on the same token. *)
Theorem home_follows_the_stored_session :
  (forall h r w,
      Main.router "/" = Some h ->
      repo w !! uuid_Nil = None ->
      fst (h r w) = Returned (Main.Executed Main.indexTemplate (Main.TokenData None)))
  /\
  (forall cb home r r' w resp w1,
      Main.router "/auth/xero/callback" = Some cb ->
      Main.router "/" = Some home ->
      cb r w = (Returned resp, w1) ->
      exists token,
        tokenExchange (trace w) (Main.FormValue r "code") = Some token
        /\ resp = Main.Executed Main.connectedTemplate (Main.TokenData (Some token))
        /\ repo w1 !! uuid_Nil = Some token
        /\ fst (home r' w1)
           = Returned (Main.Executed Main.connectedTemplate
                         (Main.TokenData (Some token)))).
Proof.
  split.
  - intros h r w Hh Hnone. rewrite router_home in Hh. injection Hh as <-.
    unfold Main.HomeHandler, bind. rewrite GetSession_run, Hnone. reflexivity.
  - intros cb home r r' w resp w1 Hcb Hhome Hrun.
    rewrite router_callback in Hcb. injection Hcb as <-.
    rewrite router_home in Hhome. injection Hhome as <-.
    unfold Main.XeroAuthCallbackHandler, bind in Hrun.
    rewrite GetTokenFromCode_run in Hrun.
    destruct (tokenExchange (trace w) (Main.FormValue r "code")) as [token|];
      [|discriminate Hrun].
    rewrite CreateSession_run in Hrun. injection Hrun as <- <-.
    exists token. cbn [repo]. rewrite lookup_insert_eq.
    repeat split.
    unfold Main.HomeHandler, bind. rewrite GetSession_run. cbn [repo].
    rewrite lookup_insert_eq. reflexivity.
Qed.

(** C8 (amended).  With a session stored for [uuid.Nil], a GET to
    [/refresh] calls [Provider.Refresh] once on the stored token.  When
    [Refresh] returns a new token the handler then calls [UpdateSession] for
    [uuid.Nil] with it, leaves it in the store under that key and answers
    with a redirect (302) to [/].  When [Refresh] returns an error the handler
    panics with that error: the store is as it was and nothing is written. *)
Theorem refresh_route_refreshes_persists_redirects :
  forall h r w tok,
    Main.router "/refresh" = Some h ->
    repo w !! uuid_Nil = Some tok ->
    (forall newToken w2,
        Auth.Refresh (Some tok) (logged w [EvGetSession uuid_Nil])
          = (Returned (Ok newToken), w2) ->
        h r w =
        (Returned (Main.Redirected "/" Main.StatusFound),
         {| repo := <[uuid_Nil := newToken]> (repo w);
            heap := heap w;
            trace := trace w ++ [EvGetSession uuid_Nil; EvRefresh (Some tok);
                                 EvUpdateSession uuid_Nil newToken] |}))
    /\
    (forall e w2,
        Auth.Refresh (Some tok) (logged w [EvGetSession uuid_Nil])
          = (Returned (Err e), w2) ->
        h r w =
        (Panicked (LogPanic e),
         logged w [EvGetSession uuid_Nil; EvRefresh (Some tok)])).
Proof.
  intros h r w tok Hh Hstored.
  rewrite router_refresh in Hh. injection Hh as <-.
  destruct (Refresh_run (Some tok) (logged w [EvGetSession uuid_Nil])) as [r0 Hr0].
  split.
  - intros newToken w2 Hrefresh.
    unfold Main.XeroRefreshTokenHandler.
    unfold bind at 1. rewrite GetSession_run, Hstored.
    unfold bind at 1. rewrite Hrefresh.
    rewrite Hr0 in Hrefresh. injection Hrefresh as -> <-.
    unfold bind. rewrite UpdateSession_run. cbn [repo logged].
    rewrite Hstored. cbn. unfold ret. rewrite <- !app_assoc. reflexivity.
  - intros e w2 Hrefresh.
    unfold Main.XeroRefreshTokenHandler.
    unfold bind at 1. rewrite GetSession_run, Hstored.
    unfold bind. rewrite Hrefresh.
    rewrite Hr0 in Hrefresh. injection Hrefresh as -> <-.
    unfold log_Panic, throw, logged. cbn. rewrite <- !app_assoc. reflexivity.
Qed.

(** C5 (amended).  A GET to [/connections] before any session exists hands
    a transport without a token to tenant resolution; when that returns an
    error the handler panics with this very error and writes nothing, and
    whatever this handler does write is never a 401. *)
Theorem connections_without_session_panics_on_error :
  forall h r w,
    Main.router "/connections" = Some h ->
    repo w !! uuid_Nil = None ->
    (forall e w2,
        Connection.GetTenants (Auth.Client (Main.sessionFor None uuid_Nil))
          (logged w [EvGetSession uuid_Nil]) = (Returned (Err e), w2) ->
        h r w = (Panicked (LogPanic e), w2))
    /\
    (forall resp w', h r w = (Returned resp, w') ->
                     Main.statusCode resp <> Main.StatusUnauthorized).
Proof.
  intros h r w Hh Hnone. rewrite router_connections in Hh. injection Hh as <-.
  assert (Hstep : Main.XeroConnectionsHandler w =
                  match Connection.GetTenants
                          (Auth.Client (Main.sessionFor None uuid_Nil))
                          (logged w [EvGetSession uuid_Nil]) with
                  | (Returned (Ok tenants), w2) => (Returned (Main.Encoded tenants), w2)
                  | (Returned (Err e), w2) => (Panicked (LogPanic e), w2)
                  | (Panicked p, w2) => (Panicked p, w2)
                  end).
  { unfold Main.XeroConnectionsHandler.
    unfold bind at 1. rewrite GetSession_run, Hnone. unfold bind.
    destruct (Connection.GetTenants _ _) as [[[ts|e]|p] w2]; reflexivity. }
  rewrite Hstep. split.
  - intros e w2 Hfail. rewrite Hfail. reflexivity.
  - intros resp w'.
    destruct (Connection.GetTenants _ _) as [[[ts|e]|p] w2];
      intros Hrun; try discriminate Hrun.
    injection Hrun as <- <-. cbn. discriminate.
Qed.

End SessionHandlers.

(** ** The date loop *)

Section ConvertLoop.
Context {E : Type} (getDate : E -> string) (setDate : string -> E -> E).
Context (convert : string -> bool -> string * option error).

Local Abbreviation norm := (fun x : E => setDate (fst (convert (getDate x) true)) x).
Local Abbreviation loop := (convertPrefix getDate setDate convert).

Lemma convertPrefix_length (xs : list E) (k : nat) :
  length (fst (loop xs k)) = length xs.
Proof.
  revert xs. induction k as [|n IH]; intros xs; [reflexivity|].
  cbn [convertPrefix].
  destruct (xs !! n) as [x|]; [|reflexivity].
  destruct (convert (getDate x) true) as [s [e|]]; cbn [fst].
  - apply length_insert.
  - rewrite IH. apply length_insert.
Qed.

(** When the loop ends without an error, every index below [k] holds the
    normalised element and the others are as they were. *)
Lemma convertPrefix_done (xs : list E) (k : nat) :
  (k <= length xs)%nat ->
  snd (loop xs k) = None ->
  fst (loop xs k) = map norm (take k xs) ++ drop k xs
  /\ Forall (fun x => snd (convert (getDate x) true) = None) (take k xs).
Proof.
  revert xs. induction k as [|n IH]; intros xs Hk Hnone.
  - cbn. split; [reflexivity|constructor].
  - cbn [convertPrefix] in *.
    destruct (lookup_lt_is_Some_2 xs n) as [x Hx]; [lia|].
    rewrite Hx in *.
    destruct (convert (getDate x) true) as [s [e|]] eqn:Hc; [discriminate Hnone|].
    destruct (IH (<[n := setDate s x]> xs)) as [Hfst Hall];
      [rewrite length_insert; lia|exact Hnone|].
    rewrite take_insert_ge in Hfst, Hall by lia.
    rewrite drop_insert_ge in Hfst by lia.
    rewrite Nat.sub_diag in Hfst.
    rewrite (drop_S xs x n Hx) in Hfst. cbn [insert list_insert] in Hfst.
    rewrite (take_S_r xs n x Hx). split.
    + rewrite Hfst, map_app, <- app_assoc. cbn [map app].
      rewrite Hc. reflexivity.
    + apply Forall_app. split; [exact Hall|].
      constructor; [rewrite Hc; reflexivity|constructor].
Qed.

Lemma convertPrefix_all (xs : list E) :
  snd (loop xs (length xs)) = None ->
  fst (loop xs (length xs)) = map norm xs
  /\ Forall (fun x => snd (convert (getDate x) true) = None) xs.
Proof.
  intros Hnone. destruct (convertPrefix_done xs (length xs)) as [Hfst Hall];
    [lia|exact Hnone|].
  rewrite firstn_all, drop_all, app_nil_r in Hfst.
  rewrite firstn_all in Hall. split; assumption.
Qed.

End ConvertLoop.

(** ** Decoding a response *)

Section Decoding.
Context `{Environment}.

Local Abbreviation contactsLoop :=
  (convertPrefix UpdatedDateUTC Contact_setUpdatedDateUTC
     helpers_DotNetJSONTimeToRFC3339).
Local Abbreviation accountsLoop :=
  (convertPrefix AccountUpdatedDateUTC Account_setUpdatedDateUTC
     helpers_DotNetJSONTimeToRFC3339).

Lemma withHeap_same (w : World) : withHeap w (heap w) = w.
Proof. destruct w; reflexivity. Qed.

Lemma loadContacts_run (l : nat) (cs : list Contact) (w : World) :
  heap w !! l = Some (OContacts cs) ->
  Accounting.loadContacts (Some l) w = (Returned cs, w).
Proof.
  intros Hl. unfold Accounting.loadContacts, bind, get. rewrite Hl. reflexivity.
Qed.

Lemma loadAccounts_run (l : nat) (accs : list Account) (w : World) :
  heap w !! l = Some (OAccounts accs) ->
  Accounting.loadAccounts (Some l) w = (Returned accs, w).
Proof.
  intros Hl. unfold Accounting.loadAccounts, bind, get. rewrite Hl. reflexivity.
Qed.

(** The monadic loop does on the heap what [convertPrefix] does on the
    list. *)
Lemma Contacts_convertDates_from_run (l : nat) (k : nat) :
  forall (cs : list Contact) (w : World),
    heap w !! l = Some (OContacts cs) ->
    (k <= length cs)%nat ->
    Accounting.Contacts_convertDates_from (Some l) k w
    = (Returned (snd (contactsLoop cs k)),
       withHeap w (<[l := OContacts (fst (contactsLoop cs k))]> (heap w))).
Proof.
  induction k as [|n IH]; intros cs w Hl Hk.
  - cbn. rewrite (list_insert_id _ _ _ Hl), withHeap_same. reflexivity.
  - cbn [Accounting.Contacts_convertDates_from convertPrefix].
    unfold bind at 1. rewrite (loadContacts_run l cs w Hl).
    destruct (lookup_lt_is_Some_2 cs n) as [x Hx]; [lia|]. rewrite Hx.
    destruct (helpers_DotNetJSONTimeToRFC3339 (UpdatedDateUTC x) true) as [s err].
    unfold bind at 1. cbn [Accounting.storeContacts].
    unfold bind at 1, get, Auth.setHeap, modify.
    pose proof (lookup_lt_Some _ _ _ Hl) as Hlt.
    destruct err as [e|]; [reflexivity|].
    rewrite (IH (<[n := Contact_setUpdatedDateUTC s x]> cs));
      cbn [heap repo trace withHeap].
    + rewrite list_insert_insert_eq. reflexivity.
    + apply list_lookup_insert_eq. exact Hlt.
    + rewrite length_insert. lia.
Qed.

Lemma Accounts_convertDates_from_run (l : nat) (k : nat) :
  forall (accs : list Account) (w : World),
    heap w !! l = Some (OAccounts accs) ->
    (k <= length accs)%nat ->
    Accounting.Accounts_convertDates_from (Some l) k w
    = (Returned (snd (accountsLoop accs k)),
       withHeap w (<[l := OAccounts (fst (accountsLoop accs k))]> (heap w))).
Proof.
  induction k as [|n IH]; intros accs w Hl Hk.
  - cbn. rewrite (list_insert_id _ _ _ Hl), withHeap_same. reflexivity.
  - cbn [Accounting.Accounts_convertDates_from convertPrefix].
    unfold bind at 1. rewrite (loadAccounts_run l accs w Hl).
    destruct (lookup_lt_is_Some_2 accs n) as [x Hx]; [lia|]. rewrite Hx.
    destruct (helpers_DotNetJSONTimeToRFC3339 (AccountUpdatedDateUTC x) true)
      as [s err].
    unfold bind at 1. cbn [Accounting.storeAccounts].
    unfold bind at 1, get, Auth.setHeap, modify.
    pose proof (lookup_lt_Some _ _ _ Hl) as Hlt.
    destruct err as [e|]; [reflexivity|].
    rewrite (IH (<[n := Account_setUpdatedDateUTC s x]> accs));
      cbn [heap repo trace withHeap].
    + rewrite list_insert_insert_eq. reflexivity.
    + apply list_lookup_insert_eq. exact Hlt.
    + rewrite length_insert. lia.
Qed.

(** [unmarshalContact], run to its end. *)
Lemma unmarshalContact_run (bs : bytes) (w : World) :
  Accounting.unmarshalContact bs w =
  match json_Unmarshal_Contacts bs with
  | Err e => (Returned (Err e), w)
  | Ok None => (Panicked NilDereference, w)
  | Ok (Some cs) =>
      (Returned match snd (contactsLoop cs (length cs)) with
                | Some e => Err e
                | None => Ok (length (heap w))
                end,
       withHeap w (heap w ++ [OContacts (fst (contactsLoop cs (length cs)))]))
  end.
Proof.
  unfold Accounting.unmarshalContact.
  destruct (json_Unmarshal_Contacts bs) as [[cs|]|e]; [|reflexivity|reflexivity].
  unfold bind at 1. unfold Accounting.new, bind at 1, get, Auth.setHeap, modify, ret.
  cbn [fst snd heap].
  unfold Accounting.Contacts_convertDates, bind.
  set (w1 := {| repo := repo w; heap := heap w ++ [OContacts cs]; trace := trace w |}).
  assert (Hl : heap w1 !! length (heap w) = Some (OContacts cs))
    by (apply list_lookup_middle; reflexivity).
  rewrite (loadContacts_run _ _ _ Hl).
  rewrite (Contacts_convertDates_from_run _ _ _ _ Hl) by lia.
  subst w1. cbn [heap repo trace withHeap].
  rewrite insert_app_r_alt, Nat.sub_diag by lia. cbn [insert list_insert].
  destruct (snd (contactsLoop cs (length cs))); reflexivity.
Qed.

Lemma unmarshalAccount_run (bs : bytes) (w : World) :
  Accounting.unmarshalAccount bs w =
  match json_Unmarshal_Accounts bs with
  | Err e => (Returned (Err e), w)
  | Ok None => (Panicked NilDereference, w)
  | Ok (Some accs) =>
      (Returned match snd (accountsLoop accs (length accs)) with
                | Some e => Err e
                | None => Ok (length (heap w))
                end,
       withHeap w (heap w ++ [OAccounts (fst (accountsLoop accs (length accs)))]))
  end.
Proof.
  unfold Accounting.unmarshalAccount.
  destruct (json_Unmarshal_Accounts bs) as [[accs|]|e]; [|reflexivity|reflexivity].
  unfold bind at 1. unfold Accounting.new, bind at 1, get, Auth.setHeap, modify, ret.
  cbn [fst snd heap].
  unfold Accounting.Accounts_convertDates, bind.
  set (w1 := {| repo := repo w; heap := heap w ++ [OAccounts accs]; trace := trace w |}).
  assert (Hl : heap w1 !! length (heap w) = Some (OAccounts accs))
    by (apply list_lookup_middle; reflexivity).
  rewrite (loadAccounts_run _ _ _ Hl).
  rewrite (Accounts_convertDates_from_run _ _ _ _ Hl) by lia.
  subst w1. cbn [heap repo trace withHeap].
  rewrite insert_app_r_alt, Nat.sub_diag by lia. cbn [insert list_insert].
  destruct (snd (accountsLoop accs (length accs))); reflexivity.
Qed.

End Decoding.

(** ** The transport *)

Section Transport.
Context `{Environment}.

Lemma send_run (se : Session) (t : Token) (rq : Request) (w : World) :
  Auth.send se t rq w =
  (Returned match apiRespond (trace w) (TenantID se) (AccessToken t) rq with
            | Some b => Ok b
            | None => Err (TransportError "request failed")
            end,
   logged w [EvSend (TenantID se) (AccessToken t) rq]).
Proof.
  unfold Auth.send, Auth.emit, bind, modify, get. cbn.
  destruct (apiRespond (trace w) (TenantID se) (AccessToken t) rq); reflexivity.
Qed.

(** A request through the transport always returns; it leaves the heap
    alone, and among what it adds to the log there is no request but the one
    it was given, present whenever a body comes back. *)
Lemma Do_frame (cl : HTTPClient) (rq : Request) (w : World) :
  exists r w' evs,
    Auth.Do cl rq w = (Returned r, w')
    /\ heap w' = heap w
    /\ trace w' = trace w ++ evs
    /\ (sentRequests evs = [] \/ sentRequests evs = [rq])
    /\ (forall b, r = Ok b -> sentRequests evs = [rq]).
Proof.
  unfold Auth.Do. destruct (Token_ (session cl)) as [t|].
  2:{ exists (Err (AuthError "no token")), w, []. rewrite app_nil_r.
      repeat split; auto. discriminate. }
  unfold bind at 1, get.
  destruct (Auth.expired (clock (trace w)) t).
  2:{ rewrite send_run. eexists _, _, _. split; [reflexivity|].
      cbn. repeat split; auto. }
  unfold bind at 1.
  destruct (Refresh_run (Some t) w) as [r Hr]. rewrite Hr.
  destruct r as [t'|e].
  2:{ exists (Err e), (logged w [EvRefresh (Some t)]), [EvRefresh (Some t)].
      cbn. repeat split; auto. discriminate. }
  unfold bind at 1. rewrite UpdateSession_run. cbn [logged repo].
  destruct (repo w !! UserID (session cl)).
  - rewrite send_run. eexists _, _, _. split; [reflexivity|].
    cbn. rewrite <- !app_assoc. repeat split; auto.
  - eexists _, _, _. split; [reflexivity|].
    cbn. rewrite <- !app_assoc. repeat split; auto. discriminate.
Qed.

Lemma gateway_frame (cl : HTTPClient) (rq : Request) (w : World) :
  exists r w' evs,
    Helpers.gateway cl rq w = (Returned r, w')
    /\ heap w' = heap w
    /\ trace w' = trace w ++ evs
    /\ (sentRequests evs = [] \/ sentRequests evs = [rq])
    /\ (forall b, r = Ok b -> sentRequests evs = [rq]).
Proof.
  destruct (Do_frame cl rq w) as (r & w' & evs & Hrun & Hheap & Htrace & Hsent & Hok).
  exists (Helpers.surface r), w', evs. unfold Helpers.gateway, bind. rewrite Hrun.
  repeat split; auto.
  intros b Hb. destruct r as [b'|e]; [|discriminate Hb]. eauto.
Qed.

(** With a token that does not expire a request leaves as it is. *)
Lemma Do_valid_run (cl : HTTPClient) (t : Token) (rq : Request) (w : World) :
  Token_ (session cl) = Some t -> neverExpires t ->
  Auth.Do cl rq w = Auth.send (session cl) t rq w.
Proof.
  intros Htoken Hnever. unfold Auth.Do. rewrite Htoken.
  unfold bind at 1, get. rewrite (Hnever (trace w)). reflexivity.
Qed.

Lemma bind_silent {A B : Type} (m : M World A) (k : A -> M World B) (w : World) :
  (forall a w0, trace (snd (k a w0)) = trace w0) ->
  trace (snd (bind m k w)) = trace (snd (m w)).
Proof.
  intros Hk. unfold bind. destruct (m w) as [[a|p] w1]; [apply Hk|reflexivity].
Qed.

Lemma gateway_valid_trace (cl : HTTPClient) (t : Token) (rq : Request) (w : World) :
  Token_ (session cl) = Some t -> neverExpires t ->
  trace (snd (Helpers.gateway cl rq w))
  = trace w ++ [EvSend (TenantID (session cl)) (AccessToken t) rq].
Proof.
  intros Htoken Hnever. unfold Helpers.gateway.
  rewrite bind_silent by reflexivity.
  rewrite (Do_valid_run cl t rq w Htoken Hnever), send_run. reflexivity.
Qed.

End Transport.

(** ** Results of the resource modules *)

Section Results.
Context `{Environment}.

Lemma unmarshalContact_normalises (bs : bytes) (w : World) (l : nat) (w' : World) :
  Accounting.unmarshalContact bs w = (Returned (Ok l), w') ->
  contactsNormalised bs l w' /\ l = length (heap w).
Proof.
  rewrite unmarshalContact_run.
  destruct (json_Unmarshal_Contacts bs) as [[cs|]|e] eqn:Hjson; try discriminate.
  destruct (snd (convertPrefix _ _ _ cs (length cs))) eqn:Hloop; [discriminate|].
  intros Hrun. injection Hrun as <- <-.
  destruct (convertPrefix_all _ _ _ cs Hloop) as [Hfst Hall].
  rewrite Hfst. cbn [heap withHeap].
  split; [|reflexivity].
  exists cs. split; [exact Hjson|]. split; [exact Hall|].
  apply list_lookup_middle. reflexivity.
Qed.

Lemma unmarshalAccount_normalises (bs : bytes) (w : World) (l : nat) (w' : World) :
  Accounting.unmarshalAccount bs w = (Returned (Ok l), w') ->
  accountsNormalised bs l w' /\ l = length (heap w).
Proof.
  rewrite unmarshalAccount_run.
  destruct (json_Unmarshal_Accounts bs) as [[accs|]|e] eqn:Hjson; try discriminate.
  destruct (snd (convertPrefix _ _ _ accs (length accs))) eqn:Hloop; [discriminate|].
  intros Hrun. injection Hrun as <- <-.
  destruct (convertPrefix_all _ _ _ accs Hloop) as [Hfst Hall].
  rewrite Hfst. cbn [heap withHeap].
  split; [|reflexivity].
  exists accs. split; [exact Hjson|]. split; [exact Hall|].
  apply list_lookup_middle. reflexivity.
Qed.

Lemma decode_after_contacts (g : M World (Result bytes)) :
  returnsNormalisedContacts
    (let* r := g in
     match r with
     | Err e => ret (Err e)
     | Ok bs => Accounting.unmarshalContact bs
     end).
Proof.
  intros w l w' Hrun. unfold bind in Hrun.
  destruct (g w) as [[[bs|e]|p] w1]; try discriminate Hrun.
  exists bs. apply unmarshalContact_normalises in Hrun as [Hn _]. exact Hn.
Qed.

Lemma decode_after_accounts (g : M World (Result bytes)) :
  returnsNormalisedAccounts
    (let* r := g in
     match r with
     | Err e => ret (Err e)
     | Ok bs => Accounting.unmarshalAccount bs
     end).
Proof.
  intros w l w' Hrun. unfold bind in Hrun.
  destruct (g w) as [[[bs|e]|p] w1]; try discriminate Hrun.
  exists bs. apply unmarshalAccount_normalises in Hrun as [Hn _]. exact Hn.
Qed.

Lemma loadContact_run (l i : nat) (cs : list Contact) (x : Contact) (w : World) :
  heap w !! l = Some (OContacts cs) -> cs !! i = Some x ->
  Accounting.loadContact (Some (l, i)) w = (Returned x, w).
Proof.
  intros Hl Hi. unfold Accounting.loadContact, bind.
  rewrite (loadContacts_run l cs w Hl), Hi. reflexivity.
Qed.

Lemma loadAccount_run (l i : nat) (accs : list Account) (x : Account) (w : World) :
  heap w !! l = Some (OAccounts accs) -> accs !! i = Some x ->
  Accounting.loadAccount (Some (l, i)) w = (Returned x, w).
Proof.
  intros Hl Hi. unfold Accounting.loadAccount, bind.
  rewrite (loadAccounts_run l accs w Hl), Hi. reflexivity.
Qed.

(** Dereferencing changes nothing. *)
Lemma loadContacts_frame (c : option nat) (w : World) o w' :
  Accounting.loadContacts c w = (o, w') -> w' = w.
Proof.
  unfold Accounting.loadContacts, bind, get, throw, ret.
  destruct c as [l|]; [|congruence].
  destruct (heap w !! l) as [[cs|accs]|]; congruence.
Qed.

Lemma loadAccounts_frame (a : option nat) (w : World) o w' :
  Accounting.loadAccounts a w = (o, w') -> w' = w.
Proof.
  unfold Accounting.loadAccounts, bind, get, throw, ret.
  destruct a as [l|]; [|congruence].
  destruct (heap w !! l) as [[cs|accs]|]; congruence.
Qed.

Lemma loadContact_frame (c : option (nat * nat)) (w : World) o w' :
  Accounting.loadContact c w = (o, w') -> w' = w.
Proof.
  unfold Accounting.loadContact. destruct c as [[l i]|]; [|unfold throw; congruence].
  unfold bind. destruct (Accounting.loadContacts (Some l) w) as [[cs|p] w1] eqn:Hload;
    apply loadContacts_frame in Hload; subst w1; [|congruence].
  destruct (cs !! i); unfold ret, throw; congruence.
Qed.

Lemma loadAccount_frame (a : option (nat * nat)) (w : World) o w' :
  Accounting.loadAccount a w = (o, w') -> w' = w.
Proof.
  unfold Accounting.loadAccount. destruct a as [[l i]|]; [|unfold throw; congruence].
  unfold bind. destruct (Accounting.loadAccounts (Some l) w) as [[cs|p] w1] eqn:Hload;
    apply loadAccounts_frame in Hload; subst w1; [|congruence].
  destruct (cs !! i); unfold ret, throw; congruence.
Qed.

(** C3.  Whatever collection [unmarshalContact] or [unmarshalAccount]
    returns is the decoded collection with [UpdatedDateUTC] of every element
    replaced by its conversion, all conversions having succeeded; and every
    function of the two resource modules that returns a list or an element
    ([FindContacts], [FindContact], [Create], [Update], [FindAccounts],
    [FindAccountsModifiedSince], [FindAccount], [RemoveAccount]) returns a
    pointer to such a collection. *)
Theorem every_result_has_converted_dates :
  (forall bs w l w',
      Accounting.unmarshalContact bs w = (Returned (Ok l), w') ->
      contactsNormalised bs l w')
  /\ (forall bs w l w',
      Accounting.unmarshalAccount bs w = (Returned (Ok l), w') ->
      accountsNormalised bs l w')
  /\ (forall cl, returnsNormalisedContacts (Accounting.FindContacts cl))
  /\ (forall cl contactID w l i w',
      Accounting.FindContact cl contactID w = (Returned (Ok (Some (l, i))), w') ->
      exists bs, contactsNormalised bs l w')
  /\ (forall c cl, returnsNormalisedContacts (Accounting.Contacts_Create c cl))
  /\ (forall c cl, returnsNormalisedContacts (Accounting.Contact_Update c cl))
  /\ (forall cl q, returnsNormalisedAccounts (Accounting.FindAccounts cl q))
  /\ (forall cl since q,
      returnsNormalisedAccounts (Accounting.FindAccountsModifiedSince cl since q))
  /\ (forall cl accountID w l i w',
      Accounting.FindAccount cl accountID w = (Returned (Ok (Some (l, i))), w') ->
      exists bs, accountsNormalised bs l w')
  /\ (forall cl accountID,
      returnsNormalisedAccounts (Accounting.RemoveAccount cl accountID))
  /\ (forall a cl, returnsNormalisedAccounts (Accounting.Accounts_Create a cl))
  /\ (forall a cl, returnsNormalisedAccounts (Accounting.Account_Update a cl)).
Proof.
  repeat apply conj.
  - intros bs w l w' Hrun. apply unmarshalContact_normalises in Hrun as [Hn _].
    exact Hn.
  - intros bs w l w' Hrun. apply unmarshalAccount_normalises in Hrun as [Hn _].
    exact Hn.
  - intros cl. apply decode_after_contacts.
  - intros cl contactID w l i w' Hrun.
    unfold Accounting.FindContact, bind in Hrun.
    destruct (Helpers.Find cl _ ∅ ∅ w) as [[[bs|e]|p] w1]; try discriminate Hrun.
    destruct (Accounting.unmarshalContact bs w1) as [[[c|e]|p] w2] eqn:Hun;
      try discriminate Hrun.
    apply unmarshalContact_normalises in Hun as [Hn _].
    destruct Hn as (decoded & Hjson & Hall & Hheap).
    rewrite (loadContacts_run _ _ _ Hheap) in Hrun.
    destruct (0 <? length (map normaliseContact decoded))%nat;
      [|discriminate Hrun].
    injection Hrun as <- <- <-. exists bs, decoded. auto.
  - intros c cl w l w' Hrun. unfold Accounting.Contacts_Create in Hrun.
    unfold bind at 1 in Hrun. destruct c as [l0|].
    + unfold bind at 1 in Hrun.
      destruct (Accounting.loadContacts (Some l0) w) as [[cs|p] w0];
        [|discriminate Hrun].
      unfold ret at 1 in Hrun.
      destruct (json_Marshal_Contacts (Some cs)); [|discriminate Hrun].
      exact (decode_after_contacts _ _ _ _ Hrun).
    + unfold ret at 1 in Hrun.
      destruct (json_Marshal_Contacts None); [|discriminate Hrun].
      exact (decode_after_contacts _ _ _ _ Hrun).
  - intros c cl w l w' Hrun. unfold Accounting.Contact_Update in Hrun.
    unfold bind at 1 in Hrun.
    destruct (Accounting.loadContact c w) as [[x|p] w0]; [|discriminate Hrun].
    destruct (json_Marshal_Contacts (Some [x])); [|discriminate Hrun].
    unfold bind at 1 in Hrun.
    destruct (Accounting.loadContact c w0) as [[x'|p] w1]; [|discriminate Hrun].
    exact (decode_after_contacts _ _ _ _ Hrun).
  - intros cl q. apply decode_after_accounts.
  - intros cl since q. apply decode_after_accounts.
  - intros cl accountID w l i w' Hrun.
    unfold Accounting.FindAccount, bind in Hrun.
    destruct (Helpers.Find cl _ ∅ ∅ w) as [[[bs|e]|p] w1]; try discriminate Hrun.
    destruct (Accounting.unmarshalAccount bs w1) as [[[c|e]|p] w2] eqn:Hun;
      try discriminate Hrun.
    apply unmarshalAccount_normalises in Hun as [Hn _].
    destruct Hn as (decoded & Hjson & Hall & Hheap).
    rewrite (loadAccounts_run _ _ _ Hheap) in Hrun.
    destruct (0 <? length (map normaliseAccount decoded))%nat;
      [|discriminate Hrun].
    injection Hrun as <- <- <-. exists bs, decoded. auto.
  - intros cl accountID. apply decode_after_accounts.
  - intros a cl w l w' Hrun. unfold Accounting.Accounts_Create in Hrun.
    unfold bind at 1 in Hrun. destruct a as [l0|].
    + unfold bind at 1 in Hrun.
      destruct (Accounting.loadAccounts (Some l0) w) as [[accs|p] w0];
        [|discriminate Hrun].
      unfold ret at 1 in Hrun.
      destruct (json_Marshal_Accounts (Some accs)); [|discriminate Hrun].
      exact (decode_after_accounts _ _ _ _ Hrun).
    + unfold ret at 1 in Hrun.
      destruct (json_Marshal_Accounts None); [|discriminate Hrun].
      exact (decode_after_accounts _ _ _ _ Hrun).
  - intros a cl w l w' Hrun. unfold Accounting.Account_Update in Hrun.
    unfold bind at 1 in Hrun.
    destruct (Accounting.loadAccount a w) as [[x|p] w0]; [|discriminate Hrun].
    destruct (json_Marshal_Accounts (Some [x])); [|discriminate Hrun].
    unfold bind at 1 in Hrun.
    destruct (Accounting.loadAccount a w0) as [[x'|p] w1]; [|discriminate Hrun].
    exact (decode_after_accounts _ _ _ _ Hrun).
Qed.

(** C9.  When the gateway answers and the decoded collection is empty,
    [FindContact] and [FindAccount] return a nil element together with a nil
    error: the result is [Ok None]. *)
Theorem empty_collection_gives_nil_and_no_error :
  (forall cl contactID w bs w1,
      Helpers.Find cl (Accounting.contactsURL +:+ "/" +:+ UUID_String contactID) ∅ ∅ w
        = (Returned (Ok bs), w1) ->
      json_Unmarshal_Contacts bs = Ok (Some []) ->
      Accounting.FindContact cl contactID w
      = (Returned (Ok None), withHeap w1 (heap w1 ++ [OContacts []])))
  /\
  (forall cl accountID w bs w1,
      Helpers.Find cl (Accounting.accountsURL +:+ "/" +:+ UUID_String accountID) ∅ ∅ w
        = (Returned (Ok bs), w1) ->
      json_Unmarshal_Accounts bs = Ok (Some []) ->
      Accounting.FindAccount cl accountID w
      = (Returned (Ok None), withHeap w1 (heap w1 ++ [OAccounts []]))).
Proof.
  split.
  - intros cl contactID w bs w1 Hfind Hjson.
    unfold Accounting.FindContact. unfold bind at 1. rewrite Hfind.
    unfold bind at 1. rewrite unmarshalContact_run, Hjson. cbn [convertPrefix length fst snd].
    unfold bind.
    erewrite loadContacts_run by (cbn [heap withHeap]; apply list_lookup_middle; reflexivity).
    reflexivity.
  - intros cl accountID w bs w1 Hfind Hjson.
    unfold Accounting.FindAccount. unfold bind at 1. rewrite Hfind.
    unfold bind at 1. rewrite unmarshalAccount_run, Hjson. cbn [convertPrefix length fst snd].
    unfold bind.
    erewrite loadAccounts_run by (cbn [heap withHeap]; apply list_lookup_middle; reflexivity).
    reflexivity.
Qed.

(** What decoding leaves of the heap it started from. *)
Lemma unmarshalContact_frame (bs : bytes) (w : World) o w' :
  Accounting.unmarshalContact bs w = (o, w') ->
  trace w' = trace w
  /\ forall l, (l < length (heap w))%nat -> heap w' !! l = heap w !! l.
Proof.
  rewrite unmarshalContact_run.
  destruct (json_Unmarshal_Contacts bs) as [[cs|]|e]; intros Hrun;
    injection Hrun as <- <-; split; auto.
  intros l Hl. cbn [heap withHeap]. apply lookup_app_l. exact Hl.
Qed.

Lemma unmarshalAccount_frame (bs : bytes) (w : World) o w' :
  Accounting.unmarshalAccount bs w = (o, w') ->
  trace w' = trace w
  /\ forall l, (l < length (heap w))%nat -> heap w' !! l = heap w !! l.
Proof.
  rewrite unmarshalAccount_run.
  destruct (json_Unmarshal_Accounts bs) as [[cs|]|e]; intros Hrun;
    injection Hrun as <- <-; split; auto.
  intros l Hl. cbn [heap withHeap]. apply lookup_app_l. exact Hl.
Qed.

(** C10.  [Update] on a contact or an account at [(l, i)]: every request it
    hands to the transport is the update request whose body is the encoding
    of the collection holding just the receiver and whose URL is the base
    URL, a slash and the receiver's ID; when [Update] returns a collection
    that request went out exactly once; and the collection the receiver
    lives in is afterwards what it was, however the call ends.  The request
    is made: when the one-element collection cannot be encoded [Update]
    returns that error and calls nothing; when it can, [Update] is the call
    of [helpers.Update] with that URL and that body, followed by the
    decoding of the answer, so with a token that does not expire the
    request is on the wire exactly once whatever comes back. *)
Theorem update_sends_the_receiver_alone_and_keeps_it :
  (forall l i cs x cl w,
      heap w !! l = Some (OContacts cs) -> cs !! i = Some x ->
      let expected buf :=
        {| op := OpUpdate;
           url := Accounting.contactsURL +:+ "/" +:+ ContactID x;
           headers := ∅; query := ∅; body := buf |} in
      exists o w' evs,
        Accounting.Contact_Update (Some (l, i)) cl w = (o, w')
        /\ trace w' = trace w ++ evs
        /\ (forall rq, rq ∈ sentRequests evs ->
                       exists buf, json_Marshal_Contacts (Some [x]) = Ok buf
                                   /\ rq = expected buf)
        /\ (forall l', o = Returned (Ok l') ->
                       exists buf, json_Marshal_Contacts (Some [x]) = Ok buf
                                   /\ sentRequests evs = [expected buf])
        /\ heap w' !! l = Some (OContacts cs))
  /\
  (forall l i accs x cl w,
      heap w !! l = Some (OAccounts accs) -> accs !! i = Some x ->
      let expected buf :=
        {| op := OpUpdate;
           url := Accounting.accountsURL +:+ "/" +:+ AccountID x;
           headers := ∅; query := ∅; body := buf |} in
      exists o w' evs,
        Accounting.Account_Update (Some (l, i)) cl w = (o, w')
        /\ trace w' = trace w ++ evs
        /\ (forall rq, rq ∈ sentRequests evs ->
                       exists buf, json_Marshal_Accounts (Some [x]) = Ok buf
                                   /\ rq = expected buf)
        /\ (forall l', o = Returned (Ok l') ->
                       exists buf, json_Marshal_Accounts (Some [x]) = Ok buf
                                   /\ sentRequests evs = [expected buf])
        /\ heap w' !! l = Some (OAccounts accs))
  /\
  (forall l i cs x cl w,
      heap w !! l = Some (OContacts cs) -> cs !! i = Some x ->
      (forall e, json_Marshal_Contacts (Some [x]) = Err e ->
                 Accounting.Contact_Update (Some (l, i)) cl w = (Returned (Err e), w))
      /\
      (forall buf, json_Marshal_Contacts (Some [x]) = Ok buf ->
         let resource := Accounting.contactsURL +:+ "/" +:+ ContactID x in
         Accounting.Contact_Update (Some (l, i)) cl w
         = (let* r := Helpers.Update cl resource buf in
            match r with
            | Err e => ret (Err e)
            | Ok bs => Accounting.unmarshalContact bs
            end) w
         /\ (forall t, Token_ (session cl) = Some t -> neverExpires t ->
               trace (snd (Accounting.Contact_Update (Some (l, i)) cl w))
               = trace w ++ [EvSend (TenantID (session cl)) (AccessToken t)
                               {| op := OpUpdate; url := resource;
                                  headers := ∅; query := ∅; body := buf |}])))
  /\
  (forall l i accs x cl w,
      heap w !! l = Some (OAccounts accs) -> accs !! i = Some x ->
      (forall e, json_Marshal_Accounts (Some [x]) = Err e ->
                 Accounting.Account_Update (Some (l, i)) cl w = (Returned (Err e), w))
      /\
      (forall buf, json_Marshal_Accounts (Some [x]) = Ok buf ->
         let resource := Accounting.accountsURL +:+ "/" +:+ AccountID x in
         Accounting.Account_Update (Some (l, i)) cl w
         = (let* r := Helpers.Update cl resource buf in
            match r with
            | Err e => ret (Err e)
            | Ok bs => Accounting.unmarshalAccount bs
            end) w
         /\ (forall t, Token_ (session cl) = Some t -> neverExpires t ->
               trace (snd (Accounting.Account_Update (Some (l, i)) cl w))
               = trace w ++ [EvSend (TenantID (session cl)) (AccessToken t)
                               {| op := OpUpdate; url := resource;
                                  headers := ∅; query := ∅; body := buf |}]))).
Proof.
  split; [|split; [|split]].
  - intros l i cs x cl w Hl Hi expected.
    unfold Accounting.Contact_Update. unfold bind at 1.
    rewrite (loadContact_run l i cs x w Hl Hi).
    destruct (json_Marshal_Contacts (Some [x])) as [buf|e] eqn:Hbuf.
    2:{ exists (Returned (Err e)), w, []. rewrite app_nil_r.
        repeat split; auto.
        - intros rq Hrq. cbn in Hrq. inversion Hrq.
        - discriminate. }
    unfold bind at 1. rewrite (loadContact_run l i cs x w Hl Hi).
    unfold Helpers.Update. unfold bind at 1.
    destruct (gateway_frame cl (expected buf) w)
      as (r & w1 & evs & Hrun & Hheap & Htrace & Hsent & Hok).
    fold (expected buf). rewrite Hrun.
    assert (Hsome : forall rq, rq ∈ sentRequests evs ->
                               exists buf0, Ok buf = Ok buf0 /\ rq = expected buf0).
    { intros rq Hrq. exists buf. split; [reflexivity|].
      destruct Hsent as [Hs|Hs]; rewrite Hs in Hrq.
      - inversion Hrq.
      - apply list_elem_of_singleton in Hrq. exact Hrq. }
    destruct r as [bs|e].
    + destruct (Accounting.unmarshalContact bs w1) as [o w'] eqn:Hun.
      apply unmarshalContact_frame in Hun as [Htr Hprefix].
      exists o, w', evs. repeat split; auto.
      * congruence.
      * intros l' _. exists buf. split; [reflexivity|]. exact (Hok bs eq_refl).
      * rewrite Hprefix, Hheap; [exact Hl|].
        rewrite Hheap. exact (lookup_lt_Some _ _ _ Hl).
    + exists (Returned (Err e)), w1, evs. repeat split; auto.
      * discriminate.
      * rewrite Hheap. exact Hl.
  - intros l i accs x cl w Hl Hi expected.
    unfold Accounting.Account_Update. unfold bind at 1.
    rewrite (loadAccount_run l i accs x w Hl Hi).
    destruct (json_Marshal_Accounts (Some [x])) as [buf|e] eqn:Hbuf.
    2:{ exists (Returned (Err e)), w, []. rewrite app_nil_r.
        repeat split; auto.
        - intros rq Hrq. cbn in Hrq. inversion Hrq.
        - discriminate. }
    unfold bind at 1. rewrite (loadAccount_run l i accs x w Hl Hi).
    unfold Helpers.Update. unfold bind at 1.
    destruct (gateway_frame cl (expected buf) w)
      as (r & w1 & evs & Hrun & Hheap & Htrace & Hsent & Hok).
    fold (expected buf). rewrite Hrun.
    assert (Hsome : forall rq, rq ∈ sentRequests evs ->
                               exists buf0, Ok buf = Ok buf0 /\ rq = expected buf0).
    { intros rq Hrq. exists buf. split; [reflexivity|].
      destruct Hsent as [Hs|Hs]; rewrite Hs in Hrq.
      - inversion Hrq.
      - apply list_elem_of_singleton in Hrq. exact Hrq. }
    destruct r as [bs|e].
    + destruct (Accounting.unmarshalAccount bs w1) as [o w'] eqn:Hun.
      apply unmarshalAccount_frame in Hun as [Htr Hprefix].
      exists o, w', evs. repeat split; auto.
      * congruence.
      * intros l' _. exists buf. split; [reflexivity|]. exact (Hok bs eq_refl).
      * rewrite Hprefix, Hheap; [exact Hl|].
        rewrite Hheap. exact (lookup_lt_Some _ _ _ Hl).
    + exists (Returned (Err e)), w1, evs. repeat split; auto.
      * discriminate.
      * rewrite Hheap. exact Hl.
  - intros l i cs x cl w Hl Hi. split.
    + intros e Hbuf. unfold Accounting.Contact_Update. unfold bind at 1.
      rewrite (loadContact_run l i cs x w Hl Hi), Hbuf. reflexivity.
    + intros buf Hbuf resource.
      assert (Hrun : Accounting.Contact_Update (Some (l, i)) cl w
                     = (let* r := Helpers.Update cl resource buf in
                        match r with
                        | Err e => ret (Err e)
                        | Ok bs => Accounting.unmarshalContact bs
                        end) w).
      { unfold Accounting.Contact_Update. unfold bind at 1.
        rewrite (loadContact_run l i cs x w Hl Hi), Hbuf. unfold bind at 1.
        rewrite (loadContact_run l i cs x w Hl Hi). reflexivity. }
      split; [exact Hrun|]. intros t Htoken Hnever. rewrite Hrun.
      rewrite bind_silent.
      * unfold Helpers.Update. apply gateway_valid_trace; assumption.
      * intros [bs|e] w0; [|reflexivity].
        destruct (Accounting.unmarshalContact bs w0) as [o w'] eqn:Hun.
        apply unmarshalContact_frame in Hun as [Htrace _]. exact Htrace.
  - intros l i accs x cl w Hl Hi. split.
    + intros e Hbuf. unfold Accounting.Account_Update. unfold bind at 1.
      rewrite (loadAccount_run l i accs x w Hl Hi), Hbuf. reflexivity.
    + intros buf Hbuf resource.
      assert (Hrun : Accounting.Account_Update (Some (l, i)) cl w
                     = (let* r := Helpers.Update cl resource buf in
                        match r with
                        | Err e => ret (Err e)
                        | Ok bs => Accounting.unmarshalAccount bs
                        end) w).
      { unfold Accounting.Account_Update. unfold bind at 1.
        rewrite (loadAccount_run l i accs x w Hl Hi), Hbuf. unfold bind at 1.
        rewrite (loadAccount_run l i accs x w Hl Hi). reflexivity. }
      split; [exact Hrun|]. intros t Htoken Hnever. rewrite Hrun.
      rewrite bind_silent.
      * unfold Helpers.Update. apply gateway_valid_trace; assumption.
      * intros [bs|e] w0; [|reflexivity].
        destruct (Accounting.unmarshalAccount bs w0) as [o w'] eqn:Hun.
        apply unmarshalAccount_frame in Hun as [Htrace _]. exact Htrace.
Qed.

End Results.

(** ** The listing handlers *)

Section Listing.
Context `{Environment}.

Lemma GetSession_token (w : World) :
  Auth.GetSession uuid_Nil w
  = (Returned (repo w !! uuid_Nil,
               match repo w !! uuid_Nil with
               | Some _ => None
               | None => Some (NotFoundError "no session")
               end),
     logged w [EvGetSession uuid_Nil]).
Proof. rewrite GetSession_run. destruct (repo w !! uuid_Nil); reflexivity. Qed.

Lemma for_range_ext {A B : Type} (xs : list A) (body body' : A -> B -> M World B) :
  (forall x acc w, body x acc w = body' x acc w) ->
  forall acc w, for_range xs acc body w = for_range xs acc body' w.
Proof.
  intros Hbody. induction xs as [|x xs IH]; intros acc w; [reflexivity|].
  cbn [for_range]. unfold bind. rewrite Hbody.
  destruct (body' x acc w) as [[acc'|p] w1]; [apply IH|reflexivity].
Qed.

(** Appending in a loop is concatenating what was fetched. *)
Lemma for_range_concat {A : Type} (fetch : HTTPClient -> M World (Result (list A)))
    (se : option Token) (tenants : list Tenant) :
  forall (acc : list A) (w : World),
    for_range tenants acc (fun tenant acc =>
      let* r := fetch (Auth.Client (Main.sessionFor se (Tenant_TenantID tenant))) in
      match r with
      | Err err => log_Panic err
      | Ok items => ret (acc ++ items)
      end) w
    = (let* results := fetchFromEvery fetch se tenants in
       ret (acc ++ concat results)) w.
Proof.
  induction tenants as [|tenant rest IH]; intros acc w.
  - cbn. unfold bind, ret. rewrite app_nil_r. reflexivity.
  - cbn [for_range fetchFromEvery]. unfold bind at 1 2 4 5.
    destruct (fetch _ w) as [[[items|e]|p] w1]; [|reflexivity|reflexivity].
    unfold ret at 1. rewrite IH. unfold bind.
    destruct (fetchFromEvery fetch se rest w1) as [[others|p] w2]; [|reflexivity].
    unfold ret. cbn [concat]. rewrite app_assoc. reflexivity.
Qed.

(** A handler written with the loop is the listing of the specification. *)
Lemma listing_shape {A : Type} (fetch : HTTPClient -> M World (Result (list A)))
    (render : list A -> Main.Response) (w : World) :
  (let* (se, _) := Auth.GetSession uuid_Nil in
   let* r := Connection.GetTenants (Auth.Client (Main.sessionFor se uuid_Nil)) in
   match r with
   | Err err => log_Panic err
   | Ok tenants =>
       let* items :=
         for_range tenants [] (fun tenant acc =>
           let* r := fetch (Auth.Client (Main.sessionFor se (Tenant_TenantID tenant))) in
           match r with
           | Err err => log_Panic err
           | Ok found => ret (acc ++ found)
           end) in
       ret (render items)
   end) w
  = listAcrossTenants fetch render w.
Proof.
  unfold listAcrossTenants. unfold bind at 1 5. rewrite GetSession_token.
  unfold bind at 1 4.
  destruct (Connection.GetTenants _ _) as [[[tenants|e]|p] w2]; try reflexivity.
  unfold bind at 1. rewrite for_range_concat. unfold bind.
  destruct (fetchFromEvery fetch _ tenants w2) as [[results|p] w3]; reflexivity.
Qed.

Lemma resources_shape (k : Resource) (w : World) :
  resourceHandler k w
  = listAcrossTenants (Accounting.FindResource k)
      (fun items => Main.Executed (resourceTemplate k) (Main.ResourceData k items)) w.
Proof.
  rewrite <- listing_shape. destruct k; reflexivity.
Qed.

Lemma contacts_shape (w : World) :
  Main.XeroContactsHandler w
  = listAcrossTenants fetchContacts
      (fun cs => Main.Executed Main.contactsTemplate (Main.ContactsData cs)) w.
Proof.
  rewrite <- listing_shape. unfold Main.XeroContactsHandler, bind.
  rewrite GetSession_token.
  destruct (Connection.GetTenants _ _) as [[[tenants|e]|p] w2]; try reflexivity.
  erewrite for_range_ext; [reflexivity|].
  intros tenant acc w0. unfold fetchContacts, bind.
  destruct (Accounting.FindContacts _ w0) as [[[c|e]|p] w1]; try reflexivity.
  destruct (Accounting.loadContacts (Some c) w1) as [[cs|p] w3]; reflexivity.
Qed.

Lemma accounts_shape (w : World) :
  Main.XeroAccountsHandler w
  = listAcrossTenants fetchAccounts
      (fun accs => Main.Executed Main.accountsTemplate (Main.AccountsData accs)) w.
Proof.
  rewrite <- listing_shape. unfold Main.XeroAccountsHandler, bind.
  rewrite GetSession_token.
  destruct (Connection.GetTenants _ _) as [[[tenants|e]|p] w2]; try reflexivity.
  erewrite for_range_ext; [reflexivity|].
  intros tenant acc w0. unfold fetchAccounts, bind.
  destruct (Accounting.FindAccounts _ ∅ w0) as [[[c|e]|p] w1]; try reflexivity.
  destruct (Accounting.loadAccounts (Some c) w1) as [[cs|p] w3]; reflexivity.
Qed.

Lemma fetchFromEvery_in_order {A : Type}
    (fetch : HTTPClient -> M World (Result (list A))) (se : option Token)
    (tenants : list Tenant) :
  forall w results w',
    fetchFromEvery fetch se tenants w = (Returned results, w') ->
    Forall2 (fun tenant items =>
               exists w1 w2,
                 fetch (Auth.Client (Main.sessionFor se (Tenant_TenantID tenant))) w1
                 = (Returned (Ok items), w2))
            tenants results.
Proof.
  induction tenants as [|tenant rest IH]; intros w results w' Hrun.
  - injection Hrun as <- _. constructor.
  - cbn [fetchFromEvery] in Hrun. unfold bind at 1 in Hrun.
    destruct (fetch _ w) as [[[items|e]|p] w1] eqn:Hfetch; try discriminate Hrun.
    unfold bind in Hrun.
    destruct (fetchFromEvery fetch se rest w1) as [[others|p] w2] eqn:Hrest;
      [|discriminate Hrun].
    injection Hrun as <- _. constructor; [eauto|exact (IH _ _ _ Hrest)].
Qed.

(** C2.  Each of the thirteen listing handlers is the one loop of the
    specification, instantiated with the fetch of its resource and its
    template: load the session, build the transport, resolve the tenants,
    fetch from every tenant, render the concatenation; the handler is what
    the router serves on the path of the view; when the tenants resolve and
    every fetch returns, the loop renders the concatenation of the results,
    and it renders nothing else; and what it gathers is, tenant by tenant
    and in their order, what the fetch returned. *)
Theorem every_listing_handler_is_the_one_loop :
  (forall w,
      Main.XeroContactsHandler w
      = listAcrossTenants fetchContacts
          (fun cs => Main.Executed Main.contactsTemplate (Main.ContactsData cs)) w)
  /\ (forall w,
      Main.XeroAccountsHandler w
      = listAcrossTenants fetchAccounts
          (fun accs => Main.Executed Main.accountsTemplate (Main.AccountsData accs)) w)
  /\ (forall k w,
      resourceHandler k w
      = listAcrossTenants (Accounting.FindResource k)
          (fun items => Main.Executed (resourceTemplate k) (Main.ResourceData k items)) w)
  /\ Forall (fun entry => Main.router (fst entry) = Some (fun _ => snd entry))
        listingRoutes
  /\ (forall (A : Type) (fetch : HTTPClient -> M World (Result (list A)))
             render w tenants w2 results w3,
      Connection.GetTenants
        (Auth.Client (Main.sessionFor (repo w !! uuid_Nil) uuid_Nil))
        (logged w [EvGetSession uuid_Nil]) = (Returned (Ok tenants), w2) ->
      fetchFromEvery fetch (repo w !! uuid_Nil) tenants w2 = (Returned results, w3) ->
      listAcrossTenants fetch render w = (Returned (render (concat results)), w3))
  /\ (forall (A : Type) (fetch : HTTPClient -> M World (Result (list A)))
             render w resp w',
      listAcrossTenants fetch render w = (Returned resp, w') ->
      exists tenants w2 results,
        Connection.GetTenants
          (Auth.Client (Main.sessionFor (repo w !! uuid_Nil) uuid_Nil))
          (logged w [EvGetSession uuid_Nil]) = (Returned (Ok tenants), w2)
        /\ fetchFromEvery fetch (repo w !! uuid_Nil) tenants w2 = (Returned results, w')
        /\ resp = render (concat results))
  /\ (forall (A : Type) (fetch : HTTPClient -> M World (Result (list A)))
             se tenants w results w',
      fetchFromEvery fetch se tenants w = (Returned results, w') ->
      Forall2 (fun tenant items =>
                 exists w1 w2,
                   fetch (Auth.Client (Main.sessionFor se (Tenant_TenantID tenant))) w1
                   = (Returned (Ok items), w2))
              tenants results).
Proof.
  split; [exact contacts_shape|].
  split; [exact accounts_shape|].
  split; [exact resources_shape|].
  split; [repeat constructor|].
  split.
  - intros A fetch render w tenants w2 results w3 Htenants Hfetched.
    unfold listAcrossTenants. unfold bind at 1. rewrite GetSession_token.
    unfold bind at 1. rewrite Htenants. unfold bind. rewrite Hfetched.
    reflexivity.
  - split; [|intros A fetch se tenants; apply fetchFromEvery_in_order].
    intros A fetch render w resp w'. unfold listAcrossTenants.
    unfold bind at 1. rewrite GetSession_token. unfold bind at 1.
    destruct (Connection.GetTenants _ _) as [[[tenants|e]|p] w2];
      try discriminate.
    unfold bind.
    destruct (fetchFromEvery fetch _ tenants w2) as [[results|p] w3] eqn:Hfetched;
      [|discriminate].
    intros Hrun. injection Hrun as <- <-.
    exists tenants, w2, results. auto.
Qed.

Lemma fetchFromEvery_fails {A : Type}
    (fetch : HTTPClient -> M World (Result (list A))) (se : option Token)
    (before : list Tenant) :
  forall tenant after w results w3 e w4,
    fetchFromEvery fetch se before w = (Returned results, w3) ->
    fetch (Auth.Client (Main.sessionFor se (Tenant_TenantID tenant))) w3
      = (Returned (Err e), w4) ->
    fetchFromEvery fetch se (before ++ tenant :: after) w
    = (Panicked (LogPanic e), w4).
Proof.
  induction before as [|t rest IH]; intros tenant after w results w3 e w4 Hbefore Hfail.
  - injection Hbefore as _ <-. cbn [app fetchFromEvery]. unfold bind.
    rewrite Hfail. reflexivity.
  - cbn [app fetchFromEvery] in *. unfold bind at 1 in Hbefore. unfold bind at 1.
    destruct (fetch _ w) as [[[items|e0]|p] w1]; try discriminate Hbefore.
    unfold bind in Hbefore. unfold bind.
    destruct (fetchFromEvery fetch se rest w1) as [[others|p] w2] eqn:Hrest;
      [|discriminate Hbefore].
    injection Hbefore as _ <-.
    rewrite (IH tenant after w1 others w2 e w4 Hrest Hfail). reflexivity.
Qed.

Lemma listing_aborts {A : Type} (h : M World Main.Response)
    (fetch : HTTPClient -> M World (Result (list A)))
    (render : list A -> Main.Response) :
  (forall w, h w = listAcrossTenants fetch render w) -> abortsOnError h fetch.
Proof.
  intros Hshape. split.
  - intros w e w2 Htenants. rewrite Hshape. unfold listAcrossTenants.
    unfold bind at 1. rewrite GetSession_token. unfold bind. rewrite Htenants.
    reflexivity.
  - intros w before tenant after w2 results w3 e w4 Htenants Hbefore Hfail.
    rewrite Hshape. unfold listAcrossTenants.
    unfold bind at 1. rewrite GetSession_token. unfold bind at 1. rewrite Htenants.
    unfold bind. rewrite (fetchFromEvery_fails _ _ _ _ _ _ _ _ _ _ Hbefore Hfail).
    reflexivity.
Qed.

(** C6.  In every handler that calls the platform, an error returned by
    the call makes the handler panic with that error, in the world the
    failing call left: the code exchange of the callback, tenant resolution
    of the connections view, the refresh of [/refresh], tenant resolution and
    creation in [/contacts/create], and tenant resolution and every fetch of
    the thirteen listing handlers (an error of [FindContacts] or
    [FindAccounts] is an error of the fetch of the loop).  No response is
    written on these paths. *)
Theorem remote_errors_abort_every_handler :
  (forall code w e w1,
      Auth.GetTokenFromCode code w = (Returned (Err e), w1) ->
      Main.XeroAuthCallbackHandler code w = (Panicked (LogPanic e), w1))
  /\ (forall w e w2,
      Connection.GetTenants
        (Auth.Client (Main.sessionFor (repo w !! uuid_Nil) uuid_Nil))
        (logged w [EvGetSession uuid_Nil]) = (Returned (Err e), w2) ->
      Main.XeroConnectionsHandler w = (Panicked (LogPanic e), w2))
  /\ (forall w e w2,
      Auth.Refresh (repo w !! uuid_Nil) (logged w [EvGetSession uuid_Nil])
        = (Returned (Err e), w2) ->
      Main.XeroRefreshTokenHandler w = (Panicked (LogPanic e), w2))
  /\ (forall w,
      let se := repo w !! uuid_Nil in
      let w0 := logged w [EvGetSession uuid_Nil] in
      let contacts := length (heap w) in
      let w1 := withHeap w0
                  (heap w ++ [OContacts [Main.testContact (uuid_NewV4 (trace w0))]]) in
      (forall e w2,
          Connection.GetTenants (Auth.Client (Main.sessionFor se uuid_Nil)) w1
            = (Returned (Err e), w2) ->
          Main.XeroContactsCreateHandler w = (Panicked (LogPanic e), w2))
      /\
      (forall tenant0 others w2 e w3,
          Connection.GetTenants (Auth.Client (Main.sessionFor se uuid_Nil)) w1
            = (Returned (Ok (tenant0 :: others)), w2) ->
          Accounting.Contacts_Create (Some contacts)
            (Auth.Client (Main.sessionFor se (Tenant_TenantID tenant0))) w2
            = (Returned (Err e), w3) ->
          Main.XeroContactsCreateHandler w = (Panicked (LogPanic e), w3)))
  /\ abortsOnError Main.XeroContactsHandler fetchContacts
  /\ abortsOnError Main.XeroAccountsHandler fetchAccounts
  /\ (forall k, abortsOnError (resourceHandler k) (Accounting.FindResource k))
  /\ (forall cl w e w',
      Accounting.FindContacts cl w = (Returned (Err e), w') ->
      fetchContacts cl w = (Returned (Err e), w'))
  /\ (forall cl w e w',
      Accounting.FindAccounts cl ∅ w = (Returned (Err e), w') ->
      fetchAccounts cl w = (Returned (Err e), w')).
Proof.
  split; [|split; [|split; [|split; [|split; [|split; [|split; [|split]]]]]]].
  - intros code w e w1 Hfail. unfold Main.XeroAuthCallbackHandler, bind.
    rewrite Hfail. reflexivity.
  - intros w e w2 Hfail. unfold Main.XeroConnectionsHandler.
    unfold bind at 1. rewrite GetSession_token. unfold bind. rewrite Hfail.
    reflexivity.
  - intros w e w2 Hfail. unfold Main.XeroRefreshTokenHandler.
    unfold bind at 1. rewrite GetSession_token. unfold bind. rewrite Hfail.
    reflexivity.
  - intros w se w0 contacts w1.
    assert (Hstep : Main.XeroContactsCreateHandler w =
      match Connection.GetTenants (Auth.Client (Main.sessionFor se uuid_Nil)) w1 with
      | (Returned (Ok tenants), w2) =>
          match tenants !! 0%nat with
          | None => (Panicked IndexOutOfRange, w2)
          | Some tenant0 =>
              match Accounting.Contacts_Create (Some contacts)
                      (Auth.Client (Main.sessionFor se (Tenant_TenantID tenant0))) w2 with
              | (Returned (Ok _), w3) =>
                  (Returned (Main.Redirected "/" Main.StatusFound), w3)
              | (Returned (Err e), w3) => (Panicked (LogPanic e), w3)
              | (Panicked p, w3) => (Panicked p, w3)
              end
          end
      | (Returned (Err e), w2) => (Panicked (LogPanic e), w2)
      | (Panicked p, w2) => (Panicked p, w2)
      end).
    { unfold Main.XeroContactsCreateHandler.
      unfold bind at 1. rewrite GetSession_token.
      unfold bind at 1, get. unfold bind at 1.
      unfold Accounting.new, bind at 1, get, Auth.setHeap, modify, ret at 1.
      unfold bind. fold w0. fold se.
      change {| repo := repo w0;
                heap := heap w0 ++ [OContacts [Main.testContact (uuid_NewV4 (trace w0))]];
                trace := trace w0 |} with w1.
      change (length (heap w0)) with contacts.
      destruct (Connection.GetTenants _ w1) as [[[tenants|e]|p] w2]; try reflexivity.
      destruct (tenants !! 0%nat) as [tenant0|]; [|reflexivity].
      destruct (Accounting.Contacts_Create _ _ w2) as [[[c|e]|p] w3]; reflexivity. }
    rewrite Hstep. split.
    + intros e w2 Hfail. rewrite Hfail. reflexivity.
    + intros tenant0 others w2 e w3 Hok Hfail. rewrite Hok.
      cbn [lookup list_lookup]. rewrite Hfail. reflexivity.
  - exact (listing_aborts _ _ _ contacts_shape).
  - exact (listing_aborts _ _ _ accounts_shape).
  - intros k. exact (listing_aborts _ _ _ (resources_shape k)).
  - intros cl w e w' Hfail. unfold fetchContacts, bind. rewrite Hfail. reflexivity.
  - intros cl w e w' Hfail. unfold fetchAccounts, bind. rewrite Hfail. reflexivity.
Qed.

End Listing.

(** ** Who calls [Refresh] *)

Section Quiet.
Context `{Environment}.

Lemma quiet_ret {A : Type} (a : A) : quiet (ret (W := World) a).
Proof. intros w. exists []. rewrite app_nil_r. split; [reflexivity|constructor]. Qed.

Lemma quiet_throw {A : Type} (p : panic) : quiet (throw (W := World) (A := A) p).
Proof. intros w. exists []. rewrite app_nil_r. split; [reflexivity|constructor]. Qed.

Lemma quiet_get : quiet (get (W := World)).
Proof. intros w. exists []. rewrite app_nil_r. split; [reflexivity|constructor]. Qed.

Lemma quiet_emit (e : Event) : isRefresh e = false -> quiet (Auth.emit e).
Proof. intros He w. exists [e]. split; [reflexivity|]. repeat constructor. exact He. Qed.

Lemma quiet_setRepo r : quiet (Auth.setRepo r).
Proof. intros w. exists []. rewrite app_nil_r. split; [reflexivity|constructor]. Qed.

Lemma quiet_setHeap h : quiet (Auth.setHeap h).
Proof. intros w. exists []. rewrite app_nil_r. split; [reflexivity|constructor]. Qed.

Lemma quietAt_bind {A B : Type} (m : M World A) (k : A -> M World B) (w : World) :
  quietAt m w ->
  (forall a w', m w = (Returned a, w') -> quietAt (k a) w') ->
  quietAt (bind m k) w.
Proof.
  intros (evs & Htrace & Hevs) Hk. unfold quietAt, bind.
  destruct (m w) as [[a|p] w'] eqn:Hm; cbn [snd] in *.
  - destruct (Hk a w' eq_refl) as (evs' & Htrace' & Hevs').
    exists (evs ++ evs'). rewrite Htrace', Htrace, app_assoc.
    split; [reflexivity|]. apply Forall_app. split; assumption.
  - exists evs. split; assumption.
Qed.

Lemma quiet_bind {A B : Type} (m : M World A) (k : A -> M World B) :
  quiet m -> (forall a, quiet (k a)) -> quiet (bind m k).
Proof. intros Hm Hk w. apply quietAt_bind; [apply Hm|]. intros a w' _. apply Hk. Qed.

Lemma quiet_for_range {A B : Type} (xs : list A) (body : A -> B -> M World B) :
  (forall x acc, quiet (body x acc)) -> forall acc, quiet (for_range xs acc body).
Proof.
  intros Hbody. induction xs as [|x xs IH]; intros acc; cbn [for_range].
  - apply quiet_ret.
  - apply quiet_bind; [apply Hbody|]. intros acc'. apply IH.
Qed.

(** Steps that apply to any computation built from the pieces above. *)
Ltac quiet_step :=
  first
    [ apply quiet_ret | apply quiet_throw | apply quiet_get
    | apply quiet_setRepo | apply quiet_setHeap
    | apply quiet_emit; reflexivity
    | apply quiet_bind; [|intros ?]
    | match goal with
      | |- quiet (match ?x with _ => _ end) => destruct x
      | |- quiet (if ?b then _ else _) => destruct b
      | |- quiet (log_Panic _) => apply quiet_throw
      end ].

Lemma quiet_GetSession u : quiet (Auth.GetSession u).
Proof. unfold Auth.GetSession. repeat quiet_step. Qed.

Lemma quiet_CreateSession u t : quiet (Auth.CreateSession u t).
Proof. unfold Auth.CreateSession. repeat quiet_step. Qed.

Lemma quiet_GetTokenFromCode code : quiet (Auth.GetTokenFromCode code).
Proof. unfold Auth.GetTokenFromCode. repeat quiet_step. Qed.

Lemma quiet_send se t rq : quiet (Auth.send se t rq).
Proof. unfold Auth.send. repeat quiet_step. Qed.

(** With a token that does not expire the transport never refreshes. *)
Lemma quiet_Do (cl : HTTPClient) (rq : Request) :
  validToken (Token_ (session cl)) -> quiet (Auth.Do cl rq).
Proof.
  intros Hvalid. unfold Auth.Do.
  destruct (Token_ (session cl)) as [t|]; [|apply quiet_ret].
  intros w. apply quietAt_bind; [apply quiet_get|].
  intros w0 w' Hget. injection Hget as <- <-.
  rewrite (Hvalid t eq_refl). apply quiet_send.
Qed.

Lemma quiet_gateway cl rq :
  validToken (Token_ (session cl)) -> quiet (Helpers.gateway cl rq).
Proof.
  intros Hvalid. unfold Helpers.gateway. apply quiet_bind; [apply quiet_Do, Hvalid|].
  intros r. apply quiet_ret.
Qed.

Lemma quiet_GetTenants cl :
  validToken (Token_ (session cl)) -> quiet (Connection.GetTenants cl).
Proof.
  intros Hvalid. unfold Connection.GetTenants.
  apply quiet_bind; [apply quiet_Do, Hvalid|]. intros r. repeat quiet_step.
Qed.

Lemma quiet_loadContacts c : quiet (Accounting.loadContacts c).
Proof. unfold Accounting.loadContacts. repeat quiet_step. Qed.

Lemma quiet_loadAccounts a : quiet (Accounting.loadAccounts a).
Proof. unfold Accounting.loadAccounts. repeat quiet_step. Qed.

Lemma quiet_unmarshalContact bs : quiet (Accounting.unmarshalContact bs).
Proof.
  intros w. exists []. rewrite app_nil_r. split; [|constructor].
  destruct (Accounting.unmarshalContact bs w) as [o w'] eqn:Hrun.
  apply unmarshalContact_frame in Hrun as [Htrace _]. exact Htrace.
Qed.

Lemma quiet_unmarshalAccount bs : quiet (Accounting.unmarshalAccount bs).
Proof.
  intros w. exists []. rewrite app_nil_r. split; [|constructor].
  destruct (Accounting.unmarshalAccount bs w) as [o w'] eqn:Hrun.
  apply unmarshalAccount_frame in Hrun as [Htrace _]. exact Htrace.
Qed.

Lemma quiet_fetchContacts cl :
  validToken (Token_ (session cl)) -> quiet (fetchContacts cl).
Proof.
  intros Hvalid. unfold fetchContacts, Accounting.FindContacts, Helpers.Find.
  apply quiet_bind.
  - apply quiet_bind; [apply quiet_gateway, Hvalid|].
    intros [bs|e]; [apply quiet_unmarshalContact|apply quiet_ret].
  - intros [c|e]; [|apply quiet_ret].
    apply quiet_bind; [apply quiet_loadContacts|]. intros cs. apply quiet_ret.
Qed.

Lemma quiet_fetchAccounts cl :
  validToken (Token_ (session cl)) -> quiet (fetchAccounts cl).
Proof.
  intros Hvalid. unfold fetchAccounts, Accounting.FindAccounts, Helpers.Find.
  apply quiet_bind.
  - apply quiet_bind; [apply quiet_gateway, Hvalid|].
    intros [bs|e]; [apply quiet_unmarshalAccount|apply quiet_ret].
  - intros [c|e]; [|apply quiet_ret].
    apply quiet_bind; [apply quiet_loadAccounts|]. intros cs. apply quiet_ret.
Qed.

Lemma quiet_FindResource k cl :
  validToken (Token_ (session cl)) -> quiet (Accounting.FindResource k cl).
Proof.
  intros Hvalid. unfold Accounting.FindResource, Helpers.Find.
  apply quiet_bind; [apply quiet_gateway, Hvalid|].
  intros [bs|e]; apply quiet_ret.
Qed.

Lemma quiet_Contacts_Create c cl :
  validToken (Token_ (session cl)) -> quiet (Accounting.Contacts_Create c cl).
Proof.
  intros Hvalid. unfold Accounting.Contacts_Create, Helpers.Create.
  apply quiet_bind.
  - destruct c; [|apply quiet_ret].
    apply quiet_bind; [apply quiet_loadContacts|]. intros cs. apply quiet_ret.
  - intros v. destruct (json_Marshal_Contacts v); [|apply quiet_ret].
    apply quiet_bind; [apply quiet_gateway, Hvalid|].
    intros [bs|e]; [apply quiet_unmarshalContact|apply quiet_ret].
Qed.

Lemma quiet_fetchFromEvery {A : Type}
    (fetch : HTTPClient -> M World (Result (list A))) (se : option Token) :
  (forall cl, validToken (Token_ (session cl)) -> quiet (fetch cl)) ->
  validToken se ->
  forall tenants, quiet (fetchFromEvery fetch se tenants).
Proof.
  intros Hfetch Hvalid tenants.
  induction tenants as [|tenant rest IH]; cbn [fetchFromEvery].
  - apply quiet_ret.
  - apply quiet_bind; [apply Hfetch; exact Hvalid|].
    intros [items|e]; [|apply quiet_throw].
    apply quiet_bind; [exact IH|]. intros others. apply quiet_ret.
Qed.

Lemma quietAt_listAcrossTenants {A : Type}
    (fetch : HTTPClient -> M World (Result (list A)))
    (render : list A -> Main.Response) (w : World) :
  (forall cl, validToken (Token_ (session cl)) -> quiet (fetch cl)) ->
  validToken (repo w !! uuid_Nil) ->
  quietAt (listAcrossTenants fetch render) w.
Proof.
  intros Hfetch Hvalid. unfold listAcrossTenants.
  apply quietAt_bind; [apply quiet_GetSession|].
  intros [se err] w' Hrun. rewrite GetSession_token in Hrun.
  injection Hrun as <- _ _.
  apply quiet_bind; [apply quiet_GetTenants; exact Hvalid|].
  intros [tenants|e]; [|apply quiet_throw].
  apply quiet_bind; [apply quiet_fetchFromEvery; assumption|].
  intros results. apply quiet_ret.
Qed.

Lemma quietAt_ext {A : Type} (m m' : M World A) (w : World) :
  m w = m' w -> quietAt m' w -> quietAt m w.
Proof. unfold quietAt. intros ->. auto. Qed.

Lemma quiet_HomeHandler : quiet Main.HomeHandler.
Proof.
  unfold Main.HomeHandler. apply quiet_bind; [apply quiet_GetSession|].
  intros [se err]. apply quiet_ret.
Qed.

Lemma quiet_XeroAuthCallbackHandler code : quiet (Main.XeroAuthCallbackHandler code).
Proof.
  unfold Main.XeroAuthCallbackHandler.
  apply quiet_bind; [apply quiet_GetTokenFromCode|].
  intros [token|e]; [|apply quiet_throw].
  apply quiet_bind; [apply quiet_CreateSession|]. intros _. apply quiet_ret.
Qed.

Lemma quietAt_XeroConnectionsHandler (w : World) :
  validToken (repo w !! uuid_Nil) -> quietAt Main.XeroConnectionsHandler w.
Proof.
  intros Hvalid. unfold Main.XeroConnectionsHandler.
  apply quietAt_bind; [apply quiet_GetSession|].
  intros [se err] w' Hrun. rewrite GetSession_token in Hrun.
  injection Hrun as <- _ _.
  apply quiet_bind; [apply quiet_GetTenants; exact Hvalid|].
  intros [tenants|e]; [apply quiet_ret|apply quiet_throw].
Qed.

Lemma quietAt_XeroContactsCreateHandler (w : World) :
  validToken (repo w !! uuid_Nil) -> quietAt Main.XeroContactsCreateHandler w.
Proof.
  intros Hvalid. unfold Main.XeroContactsCreateHandler.
  apply quietAt_bind; [apply quiet_GetSession|].
  intros [se err] w' Hrun. rewrite GetSession_token in Hrun.
  injection Hrun as <- _ _.
  apply quiet_bind; [apply quiet_get|]. intros w0.
  apply quiet_bind.
  { unfold Accounting.new. repeat quiet_step. }
  intros contacts.
  apply quiet_bind; [apply quiet_GetTenants; exact Hvalid|].
  intros [tenants|e]; [|apply quiet_throw].
  destruct (tenants !! 0%nat) as [tenant0|]; [|apply quiet_throw].
  apply quiet_bind; [apply quiet_Contacts_Create; exact Hvalid|].
  intros [c|e]; [apply quiet_ret|apply quiet_throw].
Qed.

Lemma quietAt_resourceHandler (k : Resource) (w : World) :
  validToken (repo w !! uuid_Nil) -> quietAt (resourceHandler k) w.
Proof.
  intros Hvalid. eapply quietAt_ext; [apply resources_shape|].
  apply quietAt_listAcrossTenants; [apply quiet_FindResource|exact Hvalid].
Qed.

Lemma quietAt_XeroContactsHandler (w : World) :
  validToken (repo w !! uuid_Nil) -> quietAt Main.XeroContactsHandler w.
Proof.
  intros Hvalid. eapply quietAt_ext; [apply contacts_shape|].
  apply quietAt_listAcrossTenants; [apply quiet_fetchContacts|exact Hvalid].
Qed.

Lemma quietAt_XeroAccountsHandler (w : World) :
  validToken (repo w !! uuid_Nil) -> quietAt Main.XeroAccountsHandler w.
Proof.
  intros Hvalid. eapply quietAt_ext; [apply accounts_shape|].
  apply quietAt_listAcrossTenants; [apply quiet_fetchAccounts|exact Hvalid].
Qed.

(** *** Whatever the token: every refresh belongs to a request *)

Lemma Do_oneCall (cl : HTTPClient) (rq : Request) (w : World) :
  UserID (session cl) = uuid_Nil ->
  oneCall (Token_ (session cl)) (Auth.Do cl rq) w.
Proof.
  intros Huser. unfold oneCall.
  destruct (Auth.Do cl rq w) as [o w'] eqn:Hrun. cbn [fst snd].
  unfold Auth.Do in Hrun.
  destruct (Token_ (session cl)) as [t|].
  2:{ injection Hrun as <- <-. exists []. rewrite app_nil_r.
      split; [reflexivity|]. right. split; [left; reflexivity|]. discriminate. }
  unfold bind at 1, get in Hrun.
  destruct (Auth.expired (clock (trace w)) t).
  2:{ rewrite send_run in Hrun. injection Hrun as <- <-.
      eexists. split; [reflexivity|]. left. apply (through_sent _ t). reflexivity. }
  unfold bind at 1 in Hrun.
  destruct (Refresh_run (Some t) w) as [r Hr]. rewrite Hr in Hrun.
  destruct r as [t'|e].
  2:{ injection Hrun as <- <-. exists [EvRefresh (Some t)].
      split; [reflexivity|]. right. split; [right; constructor|]. discriminate. }
  unfold bind at 1 in Hrun. rewrite UpdateSession_run, Huser in Hrun.
  cbn [logged repo] in Hrun.
  destruct (repo w !! uuid_Nil).
  - rewrite send_run in Hrun. injection Hrun as <- <-.
    exists [EvRefresh (Some t); EvUpdateSession uuid_Nil t';
            EvSend (TenantID (session cl)) (AccessToken t') rq].
    split; [cbn [logged trace]; rewrite <- !app_assoc; reflexivity|].
    left. constructor.
  - injection Hrun as <- <-.
    exists [EvRefresh (Some t); EvUpdateSession uuid_Nil t'].
    split; [cbn [logged trace]; rewrite <- !app_assoc; reflexivity|].
    right. split; [right; constructor|]. discriminate.
Qed.

(** What follows the call logs nothing and makes no result out of an
    error. *)
Lemma oneCall_then {A B : Type} (se : option Token) (m : M World (Result A))
    (k : Result A -> M World (Result B)) (w : World) :
  oneCall se m w ->
  (forall r w0, trace (snd (k r w0)) = trace w0) ->
  (forall e w0 b, fst (k (Err e) w0) <> Returned (Ok b)) ->
  oneCall se (bind m k) w.
Proof.
  intros (b & Htrace & Hcase) Hsilent Herr. exists b. unfold bind.
  destruct (m w) as [[r|p] w1]; cbn [fst snd] in *.
  - split; [rewrite Hsilent; exact Htrace|].
    destruct Hcase as [Hthrough|[Hstopped Hnot]]; [left; exact Hthrough|].
    right. split; [exact Hstopped|].
    destruct r as [a|e]; [exfalso; exact (Hnot a eq_refl)|]. apply Herr.
  - split; [exact Htrace|].
    destruct Hcase as [Hthrough|[Hstopped _]]; [left; exact Hthrough|].
    right. split; [exact Hstopped|]. discriminate.
Qed.

(** What precedes the call changes nothing. *)
Lemma oneCall_after {A B : Type} (se : option Token) (m : M World A)
    (k : A -> M World (Result B)) (w : World) :
  (forall o w1, m w = (o, w1) -> w1 = w) ->
  (forall a, oneCall se (k a) w) ->
  oneCall se (bind m k) w.
Proof.
  intros Hframe Hk. unfold oneCall, bind.
  destruct (m w) as [[a|p] w1]; rewrite (Hframe _ _ eq_refl).
  - apply Hk.
  - exists []. rewrite app_nil_r. split; [reflexivity|].
    right. split; [left; reflexivity|]. discriminate.
Qed.

Lemma oneCall_gateway (cl : HTTPClient) (rq : Request) (w : World) :
  UserID (session cl) = uuid_Nil ->
  oneCall (Token_ (session cl)) (Helpers.gateway cl rq) w.
Proof.
  intros Huser. unfold Helpers.gateway.
  apply oneCall_then; [apply Do_oneCall, Huser|reflexivity|discriminate].
Qed.

Lemma oneCall_GetTenants (cl : HTTPClient) (w : World) :
  UserID (session cl) = uuid_Nil ->
  oneCall (Token_ (session cl)) (Connection.GetTenants cl) w.
Proof.
  intros Huser. unfold Connection.GetTenants.
  apply oneCall_then; [apply Do_oneCall, Huser| |discriminate].
  intros [b|e] w0; [|reflexivity]. destruct (decodeTenants b); reflexivity.
Qed.

Lemma oneCall_decoded_contacts (cl : HTTPClient) (rq : Request) (w : World) :
  UserID (session cl) = uuid_Nil ->
  oneCall (Token_ (session cl))
    (let* r := Helpers.gateway cl rq in
     match r with
     | Err e => ret (Err e)
     | Ok bs => Accounting.unmarshalContact bs
     end) w.
Proof.
  intros Huser. apply oneCall_then; [apply oneCall_gateway, Huser| |discriminate].
  intros [bs|e] w0; [|reflexivity].
  destruct (Accounting.unmarshalContact bs w0) as [o w'] eqn:Hrun.
  apply unmarshalContact_frame in Hrun as [Htrace _]. exact Htrace.
Qed.

Lemma oneCall_decoded_accounts (cl : HTTPClient) (rq : Request) (w : World) :
  UserID (session cl) = uuid_Nil ->
  oneCall (Token_ (session cl))
    (let* r := Helpers.gateway cl rq in
     match r with
     | Err e => ret (Err e)
     | Ok bs => Accounting.unmarshalAccount bs
     end) w.
Proof.
  intros Huser. apply oneCall_then; [apply oneCall_gateway, Huser| |discriminate].
  intros [bs|e] w0; [|reflexivity].
  destruct (Accounting.unmarshalAccount bs w0) as [o w'] eqn:Hrun.
  apply unmarshalAccount_frame in Hrun as [Htrace _]. exact Htrace.
Qed.

Lemma oneCall_fetchContacts (cl : HTTPClient) (w : World) :
  UserID (session cl) = uuid_Nil ->
  oneCall (Token_ (session cl)) (fetchContacts cl) w.
Proof.
  intros Huser. unfold fetchContacts.
  apply oneCall_then; [apply oneCall_decoded_contacts, Huser| |discriminate].
  intros [c|e] w0; [|reflexivity]. unfold bind.
  destruct (Accounting.loadContacts (Some c) w0) as [[cs|p] w1] eqn:Hload;
    apply loadContacts_frame in Hload; subst w1; reflexivity.
Qed.

Lemma oneCall_fetchAccounts (cl : HTTPClient) (w : World) :
  UserID (session cl) = uuid_Nil ->
  oneCall (Token_ (session cl)) (fetchAccounts cl) w.
Proof.
  intros Huser. unfold fetchAccounts.
  apply oneCall_then; [apply oneCall_decoded_accounts, Huser| |discriminate].
  intros [c|e] w0; [|reflexivity]. unfold bind.
  destruct (Accounting.loadAccounts (Some c) w0) as [[cs|p] w1] eqn:Hload;
    apply loadAccounts_frame in Hload; subst w1; reflexivity.
Qed.

Lemma oneCall_FindResource (k : Resource) (cl : HTTPClient) (w : World) :
  UserID (session cl) = uuid_Nil ->
  oneCall (Token_ (session cl)) (Accounting.FindResource k cl) w.
Proof.
  intros Huser. unfold Accounting.FindResource, Helpers.Find.
  apply oneCall_then; [apply oneCall_gateway, Huser| |discriminate].
  intros [bs|e] w0; reflexivity.
Qed.

Lemma oneCall_Contacts_Create (c : option nat) (cl : HTTPClient) (w : World) :
  UserID (session cl) = uuid_Nil ->
  oneCall (Token_ (session cl)) (Accounting.Contacts_Create c cl) w.
Proof.
  intros Huser. unfold Accounting.Contacts_Create. apply oneCall_after.
  - intros o w1. destruct c as [l|]; [|unfold ret; congruence].
    unfold bind.
    destruct (Accounting.loadContacts (Some l) w) as [[cs|p] w0] eqn:Hload;
      apply loadContacts_frame in Hload; subst w0; unfold ret; congruence.
  - intros v. destruct (json_Marshal_Contacts v) as [buf|e].
    + apply oneCall_decoded_contacts, Huser.
    + exists []. rewrite app_nil_r. split; [reflexivity|].
      right. split; [left; reflexivity|]. discriminate.
Qed.

Lemma callsAt_silent {A : Type} (se : option Token) (m : M World A) (w : World) :
  trace (snd (m w)) = trace w -> callsAt se m w.
Proof.
  intros Htrace. exists [], []. cbn [concat app]. rewrite app_nil_r.
  split; [exact Htrace|]. split; [constructor|left; reflexivity].
Qed.

Lemma callsAt_after {A B : Type} (se : option Token) (m : M World A)
    (k : A -> M World B) (w : World) :
  trace (snd (m w)) = trace w ->
  (forall a w1, m w = (Returned a, w1) -> callsAt se (k a) w1) ->
  callsAt se (bind m k) w.
Proof.
  intros Htrace Hk. unfold callsAt, bind.
  destruct (m w) as [[a|p] w1] eqn:Hm; cbn [snd] in Htrace.
  - rewrite <- Htrace. apply (Hk a w1 eq_refl).
  - exists [], []. cbn [concat app fst snd]. rewrite app_nil_r.
    split; [exact Htrace|]. split; [constructor|left; reflexivity].
Qed.

Lemma callsAt_map {A B : Type} (se : option Token) (m : M World A) (f : A -> B)
    (w : World) :
  callsAt se m w -> callsAt se (let* x := m in ret (f x)) w.
Proof.
  intros (calls & last & Htrace & Hcalls & Hlast). exists calls, last.
  unfold bind. destruct (m w) as [[a|p] w1]; cbn [fst snd ret] in *.
  - split; [exact Htrace|]. split; [exact Hcalls|].
    destruct Hlast as [->|[_ [p Hp]]]; [left; reflexivity|discriminate Hp].
  - split; [exact Htrace|]. split; [exact Hcalls|].
    destruct Hlast as [->|[Hstopped _]]; [left; reflexivity|].
    right. split; [exact Hstopped|]. eexists. reflexivity.
Qed.

(** A call, [log.Panic] on its error, and the rest. *)
Lemma callsAt_call {A B : Type} (se : option Token) (m : M World (Result A))
    (k : A -> M World B) (w : World) :
  oneCall se m w ->
  (forall a w1, m w = (Returned (Ok a), w1) -> callsAt se (k a) w1) ->
  callsAt se (let* r := m in
              match r with
              | Err e => log_Panic e
              | Ok a => k a
              end) w.
Proof.
  intros (b & Htrace & Hcase) Hk. unfold callsAt, bind.
  destruct (m w) as [[[a|e]|p] w1] eqn:Hm; cbn [fst snd] in *.
  - destruct Hcase as [Hthrough|[_ Hnot]]; [|exfalso; exact (Hnot a eq_refl)].
    destruct (Hk a w1 eq_refl) as (calls & last & Hrest & Hcalls & Hlast).
    exists (b :: calls), last. split; [|split; [constructor; assumption|exact Hlast]].
    rewrite Hrest, Htrace. cbn [concat]. rewrite <- !app_assoc. reflexivity.
  - unfold log_Panic, throw. cbn [fst snd].
    destruct Hcase as [Hthrough|[[->|Hstopped] _]].
    + exists [b], []. cbn [concat]. rewrite !app_nil_r.
      split; [exact Htrace|]. split; [repeat constructor; exact Hthrough|left; reflexivity].
    + exists [], []. split; [exact Htrace|]. split; [constructor|left; reflexivity].
    + exists [], b. split; [exact Htrace|]. split; [constructor|].
      right. split; [exact Hstopped|]. eexists. reflexivity.
  - destruct Hcase as [Hthrough|[[->|Hstopped] _]].
    + exists [b], []. cbn [concat]. rewrite !app_nil_r.
      split; [exact Htrace|]. split; [repeat constructor; exact Hthrough|left; reflexivity].
    + exists [], []. split; [exact Htrace|]. split; [constructor|left; reflexivity].
    + exists [], b. split; [exact Htrace|]. split; [constructor|].
      right. split; [exact Hstopped|]. eexists. reflexivity.
Qed.

Lemma callsAt_fetchFromEvery {A : Type}
    (fetch : HTTPClient -> M World (Result (list A))) (se : option Token) :
  (forall cl w, UserID (session cl) = uuid_Nil ->
                oneCall (Token_ (session cl)) (fetch cl) w) ->
  forall tenants w, callsAt se (fetchFromEvery fetch se tenants) w.
Proof.
  intros Hfetch tenants.
  induction tenants as [|tenant rest IH]; intros w; cbn [fetchFromEvery].
  - apply callsAt_silent. reflexivity.
  - apply (callsAt_call se _ (fun items =>
             let* others := fetchFromEvery fetch se rest in ret (items :: others))).
    + exact (Hfetch (Auth.Client (Main.sessionFor se (Tenant_TenantID tenant)))
               _ eq_refl).
    + intros items w1 _. apply (callsAt_map se _ (cons items)). apply IH.
Qed.

Lemma refreshesOnly_quiet (h : M World Main.Response) (w : World) :
  quietAt h w -> refreshesOnlyInTransport h w.
Proof.
  intros (evs & Htrace & Hevs). exists evs, [], []. cbn [concat app].
  rewrite app_nil_r. split; [exact Htrace|]. split; [exact Hevs|].
  split; [constructor|left; reflexivity].
Qed.

Lemma refreshesOnly_after_session (body : option Token -> M World Main.Response)
    (w : World) :
  callsAt (repo w !! uuid_Nil) (body (repo w !! uuid_Nil))
    (logged w [EvGetSession uuid_Nil]) ->
  refreshesOnlyInTransport (let* (se, _) := Auth.GetSession uuid_Nil in body se) w.
Proof.
  intros (calls & last & Htrace & Hcalls & Hlast).
  exists [EvGetSession uuid_Nil], calls, last.
  unfold bind. rewrite GetSession_token.
  split; [rewrite Htrace; cbn [logged trace]; rewrite <- !app_assoc; reflexivity|].
  split; [repeat constructor|]. split; [exact Hcalls|exact Hlast].
Qed.

Lemma refreshesOnly_ext (h h' : M World Main.Response) (w : World) :
  h w = h' w -> refreshesOnlyInTransport h' w -> refreshesOnlyInTransport h w.
Proof. unfold refreshesOnlyInTransport. intros ->. auto. Qed.

Lemma refreshesOnly_listAcrossTenants {A : Type}
    (fetch : HTTPClient -> M World (Result (list A)))
    (render : list A -> Main.Response) (w : World) :
  (forall cl w0, UserID (session cl) = uuid_Nil ->
                 oneCall (Token_ (session cl)) (fetch cl) w0) ->
  refreshesOnlyInTransport (listAcrossTenants fetch render) w.
Proof.
  intros Hfetch. unfold listAcrossTenants.
  apply (refreshesOnly_after_session (fun se =>
           let* r := Connection.GetTenants (Auth.Client (Main.sessionFor se uuid_Nil)) in
           match r with
           | Err e => log_Panic e
           | Ok tenants =>
               let* results := fetchFromEvery fetch se tenants in
               ret (render (concat results))
           end)).
  apply (callsAt_call _ _ (fun tenants =>
           let* results := fetchFromEvery fetch (repo w !! uuid_Nil) tenants in
           ret (render (concat results)))).
  - exact (oneCall_GetTenants
             (Auth.Client (Main.sessionFor (repo w !! uuid_Nil) uuid_Nil)) _ eq_refl).
  - intros tenants w1 _.
    apply (callsAt_map _ _ (fun results => render (concat results))).
    apply callsAt_fetchFromEvery. exact Hfetch.
Qed.

Lemma refreshesOnly_XeroConnectionsHandler (w : World) :
  refreshesOnlyInTransport Main.XeroConnectionsHandler w.
Proof.
  unfold Main.XeroConnectionsHandler.
  apply (refreshesOnly_after_session (fun se =>
           let* r := Connection.GetTenants (Auth.Client (Main.sessionFor se uuid_Nil)) in
           match r with
           | Err err => log_Panic err
           | Ok tenants => ret (Main.Encoded tenants)
           end)).
  apply (callsAt_call _ _ (fun tenants => ret (Main.Encoded tenants))).
  - exact (oneCall_GetTenants
             (Auth.Client (Main.sessionFor (repo w !! uuid_Nil) uuid_Nil)) _ eq_refl).
  - intros tenants w1 _. apply callsAt_silent. reflexivity.
Qed.

Lemma refreshesOnly_XeroContactsCreateHandler (w : World) :
  refreshesOnlyInTransport Main.XeroContactsCreateHandler w.
Proof.
  unfold Main.XeroContactsCreateHandler.
  apply (refreshesOnly_after_session (fun se =>
           let* w := get in
           let contactID := uuid_NewV4 (trace w) in
           let* contacts := Accounting.new (OContacts [Main.testContact contactID]) in
           let* r := Connection.GetTenants (Auth.Client (Main.sessionFor se uuid_Nil)) in
           match r with
           | Err err => log_Panic err
           | Ok tenants =>
               match tenants !! 0%nat with
               | None => throw IndexOutOfRange
               | Some tenant0 =>
                   let* r := Accounting.Contacts_Create (Some contacts)
                               (Auth.Client (Main.sessionFor se (Tenant_TenantID tenant0))) in
                   match r with
                   | Err err => log_Panic err
                   | Ok _ => ret (Main.Redirected "/" Main.StatusFound)
                   end
               end
           end)).
  apply callsAt_after; [reflexivity|]. intros w0 w1 _. cbv zeta.
  apply callsAt_after; [reflexivity|]. intros contacts w2 _.
  apply (callsAt_call _ _ (fun tenants =>
           match tenants !! 0%nat with
           | None => throw IndexOutOfRange
           | Some tenant0 =>
               let* r := Accounting.Contacts_Create (Some contacts)
                           (Auth.Client (Main.sessionFor (repo w !! uuid_Nil)
                                           (Tenant_TenantID tenant0))) in
               match r with
               | Err err => log_Panic err
               | Ok _ => ret (Main.Redirected "/" Main.StatusFound)
               end
           end)).
  - exact (oneCall_GetTenants
             (Auth.Client (Main.sessionFor (repo w !! uuid_Nil) uuid_Nil)) _ eq_refl).
  - intros tenants w3 _.
    destruct (tenants !! 0%nat) as [tenant0|]; [|apply callsAt_silent; reflexivity].
    apply (callsAt_call _ _ (fun _ => ret (Main.Redirected "/" Main.StatusFound))).
    + exact (oneCall_Contacts_Create _
               (Auth.Client (Main.sessionFor (repo w !! uuid_Nil)
                               (Tenant_TenantID tenant0))) _ eq_refl).
    + intros c w4 _. apply callsAt_silent. reflexivity.
Qed.

(** C1.  (The transport is modelled from the specification.)  For a session
    whose token has expired, a request through the client of that session
    calls [Refresh] exactly once, as the first thing it does and before
    anything is sent; the request is sent only after [Refresh] has returned
    a new token and [UpdateSession] has stored it for the user, and it is
    sent with the new token; when [Refresh] returns a new token and the
    store holds a session for the user, exactly this happens and the store
    holds the new token when the request returns.  No handler
    other than the one of [/refresh] refreshes by itself: as long as the
    stored token does not expire, serving any other path never calls
    [Refresh]; and whatever the stored token is, expired or not, all that
    serving any other path logs is events of the handler's own, none of
    them a refresh, followed by calls through the transport, so that every
    [Refresh] in the log is the first event of one request, is followed at
    once by the storing of the new token and the sending of that request
    with it, and is the only refresh of that request; a refresh that is
    not followed so ends the handler in a panic. *)
Theorem expired_token_is_refreshed_once_and_stored :
  (forall se tok rq w,
      Token_ se = Some tok ->
      Auth.expired (clock (trace w)) tok = true ->
      exists r w' evs,
        Auth.Do (Auth.Client se) rq w = (Returned r, w')
        /\ trace w' = trace w ++ EvRefresh (Some tok) :: evs
        /\ Forall (fun e => isRefresh e = false) evs
        /\ (sentRequests evs <> [] ->
            exists newToken,
              Auth.Refresh (Some tok) w
                = (Returned (Ok newToken), logged w [EvRefresh (Some tok)])
              /\ evs = [EvUpdateSession (UserID se) newToken;
                        EvSend (TenantID se) (AccessToken newToken) rq]
              /\ repo w' !! UserID se = Some newToken)
        /\ (forall newToken w1,
              Auth.Refresh (Some tok) w = (Returned (Ok newToken), w1) ->
              is_Some (repo w !! UserID se) ->
              evs = [EvUpdateSession (UserID se) newToken;
                     EvSend (TenantID se) (AccessToken newToken) rq]
              /\ repo w' = <[UserID se := newToken]> (repo w)))
  /\
  (forall path h r w,
      Main.router path = Some h ->
      path <> "/refresh" ->
      validToken (repo w !! uuid_Nil) ->
      quietAt (h r) w)
  /\
  (forall path h r w,
      Main.router path = Some h ->
      path <> "/refresh" ->
      refreshesOnlyInTransport (h r) w).
Proof.
  split; [|split].
  - intros se tok rq w Htok Hexpired.
    unfold Auth.Do, Auth.Client. cbn [session]. rewrite Htok.
    unfold bind at 1, get. rewrite Hexpired. unfold bind at 1.
    destruct (Refresh_run (Some tok) w) as [r Hr]. rewrite Hr.
    destruct r as [t'|e].
    + unfold bind at 1. rewrite UpdateSession_run. cbn [logged repo].
      destruct (repo w !! UserID se) as [old|] eqn:Hstored.
      * rewrite send_run. eexists _, _, _. split; [reflexivity|].
        cbn [logged trace repo]. rewrite <- !app_assoc. split; [reflexivity|].
        split; [repeat constructor|]. split.
        -- intros _. exists t'. split; [reflexivity|]. split; [reflexivity|].
           apply lookup_insert_eq.
        -- intros newToken w1 Hnew _. injection Hnew as -> _. split; reflexivity.
      * eexists _, _, _. split; [reflexivity|].
        cbn [logged trace repo]. rewrite <- !app_assoc. split; [reflexivity|].
        split; [repeat constructor|]. split.
        -- intros Hsent. exfalso. apply Hsent. reflexivity.
        -- intros newToken w1 _ [old Hold]. discriminate Hold.
    + eexists _, _, []. split; [reflexivity|].
      split; [reflexivity|]. split; [constructor|]. split.
      * intros Hsent. exfalso. apply Hsent. reflexivity.
      * intros newToken w1 Hnew. discriminate Hnew.
  - intros path h r w Hh Hpath Hvalid.
    unfold Main.router, Main.routes in Hh. cbn [Main.lookupRoute] in Hh.
    repeat match type of Hh with
           | context [String.eqb ?p path] =>
               destruct (String.eqb_spec p path) as [Heq|_];
               [first [exfalso; exact (Hpath (eq_sym Heq)) | injection Hh as <-]|]
           end;
      try discriminate Hh;
      first
        [ apply quiet_HomeHandler
        | apply quiet_ret
        | apply quiet_XeroAuthCallbackHandler
        | apply quietAt_XeroConnectionsHandler; exact Hvalid
        | apply quietAt_XeroContactsHandler; exact Hvalid
        | apply quietAt_XeroContactsCreateHandler; exact Hvalid
        | apply quietAt_XeroAccountsHandler; exact Hvalid
        | apply (quietAt_resourceHandler Invoices); exact Hvalid
        | apply (quietAt_resourceHandler Organisations); exact Hvalid
        | apply (quietAt_resourceHandler BankTransactions); exact Hvalid
        | apply (quietAt_resourceHandler BankTransfers); exact Hvalid
        | apply (quietAt_resourceHandler BrandingThemes); exact Hvalid
        | apply (quietAt_resourceHandler ContactGroups); exact Hvalid
        | apply (quietAt_resourceHandler CreditNotes); exact Hvalid
        | apply (quietAt_resourceHandler Currencies); exact Hvalid
        | apply (quietAt_resourceHandler Employees); exact Hvalid
        | apply (quietAt_resourceHandler InvoiceReminders); exact Hvalid
        | apply (quietAt_resourceHandler Items); exact Hvalid ].
  - intros path h r w Hh Hpath.
    unfold Main.router, Main.routes in Hh. cbn [Main.lookupRoute] in Hh.
    repeat match type of Hh with
           | context [String.eqb ?p path] =>
               destruct (String.eqb_spec p path) as [Heq|_];
               [first [exfalso; exact (Hpath (eq_sym Heq)) | injection Hh as <-]|]
           end;
      try discriminate Hh;
      first
        [ apply refreshesOnly_quiet, quiet_HomeHandler
        | apply refreshesOnly_quiet, quiet_ret
        | apply refreshesOnly_quiet, quiet_XeroAuthCallbackHandler
        | apply refreshesOnly_XeroConnectionsHandler
        | apply refreshesOnly_XeroContactsCreateHandler
        | eapply refreshesOnly_ext;
          [apply contacts_shape
          |apply refreshesOnly_listAcrossTenants; apply oneCall_fetchContacts]
        | eapply refreshesOnly_ext;
          [apply accounts_shape
          |apply refreshesOnly_listAcrossTenants; apply oneCall_fetchAccounts]
        | eapply refreshesOnly_ext;
          [apply (resources_shape Invoices)
          |apply refreshesOnly_listAcrossTenants; apply oneCall_FindResource]
        | eapply refreshesOnly_ext;
          [apply (resources_shape Organisations)
          |apply refreshesOnly_listAcrossTenants; apply oneCall_FindResource]
        | eapply refreshesOnly_ext;
          [apply (resources_shape BankTransactions)
          |apply refreshesOnly_listAcrossTenants; apply oneCall_FindResource]
        | eapply refreshesOnly_ext;
          [apply (resources_shape BankTransfers)
          |apply refreshesOnly_listAcrossTenants; apply oneCall_FindResource]
        | eapply refreshesOnly_ext;
          [apply (resources_shape BrandingThemes)
          |apply refreshesOnly_listAcrossTenants; apply oneCall_FindResource]
        | eapply refreshesOnly_ext;
          [apply (resources_shape ContactGroups)
          |apply refreshesOnly_listAcrossTenants; apply oneCall_FindResource]
        | eapply refreshesOnly_ext;
          [apply (resources_shape CreditNotes)
          |apply refreshesOnly_listAcrossTenants; apply oneCall_FindResource]
        | eapply refreshesOnly_ext;
          [apply (resources_shape Currencies)
          |apply refreshesOnly_listAcrossTenants; apply oneCall_FindResource]
        | eapply refreshesOnly_ext;
          [apply (resources_shape Employees)
          |apply refreshesOnly_listAcrossTenants; apply oneCall_FindResource]
        | eapply refreshesOnly_ext;
          [apply (resources_shape InvoiceReminders)
          |apply refreshesOnly_listAcrossTenants; apply oneCall_FindResource]
        | eapply refreshesOnly_ext;
          [apply (resources_shape Items)
          |apply refreshesOnly_listAcrossTenants; apply oneCall_FindResource] ].
Qed.

End Quiet.

(** ** More on the date loop *)

Section ConvertLoopOrder.
Context {E : Type} (getDate : E -> string) (setDate : string -> E -> E).
Context (convert : string -> bool -> string * option error).

Local Abbreviation norm := (fun x : E => setDate (fst (convert (getDate x) true)) x).
Local Abbreviation loop := (convertPrefix getDate setDate convert).
Local Abbreviation good := (fun x : E => snd (convert (getDate x) true) = None).
Local Abbreviation sameButDate := (fun x y : E => setDate "" x = setDate "" y).

(** The iterations over a stretch of elements that all convert. *)
Lemma convertPrefix_suffix (post : list E) :
  forall pre done,
    Forall good post ->
    loop (pre ++ post ++ done) (length pre + length post)
    = loop (pre ++ map norm post ++ done) (length pre).
Proof.
  induction post as [|y post IH] using rev_ind; intros pre done Hgood.
  - cbn [length map app]. rewrite Nat.add_0_r. reflexivity.
  - apply Forall_app in Hgood as [Hpost Hy].
    apply Forall_inv in Hy.
    rewrite length_app. cbn [length].
    replace (length pre + (length post + 1))%nat
      with (S (length pre + length post)) by lia.
    cbn [convertPrefix]. rewrite <- !app_assoc. cbn [app].
    assert (Hlk : (pre ++ post ++ y :: done) !! (length pre + length post)%nat = Some y).
    { rewrite app_assoc, <- length_app. apply list_lookup_middle. reflexivity. }
    rewrite Hlk. destruct (convert (getDate y) true) as [s err] eqn:Hc.
    cbn [snd] in Hy. subst err.
    replace (<[(length pre + length post)%nat := setDate s y]> (pre ++ post ++ y :: done))
      with (pre ++ post ++ setDate s y :: done).
    2:{ rewrite !(app_assoc pre post), <- length_app.
        rewrite insert_app_r_alt by lia. rewrite Nat.sub_diag. reflexivity. }
    rewrite (IH pre (setDate s y :: done) Hpost).
    rewrite map_app. cbn [map]. rewrite Hc. cbn [fst].
    rewrite <- !app_assoc. reflexivity.
Qed.

(** When every element converts the loop normalises them all. *)
Lemma convertPrefix_good (xs : list E) :
  Forall good xs -> loop xs (length xs) = (map norm xs, None).
Proof.
  intros Hgood. pose proof (convertPrefix_suffix xs [] [] Hgood) as Hs.
  cbn [app length Nat.add] in Hs. rewrite !app_nil_r in Hs. exact Hs.
Qed.

(** The loop stops at the last element that does not convert. *)
Lemma convertPrefix_stops (before after : list E) (x : E) (s : string) (e : error) :
  Forall good after ->
  convert (getDate x) true = (s, Some e) ->
  loop (before ++ x :: after) (length (before ++ x :: after))
  = (before ++ setDate s x :: map norm after, Some e).
Proof.
  intros Hgood Hx.
  pose proof (convertPrefix_suffix after (before ++ [x]) [] Hgood) as Hs.
  rewrite !app_nil_r, <- !app_assoc in Hs. cbn [app] in Hs.
  rewrite length_app in Hs. cbn [length] in Hs.
  rewrite length_app. cbn [length].
  replace (length before + S (length after))%nat
    with (length before + 1 + length after)%nat by lia.
  rewrite Hs. replace (length before + 1)%nat with (S (length before)) by lia.
  cbn [convertPrefix]. rewrite list_lookup_middle by reflexivity. rewrite Hx.
  rewrite insert_app_r_alt by lia. rewrite Nat.sub_diag. reflexivity.
Qed.

(** A loop that fails met an element that does not convert. *)
Lemma convertPrefix_failed (xs : list E) (e : error) :
  snd (loop xs (length xs)) = Some e -> ~ Forall good xs.
Proof.
  intros Hfail Hgood. rewrite (convertPrefix_good xs Hgood) in Hfail.
  discriminate Hfail.
Qed.

Hypothesis setDate_setDate :
  forall s t x, setDate s (setDate t x) = setDate s x.

Lemma sameButDate_insert (xs : list E) (n : nat) (x : E) (s : string) :
  xs !! n = Some x ->
  Forall2 sameButDate xs (<[n := setDate s x]> xs).
Proof.
  revert n. induction xs as [|y xs IH]; intros [|n] Hx; try discriminate Hx.
  - injection Hx as ->. cbn [insert list_insert]. constructor.
    + symmetry. apply setDate_setDate.
    + clear. induction xs; constructor; auto.
  - cbn [insert list_insert]. constructor; [reflexivity|]. apply IH. exact Hx.
Qed.

Lemma sameButDate_trans (xs ys zs : list E) :
  Forall2 sameButDate xs ys -> Forall2 sameButDate ys zs ->
  Forall2 sameButDate xs zs.
Proof.
  intros Hxy. revert zs. induction Hxy as [|x y xs ys Hhead _ IH]; intros zs Hyz.
  - exact Hyz.
  - inversion Hyz as [|? z ? zs' Hhead' Htail']; subst.
    constructor; [congruence|]. apply IH. exact Htail'.
Qed.

(** However far the loop gets, it changes nothing but dates. *)
Lemma convertPrefix_sameButDate (k : nat) :
  forall xs, Forall2 sameButDate xs (fst (loop xs k)).
Proof.
  induction k as [|n IH]; intros xs; cbn [convertPrefix].
  - cbn [fst]. induction xs; constructor; auto.
  - destruct (xs !! n) as [x|] eqn:Hx.
    2:{ cbn [fst]. clear. induction xs; constructor; auto. }
    destruct (convert (getDate x) true) as [s [e|]]; cbn [fst].
    + apply sameButDate_insert. exact Hx.
    + eapply sameButDate_trans;
        [apply (sameButDate_insert xs n x s Hx)|apply IH].
Qed.

End ConvertLoopOrder.

(** ** Dates, nil and the first element *)

Section DateLoop.
Context `{Environment}.

Lemma Contact_setUpdatedDateUTC_twice (s t : string) (c : Contact) :
  Contact_setUpdatedDateUTC s (Contact_setUpdatedDateUTC t c)
  = Contact_setUpdatedDateUTC s c.
Proof. reflexivity. Qed.

Lemma Account_setUpdatedDateUTC_twice (s t : string) (a : Account) :
  Account_setUpdatedDateUTC s (Account_setUpdatedDateUTC t a)
  = Account_setUpdatedDateUTC s a.
Proof. reflexivity. Qed.

Lemma Contacts_convertDates_run (l : nat) (cs : list Contact) (w : World) :
  heap w !! l = Some (OContacts cs) ->
  Accounting.Contacts_convertDates (Some l) w
  = (Returned (snd (convertPrefix UpdatedDateUTC Contact_setUpdatedDateUTC
                      helpers_DotNetJSONTimeToRFC3339 cs (length cs))),
     withHeap w (<[l := OContacts
                          (fst (convertPrefix UpdatedDateUTC Contact_setUpdatedDateUTC
                                  helpers_DotNetJSONTimeToRFC3339 cs (length cs)))]>
                   (heap w))).
Proof.
  intros Hl. unfold Accounting.Contacts_convertDates, bind.
  rewrite (loadContacts_run l cs w Hl).
  apply Contacts_convertDates_from_run; [exact Hl|lia].
Qed.

Lemma Accounts_convertDates_run (l : nat) (accs : list Account) (w : World) :
  heap w !! l = Some (OAccounts accs) ->
  Accounting.Accounts_convertDates (Some l) w
  = (Returned (snd (convertPrefix AccountUpdatedDateUTC Account_setUpdatedDateUTC
                      helpers_DotNetJSONTimeToRFC3339 accs (length accs))),
     withHeap w (<[l := OAccounts
                          (fst (convertPrefix AccountUpdatedDateUTC Account_setUpdatedDateUTC
                                  helpers_DotNetJSONTimeToRFC3339 accs (length accs)))]>
                   (heap w))).
Proof.
  intros Hl. unfold Accounting.Accounts_convertDates, bind.
  rewrite (loadAccounts_run l accs w Hl).
  apply Accounts_convertDates_from_run; [exact Hl|lia].
Qed.

(** X1.  [convertDates] walks the collection from its last element to its
    first and returns at the first date that fails to convert: when the
    element [x] does not convert and all elements after it do, the error
    returned is the one of [x], the elements after [x] hold their converted
    dates, [x] holds the string the conversion returned with its error, and
    the elements before [x] have not been touched. *)
Theorem convertDates_stops_at_the_last_bad_date :
  (forall l before x after s e w,
      heap w !! l = Some (OContacts (before ++ x :: after)) ->
      Forall (fun c => converts (UpdatedDateUTC c)) after ->
      helpers_DotNetJSONTimeToRFC3339 (UpdatedDateUTC x) true = (s, Some e) ->
      Accounting.Contacts_convertDates (Some l) w
      = (Returned (Some e),
         withHeap w
           (<[l := OContacts (before ++ Contact_setUpdatedDateUTC s x
                                :: map normaliseContact after)]> (heap w))))
  /\
  (forall l before x after s e w,
      heap w !! l = Some (OAccounts (before ++ x :: after)) ->
      Forall (fun a => converts (AccountUpdatedDateUTC a)) after ->
      helpers_DotNetJSONTimeToRFC3339 (AccountUpdatedDateUTC x) true = (s, Some e) ->
      Accounting.Accounts_convertDates (Some l) w
      = (Returned (Some e),
         withHeap w
           (<[l := OAccounts (before ++ Account_setUpdatedDateUTC s x
                                :: map normaliseAccount after)]> (heap w)))).
Proof.
  split; intros l before x after s e w Hl Hafter Hx.
  - rewrite (Contacts_convertDates_run l _ w Hl).
    rewrite (convertPrefix_stops _ _ _ before after x s e Hafter Hx). reflexivity.
  - rewrite (Accounts_convertDates_run l _ w Hl).
    rewrite (convertPrefix_stops _ _ _ before after x s e Hafter Hx). reflexivity.
Qed.

(** X2.  On a collection that exists [convertDates] always returns, with
    or without an error, and whatever it returns the collection has the
    same elements in the same order, each differing from what it was at
    most in [UpdatedDateUTC]; nothing else on the heap changes. *)
Theorem convertDates_touches_only_the_date :
  (forall l cs w,
      heap w !! l = Some (OContacts cs) ->
      exists err cs',
        Accounting.Contacts_convertDates (Some l) w
        = (Returned err, withHeap w (<[l := OContacts cs']> (heap w)))
        /\ Forall2 sameContactButDate cs cs')
  /\
  (forall l accs w,
      heap w !! l = Some (OAccounts accs) ->
      exists err accs',
        Accounting.Accounts_convertDates (Some l) w
        = (Returned err, withHeap w (<[l := OAccounts accs']> (heap w)))
        /\ Forall2 sameAccountButDate accs accs').
Proof.
  split.
  - intros l cs w Hl. eexists _, _. split; [apply Contacts_convertDates_run, Hl|].
    apply convertPrefix_sameButDate. exact Contact_setUpdatedDateUTC_twice.
  - intros l accs w Hl. eexists _, _. split; [apply Accounts_convertDates_run, Hl|].
    apply convertPrefix_sameButDate. exact Account_setUpdatedDateUTC_twice.
Qed.

(** X3.  A body is decoded into a collection exactly when every date in it
    converts: then [unmarshalContact] (and [unmarshalAccount]) returns a
    pointer to a new object holding the normalised elements; when some date
    does not convert it returns an error and no collection. *)
Theorem decoding_succeeds_exactly_when_every_date_converts :
  (forall bs cs w,
      json_Unmarshal_Contacts bs = Ok (Some cs) ->
      (Forall (fun c => converts (UpdatedDateUTC c)) cs ->
       Accounting.unmarshalContact bs w
       = (Returned (Ok (length (heap w))),
          withHeap w (heap w ++ [OContacts (map normaliseContact cs)])))
      /\ (~ Forall (fun c => converts (UpdatedDateUTC c)) cs ->
          exists e, fst (Accounting.unmarshalContact bs w) = Returned (Err e)))
  /\
  (forall bs accs w,
      json_Unmarshal_Accounts bs = Ok (Some accs) ->
      (Forall (fun a => converts (AccountUpdatedDateUTC a)) accs ->
       Accounting.unmarshalAccount bs w
       = (Returned (Ok (length (heap w))),
          withHeap w (heap w ++ [OAccounts (map normaliseAccount accs)])))
      /\ (~ Forall (fun a => converts (AccountUpdatedDateUTC a)) accs ->
          exists e, fst (Accounting.unmarshalAccount bs w) = Returned (Err e))).
Proof.
  split.
  - intros bs cs w Hjson. rewrite unmarshalContact_run, Hjson. split.
    + intros Hgood. rewrite (convertPrefix_good _ _ _ cs Hgood). reflexivity.
    + intros Hbad.
      destruct (snd (convertPrefix _ _ _ cs (length cs))) as [e|] eqn:Hloop.
      * exists e. reflexivity.
      * exfalso. apply Hbad. apply (convertPrefix_all _ _ _ cs Hloop).
  - intros bs accs w Hjson. rewrite unmarshalAccount_run, Hjson. split.
    + intros Hgood. rewrite (convertPrefix_good _ _ _ accs Hgood). reflexivity.
    + intros Hbad.
      destruct (snd (convertPrefix _ _ _ accs (length accs))) as [e|] eqn:Hloop.
      * exists e. reflexivity.
      * exfalso. apply Hbad. apply (convertPrefix_all _ _ _ accs Hloop).
Qed.

(** X4.  A body that decodes without error into a nil pointer (JSON
    [null]) makes [convertDates] dereference nil: [unmarshalContact] and
    [unmarshalAccount] panic instead of returning an error, and so do the
    calls that decode such a body; [convertDates] and [Update] on a nil
    receiver panic as well, [Update] before anything is sent. *)
Theorem null_body_is_a_nil_dereference :
  (forall bs w,
      json_Unmarshal_Contacts bs = Ok None ->
      Accounting.unmarshalContact bs w = (Panicked NilDereference, w))
  /\ (forall bs w,
      json_Unmarshal_Accounts bs = Ok None ->
      Accounting.unmarshalAccount bs w = (Panicked NilDereference, w))
  /\ (forall cl w bs w1,
      Helpers.Find cl Accounting.contactsURL ∅ ∅ w = (Returned (Ok bs), w1) ->
      json_Unmarshal_Contacts bs = Ok None ->
      Accounting.FindContacts cl w = (Panicked NilDereference, w1))
  /\ (forall cl q w bs w1,
      Helpers.Find cl Accounting.accountsURL ∅ q w = (Returned (Ok bs), w1) ->
      json_Unmarshal_Accounts bs = Ok None ->
      Accounting.FindAccounts cl q w = (Panicked NilDereference, w1))
  /\ (forall cl accountID w bs w1,
      Helpers.Remove cl (Accounting.accountsURL +:+ "/" +:+ UUID_String accountID) w
        = (Returned (Ok bs), w1) ->
      json_Unmarshal_Accounts bs = Ok None ->
      Accounting.RemoveAccount cl accountID w = (Panicked NilDereference, w1))
  /\ (forall w, Accounting.Contacts_convertDates None w = (Panicked NilDereference, w))
  /\ (forall w, Accounting.Accounts_convertDates None w = (Panicked NilDereference, w))
  /\ (forall cl w, Accounting.Contact_Update None cl w = (Panicked NilDereference, w))
  /\ (forall cl w, Accounting.Account_Update None cl w = (Panicked NilDereference, w)).
Proof.
  split; [|split; [|split; [|split; [|split; [|split; [|split; [|split]]]]]]];
    try reflexivity.
  - intros bs w Hjson. rewrite unmarshalContact_run, Hjson. reflexivity.
  - intros bs w Hjson. rewrite unmarshalAccount_run, Hjson. reflexivity.
  - intros cl w bs w1 Hfind Hjson. unfold Accounting.FindContacts, bind.
    rewrite Hfind, unmarshalContact_run, Hjson. reflexivity.
  - intros cl q w bs w1 Hfind Hjson. unfold Accounting.FindAccounts, bind.
    rewrite Hfind, unmarshalAccount_run, Hjson. reflexivity.
  - intros cl accountID w bs w1 Hremove Hjson. unfold Accounting.RemoveAccount, bind.
    rewrite Hremove, unmarshalAccount_run, Hjson. reflexivity.
Qed.

(** X5.  When the body of a single-element lookup decodes into a
    collection that is not empty and whose dates all convert, [FindContact]
    and [FindAccount] return a pointer to its first element, whatever
    follows it: the element at index 0 of the new collection, which is the
    first decoded element with its date converted. *)
Theorem find_one_returns_the_first_element :
  (forall cl contactID w bs w1 x rest,
      Helpers.Find cl (Accounting.contactsURL +:+ "/" +:+ UUID_String contactID) ∅ ∅ w
        = (Returned (Ok bs), w1) ->
      json_Unmarshal_Contacts bs = Ok (Some (x :: rest)) ->
      Forall (fun c => converts (UpdatedDateUTC c)) (x :: rest) ->
      let c := length (heap w1) in
      let w2 := withHeap w1 (heap w1 ++ [OContacts (map normaliseContact (x :: rest))]) in
      Accounting.FindContact cl contactID w = (Returned (Ok (Some (c, 0%nat))), w2)
      /\ Accounting.loadContact (Some (c, 0%nat)) w2 = (Returned (normaliseContact x), w2))
  /\
  (forall cl accountID w bs w1 x rest,
      Helpers.Find cl (Accounting.accountsURL +:+ "/" +:+ UUID_String accountID) ∅ ∅ w
        = (Returned (Ok bs), w1) ->
      json_Unmarshal_Accounts bs = Ok (Some (x :: rest)) ->
      Forall (fun a => converts (AccountUpdatedDateUTC a)) (x :: rest) ->
      let a := length (heap w1) in
      let w2 := withHeap w1 (heap w1 ++ [OAccounts (map normaliseAccount (x :: rest))]) in
      Accounting.FindAccount cl accountID w = (Returned (Ok (Some (a, 0%nat))), w2)
      /\ Accounting.loadAccount (Some (a, 0%nat)) w2 = (Returned (normaliseAccount x), w2)).
Proof.
  split.
  - intros cl contactID w bs w1 x rest Hfind Hjson Hgood c w2.
    assert (Hl : heap w2 !! c = Some (OContacts (map normaliseContact (x :: rest))))
      by (apply list_lookup_middle; reflexivity).
    split.
    + unfold Accounting.FindContact. unfold bind at 1. rewrite Hfind.
      unfold bind at 1. rewrite unmarshalContact_run, Hjson.
      rewrite (convertPrefix_good _ _ _ (x :: rest) Hgood). cbn [fst snd].
      change (withHeap w1 _) with w2. change (length (heap w1)) with c.
      unfold bind. rewrite (loadContacts_run _ _ _ Hl). reflexivity.
    + apply (loadContact_run _ _ _ _ _ Hl). reflexivity.
  - intros cl accountID w bs w1 x rest Hfind Hjson Hgood a w2.
    assert (Hl : heap w2 !! a = Some (OAccounts (map normaliseAccount (x :: rest))))
      by (apply list_lookup_middle; reflexivity).
    split.
    + unfold Accounting.FindAccount. unfold bind at 1. rewrite Hfind.
      unfold bind at 1. rewrite unmarshalAccount_run, Hjson.
      rewrite (convertPrefix_good _ _ _ (x :: rest) Hgood). cbn [fst snd].
      change (withHeap w1 _) with w2. change (length (heap w1)) with a.
      unfold bind. rewrite (loadAccounts_run _ _ _ Hl). reflexivity.
    + apply (loadAccount_run _ _ _ _ _ Hl). reflexivity.
Qed.

End DateLoop.

(** ** What a call allocates *)

Section Allocation.
Context `{Environment}.

Lemma allocatesOnly_unchanged {A : Type} (m : M World A) :
  (forall w, heap (snd (m w)) = heap w) -> allocatesOnly m.
Proof. intros Hm w. exists []. rewrite app_nil_r. apply Hm. Qed.

Lemma allocatesOnly_bind {A B : Type} (m : M World A) (k : A -> M World B) :
  allocatesOnly m -> (forall a, allocatesOnly (k a)) -> allocatesOnly (bind m k).
Proof.
  intros Hm Hk w. destruct (Hm w) as [added Hadded]. unfold bind.
  destruct (m w) as [[a|p] w1]; cbn [snd] in *.
  - destruct (Hk a w1) as [more Hmore]. exists (added ++ more).
    rewrite Hmore, Hadded, app_assoc. reflexivity.
  - exists added. exact Hadded.
Qed.

Lemma allocatesOnly_gateway (cl : HTTPClient) (rq : Request) :
  allocatesOnly (Helpers.gateway cl rq).
Proof.
  apply allocatesOnly_unchanged. intros w.
  destruct (gateway_frame cl rq w) as (r & w' & evs & Hrun & Hheap & _).
  rewrite Hrun. exact Hheap.
Qed.

Lemma allocatesOnly_loadContacts (c : option nat) :
  allocatesOnly (Accounting.loadContacts c).
Proof.
  apply allocatesOnly_unchanged. intros w.
  destruct (Accounting.loadContacts c w) as [o w'] eqn:Hrun.
  apply loadContacts_frame in Hrun. subst w'. reflexivity.
Qed.

Lemma allocatesOnly_loadAccounts (a : option nat) :
  allocatesOnly (Accounting.loadAccounts a).
Proof.
  apply allocatesOnly_unchanged. intros w.
  destruct (Accounting.loadAccounts a w) as [o w'] eqn:Hrun.
  apply loadAccounts_frame in Hrun. subst w'. reflexivity.
Qed.

Lemma allocatesOnly_loadContact (c : option (nat * nat)) :
  allocatesOnly (Accounting.loadContact c).
Proof.
  apply allocatesOnly_unchanged. intros w.
  destruct (Accounting.loadContact c w) as [o w'] eqn:Hrun.
  apply loadContact_frame in Hrun. subst w'. reflexivity.
Qed.

Lemma allocatesOnly_loadAccount (a : option (nat * nat)) :
  allocatesOnly (Accounting.loadAccount a).
Proof.
  apply allocatesOnly_unchanged. intros w.
  destruct (Accounting.loadAccount a w) as [o w'] eqn:Hrun.
  apply loadAccount_frame in Hrun. subst w'. reflexivity.
Qed.

Lemma allocatesFresh_bind {A B : Type} (ptr : B -> option nat)
    (m : M World A) (k : A -> M World (Result B)) :
  allocatesOnly m -> (forall a, allocatesFresh ptr (k a)) ->
  allocatesFresh ptr (bind m k).
Proof.
  intros Hm Hk w. destruct (Hm w) as [added Hadded]. unfold bind.
  destruct (m w) as [[a|p] w1]; cbn [snd] in *.
  - destruct (Hk a w1) as (more & Hmore & Hptr). exists (added ++ more).
    split; [rewrite Hmore, Hadded, app_assoc; reflexivity|].
    intros b l Hb Hl. specialize (Hptr b l Hb Hl).
    rewrite Hadded in Hptr. rewrite !length_app in *. lia.
  - exists added. split; [exact Hadded|]. intros b l Hb. discriminate Hb.
Qed.

Lemma allocatesFresh_Err {A : Type} (ptr : A -> option nat) (e : error) :
  allocatesFresh ptr (ret (Err e)).
Proof.
  intros w. exists []. rewrite app_nil_r. split; [reflexivity|].
  intros a l Ha. discriminate Ha.
Qed.

Lemma allocatesFresh_unmarshalContact (bs : bytes) :
  allocatesFresh Some (Accounting.unmarshalContact bs).
Proof.
  intros w. rewrite unmarshalContact_run.
  destruct (json_Unmarshal_Contacts bs) as [[cs|]|e].
  - eexists [_]. split; [reflexivity|]. intros a l Ha Hl. cbn [fst] in Ha.
    destruct (snd (convertPrefix _ _ _ cs (length cs))); [discriminate Ha|].
    injection Ha as <-. injection Hl as <-. cbn [length]. lia.
  - exists []. rewrite app_nil_r. split; [reflexivity|]. intros a l Ha. discriminate Ha.
  - exists []. rewrite app_nil_r. split; [reflexivity|]. intros a l Ha. discriminate Ha.
Qed.

Lemma allocatesFresh_unmarshalAccount (bs : bytes) :
  allocatesFresh Some (Accounting.unmarshalAccount bs).
Proof.
  intros w. rewrite unmarshalAccount_run.
  destruct (json_Unmarshal_Accounts bs) as [[accs|]|e].
  - eexists [_]. split; [reflexivity|]. intros a l Ha Hl. cbn [fst] in Ha.
    destruct (snd (convertPrefix _ _ _ accs (length accs))); [discriminate Ha|].
    injection Ha as <-. injection Hl as <-. cbn [length]. lia.
  - exists []. rewrite app_nil_r. split; [reflexivity|]. intros a l Ha. discriminate Ha.
  - exists []. rewrite app_nil_r. split; [reflexivity|]. intros a l Ha. discriminate Ha.
Qed.

(** A body that comes from the gateway, decoded. *)
Lemma allocatesFresh_decoded_contacts (g : M World (Result bytes)) :
  allocatesOnly g ->
  allocatesFresh Some
    (let* r := g in
     match r with
     | Err e => ret (Err e)
     | Ok bs => Accounting.unmarshalContact bs
     end).
Proof.
  intros Hg. apply allocatesFresh_bind; [exact Hg|].
  intros [bs|e]; [apply allocatesFresh_unmarshalContact|apply allocatesFresh_Err].
Qed.

Lemma allocatesFresh_decoded_accounts (g : M World (Result bytes)) :
  allocatesOnly g ->
  allocatesFresh Some
    (let* r := g in
     match r with
     | Err e => ret (Err e)
     | Ok bs => Accounting.unmarshalAccount bs
     end).
Proof.
  intros Hg. apply allocatesFresh_bind; [exact Hg|].
  intros [bs|e]; [apply allocatesFresh_unmarshalAccount|apply allocatesFresh_Err].
Qed.

(** The pointer to the first element points into the decoded collection. *)
Lemma allocatesFresh_first_contact (bs : bytes) :
  allocatesFresh collectionOf
    (let* r := Accounting.unmarshalContact bs in
     match r with
     | Err e => ret (Err e)
     | Ok c =>
         let* cs := Accounting.loadContacts (Some c) in
         if (0 <? length cs)%nat then ret (Ok (Some (c, 0%nat)))
         else ret (Ok None)
     end).
Proof.
  intros w. destruct (allocatesFresh_unmarshalContact bs w) as (added & Hheap & Hptr).
  exists added. unfold bind.
  destruct (Accounting.unmarshalContact bs w) as [[[c|e]|p] w1]; cbn [fst snd] in *;
    try (split; [exact Hheap|]; intros a l Ha; discriminate Ha).
  destruct (Accounting.loadContacts (Some c) w1) as [[cs|p] w2] eqn:Hload;
    apply loadContacts_frame in Hload; subst w2.
  - destruct (0 <? length cs)%nat; cbn [fst snd ret]; (split; [exact Hheap|]);
      intros a l Ha Hl; injection Ha as <-; [|discriminate Hl].
    injection Hl as <-. exact (Hptr c c eq_refl eq_refl).
  - split; [exact Hheap|]. intros a l Ha. discriminate Ha.
Qed.

Lemma allocatesFresh_first_account (bs : bytes) :
  allocatesFresh collectionOf
    (let* r := Accounting.unmarshalAccount bs in
     match r with
     | Err e => ret (Err e)
     | Ok a =>
         let* accs := Accounting.loadAccounts (Some a) in
         if (0 <? length accs)%nat then ret (Ok (Some (a, 0%nat)))
         else ret (Ok None)
     end).
Proof.
  intros w. destruct (allocatesFresh_unmarshalAccount bs w) as (added & Hheap & Hptr).
  exists added. unfold bind.
  destruct (Accounting.unmarshalAccount bs w) as [[[c|e]|p] w1]; cbn [fst snd] in *;
    try (split; [exact Hheap|]; intros a l Ha; discriminate Ha).
  destruct (Accounting.loadAccounts (Some c) w1) as [[cs|p] w2] eqn:Hload;
    apply loadAccounts_frame in Hload; subst w2.
  - destruct (0 <? length cs)%nat; cbn [fst snd ret]; (split; [exact Hheap|]);
      intros a l Ha Hl; injection Ha as <-; [|discriminate Hl].
    injection Hl as <-. exact (Hptr c c eq_refl eq_refl).
  - split; [exact Hheap|]. intros a l Ha. discriminate Ha.
Qed.

(** X6.  None of the ten exported functions of the two resource modules,
    and neither [unmarshalContact] nor [unmarshalAccount], changes or
    removes an object that was on the heap when it was called, however it
    ends: the heap afterwards is the heap before, followed by what the call
    allocated.  The collection it returns (for [FindContact] and
    [FindAccount]: the collection the returned element lives in) is one of
    the objects it allocated, so it aliases nothing the caller held.
    ([convertDates], which does write in place, is run by these functions
    on the collection just decoded and on nothing else.) *)
Theorem results_are_new_objects_and_old_ones_are_kept :
  (forall cl, allocatesFresh Some (Accounting.FindContacts cl))
  /\ (forall cl contactID,
      allocatesFresh collectionOf (Accounting.FindContact cl contactID))
  /\ (forall c cl, allocatesFresh Some (Accounting.Contacts_Create c cl))
  /\ (forall c cl, allocatesFresh Some (Accounting.Contact_Update c cl))
  /\ (forall cl since q,
      allocatesFresh Some (Accounting.FindAccountsModifiedSince cl since q))
  /\ (forall cl q, allocatesFresh Some (Accounting.FindAccounts cl q))
  /\ (forall cl accountID,
      allocatesFresh collectionOf (Accounting.FindAccount cl accountID))
  /\ (forall cl accountID, allocatesFresh Some (Accounting.RemoveAccount cl accountID))
  /\ (forall a cl, allocatesFresh Some (Accounting.Accounts_Create a cl))
  /\ (forall a cl, allocatesFresh Some (Accounting.Account_Update a cl))
  /\ (forall bs, allocatesFresh Some (Accounting.unmarshalContact bs))
  /\ (forall bs, allocatesFresh Some (Accounting.unmarshalAccount bs)).
Proof.
  split; [|split; [|split; [|split; [|split; [|split; [|split; [|split; [|split;
    [|split; [|split]]]]]]]]]].
  - intros cl. apply allocatesFresh_decoded_contacts, allocatesOnly_gateway.
  - intros cl contactID. unfold Accounting.FindContact.
    apply allocatesFresh_bind; [apply allocatesOnly_gateway|].
    intros [bs|e]; [apply allocatesFresh_first_contact|apply allocatesFresh_Err].
  - intros c cl. unfold Accounting.Contacts_Create. apply allocatesFresh_bind.
    + destruct c; [|apply allocatesOnly_unchanged; reflexivity].
      apply allocatesOnly_bind; [apply allocatesOnly_loadContacts|].
      intros cs. apply allocatesOnly_unchanged. reflexivity.
    + intros v. destruct (json_Marshal_Contacts v); [|apply allocatesFresh_Err].
      apply allocatesFresh_decoded_contacts, allocatesOnly_gateway.
  - intros c cl. unfold Accounting.Contact_Update.
    apply allocatesFresh_bind; [apply allocatesOnly_loadContact|]. intros x.
    destruct (json_Marshal_Contacts (Some [x])); [|apply allocatesFresh_Err].
    apply allocatesFresh_bind; [apply allocatesOnly_loadContact|]. intros x'.
    apply allocatesFresh_decoded_contacts, allocatesOnly_gateway.
  - intros cl since q. apply allocatesFresh_decoded_accounts, allocatesOnly_gateway.
  - intros cl q. apply allocatesFresh_decoded_accounts, allocatesOnly_gateway.
  - intros cl accountID. unfold Accounting.FindAccount.
    apply allocatesFresh_bind; [apply allocatesOnly_gateway|].
    intros [bs|e]; [apply allocatesFresh_first_account|apply allocatesFresh_Err].
  - intros cl accountID. apply allocatesFresh_decoded_accounts, allocatesOnly_gateway.
  - intros a cl. unfold Accounting.Accounts_Create. apply allocatesFresh_bind.
    + destruct a; [|apply allocatesOnly_unchanged; reflexivity].
      apply allocatesOnly_bind; [apply allocatesOnly_loadAccounts|].
      intros accs. apply allocatesOnly_unchanged. reflexivity.
    + intros v. destruct (json_Marshal_Accounts v); [|apply allocatesFresh_Err].
      apply allocatesFresh_decoded_accounts, allocatesOnly_gateway.
  - intros a cl. unfold Accounting.Account_Update.
    apply allocatesFresh_bind; [apply allocatesOnly_loadAccount|]. intros x.
    destruct (json_Marshal_Accounts (Some [x])); [|apply allocatesFresh_Err].
    apply allocatesFresh_bind; [apply allocatesOnly_loadAccount|]. intros x'.
    apply allocatesFresh_decoded_accounts, allocatesOnly_gateway.
  - exact allocatesFresh_unmarshalContact.
  - exact allocatesFresh_unmarshalAccount.
Qed.

End Allocation.

(** ** What a call sends *)

Section Requests.
Context `{Environment}.

Lemma sendsOnly_gateway_then {A : Type} (cl : HTTPClient) (rq : Request)
    (k : Result bytes -> M World (Result A)) :
  (forall r w, trace (snd (k r w)) = trace w) ->
  (forall e w a, fst (k (Err e) w) <> Returned (Ok a)) ->
  sendsOnly (bind (Helpers.gateway cl rq) k) rq.
Proof.
  intros Hsilent Herr w.
  destruct (gateway_frame cl rq w) as (r & w1 & evs & Hrun & _ & Htrace & Hsent & Hok).
  exists evs. unfold bind. rewrite Hrun.
  split; [rewrite Hsilent; exact Htrace|]. split; [exact Hsent|].
  intros a Ha. destruct r as [b|e]; [exact (Hok b eq_refl)|].
  exfalso. exact (Herr e w1 a Ha).
Qed.

Lemma unmarshalContact_silent (bs : bytes) (w : World) :
  trace (snd (Accounting.unmarshalContact bs w)) = trace w.
Proof.
  destruct (Accounting.unmarshalContact bs w) as [o w'] eqn:Hrun.
  apply unmarshalContact_frame in Hrun as [Htrace _]. exact Htrace.
Qed.

Lemma unmarshalAccount_silent (bs : bytes) (w : World) :
  trace (snd (Accounting.unmarshalAccount bs w)) = trace w.
Proof.
  destruct (Accounting.unmarshalAccount bs w) as [o w'] eqn:Hrun.
  apply unmarshalAccount_frame in Hrun as [Htrace _]. exact Htrace.
Qed.

Lemma sendsOnly_decoded_contacts (cl : HTTPClient) (rq : Request) :
  sendsOnly
    (let* r := Helpers.gateway cl rq in
     match r with
     | Err e => ret (Err e)
     | Ok bs => Accounting.unmarshalContact bs
     end) rq.
Proof.
  apply sendsOnly_gateway_then.
  - intros [bs|e] w; [apply unmarshalContact_silent|reflexivity].
  - intros e w a Ha. discriminate Ha.
Qed.

Lemma sendsOnly_decoded_accounts (cl : HTTPClient) (rq : Request) :
  sendsOnly
    (let* r := Helpers.gateway cl rq in
     match r with
     | Err e => ret (Err e)
     | Ok bs => Accounting.unmarshalAccount bs
     end) rq.
Proof.
  apply sendsOnly_gateway_then.
  - intros [bs|e] w; [apply unmarshalAccount_silent|reflexivity].
  - intros e w a Ha. discriminate Ha.
Qed.

(** X7.  What each call of the two resource modules hands to the
    transport: nothing but its one request, at most once, and exactly once
    when the call returns a result.  [FindContacts] and the single-element
    lookups send a GET without headers or parameters (the lookups to the
    base URL, a slash and the ID), [FindAccounts] passes the caller's query
    parameters on, [FindAccountsModifiedSince] adds the one header
    [If-Modified-Since] with the formatted time, [RemoveAccount] sends a
    DELETE, and [Create] sends the encoding of the whole receiver
    collection to the base URL. *)
Theorem every_call_sends_its_one_request :
  (forall cl,
      sendsOnly (Accounting.FindContacts cl) (findRequest Accounting.contactsURL ∅ ∅))
  /\ (forall cl contactID,
      sendsOnly (Accounting.FindContact cl contactID)
        (findRequest (Accounting.contactsURL +:+ "/" +:+ UUID_String contactID) ∅ ∅))
  /\ (forall cl q,
      sendsOnly (Accounting.FindAccounts cl q) (findRequest Accounting.accountsURL ∅ q))
  /\ (forall cl since q,
      sendsOnly (Accounting.FindAccountsModifiedSince cl since q)
        (findRequest Accounting.accountsURL
           (<["If-Modified-Since" := time_Format_RFC3339 since]> ∅) q))
  /\ (forall cl accountID,
      sendsOnly (Accounting.FindAccount cl accountID)
        (findRequest (Accounting.accountsURL +:+ "/" +:+ UUID_String accountID) ∅ ∅))
  /\ (forall cl accountID,
      sendsOnly (Accounting.RemoveAccount cl accountID)
        (removeRequest (Accounting.accountsURL +:+ "/" +:+ UUID_String accountID)))
  /\ (forall l cs buf cl w,
      heap w !! l = Some (OContacts cs) ->
      json_Marshal_Contacts (Some cs) = Ok buf ->
      sendsOnlyAt (Accounting.Contacts_Create (Some l) cl)
        (createRequest Accounting.contactsURL buf) w)
  /\ (forall l accs buf cl w,
      heap w !! l = Some (OAccounts accs) ->
      json_Marshal_Accounts (Some accs) = Ok buf ->
      sendsOnlyAt (Accounting.Accounts_Create (Some l) cl)
        (createRequest Accounting.accountsURL buf) w).
Proof.
  split; [|split; [|split; [|split; [|split; [|split; [|split]]]]]].
  - intros cl. apply sendsOnly_decoded_contacts.
  - intros cl contactID. apply sendsOnly_gateway_then.
    + intros [bs|e] w; [|reflexivity]. unfold bind.
      pose proof (unmarshalContact_silent bs w) as Htrace.
      destruct (Accounting.unmarshalContact bs w) as [[[c|e]|p] w1]; cbn [snd] in *;
        try exact Htrace.
      destruct (Accounting.loadContacts (Some c) w1) as [[cs|p] w2] eqn:Hload;
        apply loadContacts_frame in Hload; subst w2; [|exact Htrace].
      destruct (0 <? length cs)%nat; exact Htrace.
    + intros e w a Ha. discriminate Ha.
  - intros cl q. apply sendsOnly_decoded_accounts.
  - intros cl since q. apply sendsOnly_decoded_accounts.
  - intros cl accountID. apply sendsOnly_gateway_then.
    + intros [bs|e] w; [|reflexivity]. unfold bind.
      pose proof (unmarshalAccount_silent bs w) as Htrace.
      destruct (Accounting.unmarshalAccount bs w) as [[[c|e]|p] w1]; cbn [snd] in *;
        try exact Htrace.
      destruct (Accounting.loadAccounts (Some c) w1) as [[cs|p] w2] eqn:Hload;
        apply loadAccounts_frame in Hload; subst w2; [|exact Htrace].
      destruct (0 <? length cs)%nat; exact Htrace.
    + intros e w a Ha. discriminate Ha.
  - intros cl accountID. apply sendsOnly_decoded_accounts.
  - intros l cs buf cl w Hl Hbuf.
    assert (Hrun : Accounting.Contacts_Create (Some l) cl w
                   = (let* r := Helpers.gateway cl
                                  (createRequest Accounting.contactsURL buf) in
                      match r with
                      | Err e => ret (Err e)
                      | Ok bs => Accounting.unmarshalContact bs
                      end) w).
    { unfold Accounting.Contacts_Create. unfold bind at 1. unfold bind at 1.
      rewrite (loadContacts_run l cs w Hl). unfold ret at 1. rewrite Hbuf. reflexivity. }
    unfold sendsOnlyAt. rewrite Hrun. apply sendsOnly_decoded_contacts.
  - intros l accs buf cl w Hl Hbuf.
    assert (Hrun : Accounting.Accounts_Create (Some l) cl w
                   = (let* r := Helpers.gateway cl
                                  (createRequest Accounting.accountsURL buf) in
                      match r with
                      | Err e => ret (Err e)
                      | Ok bs => Accounting.unmarshalAccount bs
                      end) w).
    { unfold Accounting.Accounts_Create. unfold bind at 1. unfold bind at 1.
      rewrite (loadAccounts_run l accs w Hl). unfold ret at 1. rewrite Hbuf. reflexivity. }
    unfold sendsOnlyAt. rewrite Hrun. apply sendsOnly_decoded_accounts.
Qed.

End Requests.

(** ** Tenants: none, and the first one *)

Section Tenants.
Context `{Environment}.

(** X8.  With no tenant connected the loop body never runs: each of the
    thirteen listing handlers renders its template on the empty list, in
    the world tenant resolution left, so nothing is fetched. *)
Theorem no_tenants_gives_an_empty_listing :
  forall w w2,
    Connection.GetTenants
      (Auth.Client (Main.sessionFor (repo w !! uuid_Nil) uuid_Nil))
      (logged w [EvGetSession uuid_Nil]) = (Returned (Ok []), w2) ->
    Main.XeroContactsHandler w
    = (Returned (Main.Executed Main.contactsTemplate (Main.ContactsData [])), w2)
    /\ Main.XeroAccountsHandler w
       = (Returned (Main.Executed Main.accountsTemplate (Main.AccountsData [])), w2)
    /\ forall k,
         resourceHandler k w
         = (Returned (Main.Executed (resourceTemplate k) (Main.ResourceData k [])), w2).
Proof.
  intros w w2 Htenants.
  assert (Hloop : forall (A : Type) (fetch : HTTPClient -> M World (Result (list A)))
                         (render : list A -> Main.Response),
             listAcrossTenants fetch render w = (Returned (render []), w2)).
  { intros A fetch render. unfold listAcrossTenants.
    unfold bind at 1. rewrite GetSession_token. unfold bind at 1. rewrite Htenants.
    reflexivity. }
  split; [rewrite contacts_shape; apply Hloop|].
  split; [rewrite accounts_shape; apply Hloop|].
  intros k. rewrite resources_shape. apply Hloop.
Qed.

Lemma XeroContactsCreateHandler_run (w : World) :
  let se := repo w !! uuid_Nil in
  let w0 := logged w [EvGetSession uuid_Nil] in
  let w1 := withHeap w0
              (heap w ++ [OContacts [Main.testContact (uuid_NewV4 (trace w0))]]) in
  Main.XeroContactsCreateHandler w =
  match Connection.GetTenants (Auth.Client (Main.sessionFor se uuid_Nil)) w1 with
  | (Returned (Ok tenants), w2) =>
      match tenants !! 0%nat with
      | None => (Panicked IndexOutOfRange, w2)
      | Some tenant0 =>
          match Accounting.Contacts_Create (Some (length (heap w)))
                  (Auth.Client (Main.sessionFor se (Tenant_TenantID tenant0))) w2 with
          | (Returned (Ok _), w3) =>
              (Returned (Main.Redirected "/" Main.StatusFound), w3)
          | (Returned (Err e), w3) => (Panicked (LogPanic e), w3)
          | (Panicked p, w3) => (Panicked p, w3)
          end
      end
  | (Returned (Err e), w2) => (Panicked (LogPanic e), w2)
  | (Panicked p, w2) => (Panicked p, w2)
  end.
Proof.
  intros se w0 w1. unfold Main.XeroContactsCreateHandler.
  unfold bind at 1. rewrite GetSession_token.
  unfold bind at 1, get. unfold bind at 1.
  unfold Accounting.new, bind at 1, get, Auth.setHeap, modify, ret at 1.
  unfold bind. fold w0. fold se.
  change {| repo := repo w0;
            heap := heap w0 ++ [OContacts [Main.testContact (uuid_NewV4 (trace w0))]];
            trace := trace w0 |} with w1.
  change (length (heap w0)) with (length (heap w)).
  destruct (Connection.GetTenants _ w1) as [[[tenants|e]|p] w2]; try reflexivity.
  destruct (tenants !! 0%nat) as [tenant0|]; [|reflexivity].
  destruct (Accounting.Contacts_Create _ _ w2) as [[[c|e]|p] w3]; reflexivity.
Qed.

(** X9.  [XeroContactsCreateHandler] takes [tenants[0]] without looking at
    the length: when tenant resolution returns no tenant the handler panics
    with an index out of range, after the test contact has been built and
    the tenants have been asked for, and nothing is created.  When there
    are tenants the contact is created for the first one only, whatever the
    others are, and once [Create] has returned a collection the handler
    redirects to [/] with status 302. *)
Theorem contact_creation_needs_a_first_tenant :
  forall w,
    let se := repo w !! uuid_Nil in
    let w0 := logged w [EvGetSession uuid_Nil] in
    let w1 := withHeap w0
                (heap w ++ [OContacts [Main.testContact (uuid_NewV4 (trace w0))]]) in
    (forall w2,
        Connection.GetTenants (Auth.Client (Main.sessionFor se uuid_Nil)) w1
          = (Returned (Ok []), w2) ->
        Main.XeroContactsCreateHandler w = (Panicked IndexOutOfRange, w2))
    /\
    (forall tenant0 others w2 c w3,
        Connection.GetTenants (Auth.Client (Main.sessionFor se uuid_Nil)) w1
          = (Returned (Ok (tenant0 :: others)), w2) ->
        Accounting.Contacts_Create (Some (length (heap w)))
          (Auth.Client (Main.sessionFor se (Tenant_TenantID tenant0))) w2
          = (Returned (Ok c), w3) ->
        Main.XeroContactsCreateHandler w
        = (Returned (Main.Redirected "/" Main.StatusFound), w3)
        /\ Main.statusCode (Main.Redirected "/" Main.StatusFound) = 302).
Proof.
  intros w se w0 w1. pose proof (XeroContactsCreateHandler_run w) as Hrun.
  cbv zeta in Hrun. fold se w0 w1 in Hrun. split.
  - intros w2 Htenants. rewrite Hrun, Htenants. reflexivity.
  - intros tenant0 others w2 c w3 Htenants Hcreate.
    rewrite Hrun, Htenants. cbn [lookup list_lookup]. rewrite Hcreate.
    split; reflexivity.
Qed.

End Tenants.

(** ** Who writes the token store *)

Section StoreFrame.
Context `{Environment}.
Variable R : gmap UUID Token -> gmap UUID Token -> Prop.
Hypothesis R_refl : forall r, R r r.
Hypothesis R_trans : forall a b c, R a b -> R b c -> R a c.

(** The tokens a client of [uuid.Nil] may carry for its requests to
    respect [R]. *)
Variable okToken : option Token -> Prop.
Hypothesis R_Do :
  forall cl rq,
    okToken (Token_ (session cl)) -> UserID (session cl) = uuid_Nil ->
    store R (Auth.Do cl rq).

Local Abbreviation ok :=
  (fun cl : HTTPClient =>
     okToken (Token_ (session cl)) /\ UserID (session cl) = uuid_Nil).

Lemma store_same {A : Type} (m : M World A) :
  (forall w, repo (snd (m w)) = repo w) -> store R m.
Proof. intros Hm w. unfold storeAt. rewrite Hm. apply R_refl. Qed.

Lemma storeAt_bind {A B : Type} (m : M World A) (k : A -> M World B) (w : World) :
  storeAt R m w ->
  (forall a w', m w = (Returned a, w') -> storeAt R (k a) w') ->
  storeAt R (bind m k) w.
Proof.
  unfold storeAt, bind. intros Hm Hk.
  destruct (m w) as [[a|p] w'] eqn:Hrun; cbn [snd] in *; [|exact Hm].
  eapply R_trans; [exact Hm|]. apply Hk. reflexivity.
Qed.

Lemma store_bind {A B : Type} (m : M World A) (k : A -> M World B) :
  store R m -> (forall a, store R (k a)) -> store R (bind m k).
Proof. intros Hm Hk w. apply storeAt_bind; [apply Hm|]. intros a w' _. apply Hk. Qed.

Lemma store_ret {A : Type} (a : A) : store R (ret (W := World) a).
Proof. apply store_same. reflexivity. Qed.

Lemma store_throw {A : Type} (p : panic) : store R (throw (W := World) (A := A) p).
Proof. apply store_same. reflexivity. Qed.

Lemma store_GetSession (u : UUID) : store R (Auth.GetSession u).
Proof. apply store_same. intros w. rewrite GetSession_run. reflexivity. Qed.

Lemma store_gateway (cl : HTTPClient) (rq : Request) :
  ok cl -> store R (Helpers.gateway cl rq).
Proof.
  intros [Htoken Huser]. unfold Helpers.gateway.
  apply store_bind; [apply R_Do; assumption|]. intros r. apply store_ret.
Qed.

Lemma store_GetTenants (cl : HTTPClient) :
  ok cl -> store R (Connection.GetTenants cl).
Proof.
  intros [Htoken Huser]. unfold Connection.GetTenants.
  apply store_bind; [apply R_Do; assumption|].
  intros [b|e]; [|apply store_ret]. destruct (decodeTenants b); apply store_ret.
Qed.

Lemma store_loadContacts (c : option nat) : store R (Accounting.loadContacts c).
Proof.
  apply store_same. intros w.
  destruct (Accounting.loadContacts c w) as [o w'] eqn:Hrun.
  apply loadContacts_frame in Hrun. subst w'. reflexivity.
Qed.

Lemma store_loadAccounts (a : option nat) : store R (Accounting.loadAccounts a).
Proof.
  apply store_same. intros w.
  destruct (Accounting.loadAccounts a w) as [o w'] eqn:Hrun.
  apply loadAccounts_frame in Hrun. subst w'. reflexivity.
Qed.

Lemma store_unmarshalContact (bs : bytes) : store R (Accounting.unmarshalContact bs).
Proof.
  apply store_same. intros w. rewrite unmarshalContact_run.
  destruct (json_Unmarshal_Contacts bs) as [[cs|]|e]; reflexivity.
Qed.

Lemma store_unmarshalAccount (bs : bytes) : store R (Accounting.unmarshalAccount bs).
Proof.
  apply store_same. intros w. rewrite unmarshalAccount_run.
  destruct (json_Unmarshal_Accounts bs) as [[accs|]|e]; reflexivity.
Qed.

Lemma store_fetchContacts (cl : HTTPClient) : ok cl -> store R (fetchContacts cl).
Proof.
  intros Hok. unfold fetchContacts, Accounting.FindContacts, Helpers.Find.
  apply store_bind.
  - apply store_bind; [apply store_gateway, Hok|].
    intros [bs|e]; [apply store_unmarshalContact|apply store_ret].
  - intros [c|e]; [|apply store_ret].
    apply store_bind; [apply store_loadContacts|]. intros cs. apply store_ret.
Qed.

Lemma store_fetchAccounts (cl : HTTPClient) : ok cl -> store R (fetchAccounts cl).
Proof.
  intros Hok. unfold fetchAccounts, Accounting.FindAccounts, Helpers.Find.
  apply store_bind.
  - apply store_bind; [apply store_gateway, Hok|].
    intros [bs|e]; [apply store_unmarshalAccount|apply store_ret].
  - intros [c|e]; [|apply store_ret].
    apply store_bind; [apply store_loadAccounts|]. intros cs. apply store_ret.
Qed.

Lemma store_FindResource (k : Resource) (cl : HTTPClient) :
  ok cl -> store R (Accounting.FindResource k cl).
Proof.
  intros Hok. unfold Accounting.FindResource, Helpers.Find.
  apply store_bind; [apply store_gateway, Hok|]. intros [bs|e]; apply store_ret.
Qed.

Lemma store_Contacts_Create (c : option nat) (cl : HTTPClient) :
  ok cl -> store R (Accounting.Contacts_Create c cl).
Proof.
  intros Hok. unfold Accounting.Contacts_Create, Helpers.Create.
  apply store_bind.
  - destruct c; [|apply store_ret].
    apply store_bind; [apply store_loadContacts|]. intros cs. apply store_ret.
  - intros v. destruct (json_Marshal_Contacts v); [|apply store_ret].
    apply store_bind; [apply store_gateway, Hok|].
    intros [bs|e]; [apply store_unmarshalContact|apply store_ret].
Qed.

Lemma store_fetchFromEvery {A : Type}
    (fetch : HTTPClient -> M World (Result (list A))) (se : option Token) :
  (forall cl, ok cl -> store R (fetch cl)) ->
  okToken se ->
  forall tenants, store R (fetchFromEvery fetch se tenants).
Proof.
  intros Hfetch Hse tenants.
  induction tenants as [|tenant rest IH]; cbn [fetchFromEvery].
  - apply store_ret.
  - apply store_bind; [apply Hfetch; split; [exact Hse|reflexivity]|].
    intros [items|e]; [|apply store_throw].
    apply store_bind; [exact IH|]. intros others. apply store_ret.
Qed.

Lemma storeAt_listAcrossTenants {A : Type}
    (fetch : HTTPClient -> M World (Result (list A)))
    (render : list A -> Main.Response) (w : World) :
  (forall cl, ok cl -> store R (fetch cl)) ->
  okToken (repo w !! uuid_Nil) ->
  storeAt R (listAcrossTenants fetch render) w.
Proof.
  intros Hfetch Hse. unfold listAcrossTenants.
  apply storeAt_bind; [apply store_GetSession|].
  intros [se err] w' Hrun. rewrite GetSession_token in Hrun.
  injection Hrun as <- _ _.
  apply store_bind; [apply store_GetTenants; split; [exact Hse|reflexivity]|].
  intros [tenants|e]; [|apply store_throw].
  apply store_bind; [apply store_fetchFromEvery; assumption|].
  intros results. apply store_ret.
Qed.

Lemma storeAt_ext {A : Type} (m m' : M World A) (w : World) :
  m w = m' w -> storeAt R m' w -> storeAt R m w.
Proof. unfold storeAt. intros ->. auto. Qed.

Lemma store_HomeHandler : store R Main.HomeHandler.
Proof.
  unfold Main.HomeHandler. apply store_bind; [apply store_GetSession|].
  intros [se err]. apply store_ret.
Qed.

Lemma storeAt_XeroConnectionsHandler (w : World) :
  okToken (repo w !! uuid_Nil) -> storeAt R Main.XeroConnectionsHandler w.
Proof.
  intros Hse. unfold Main.XeroConnectionsHandler.
  apply storeAt_bind; [apply store_GetSession|].
  intros [se err] w' Hrun. rewrite GetSession_token in Hrun.
  injection Hrun as <- _ _.
  apply store_bind; [apply store_GetTenants; split; [exact Hse|reflexivity]|].
  intros [tenants|e]; [apply store_ret|apply store_throw].
Qed.

Lemma storeAt_XeroContactsCreateHandler (w : World) :
  okToken (repo w !! uuid_Nil) -> storeAt R Main.XeroContactsCreateHandler w.
Proof.
  intros Hse. unfold Main.XeroContactsCreateHandler.
  apply storeAt_bind; [apply store_GetSession|].
  intros [se err] w' Hrun. rewrite GetSession_token in Hrun.
  injection Hrun as <- _ _.
  apply store_bind; [apply store_same; reflexivity|]. intros w0.
  apply store_bind; [apply store_same; reflexivity|]. intros contacts.
  apply store_bind; [apply store_GetTenants; split; [exact Hse|reflexivity]|].
  intros [tenants|e]; [|apply store_throw].
  destruct (tenants !! 0%nat) as [tenant0|]; [|apply store_throw].
  apply store_bind; [apply store_Contacts_Create; split; [exact Hse|reflexivity]|].
  intros [c|e]; [apply store_ret|apply store_throw].
Qed.

(** Every route but the callback and [/refresh]. *)
Lemma storeAt_routes (path : string) (h : Main.Handler) (r : Main.HTTPRequest)
    (w : World) :
  Main.router path = Some h ->
  path <> "/auth/xero/callback" ->
  path <> "/refresh" ->
  okToken (repo w !! uuid_Nil) ->
  storeAt R (h r) w.
Proof.
  intros Hh Hcallback Hrefresh Hse.
  unfold Main.router, Main.routes in Hh. cbn [Main.lookupRoute] in Hh.
  repeat match type of Hh with
         | context [String.eqb ?p path] =>
             destruct (String.eqb_spec p path) as [Heq|_];
             [first [ exfalso; exact (Hcallback (eq_sym Heq))
                    | exfalso; exact (Hrefresh (eq_sym Heq))
                    | injection Hh as <- ]|]
         end;
    try discriminate Hh;
    first
      [ apply store_HomeHandler
      | apply store_ret
      | apply storeAt_XeroConnectionsHandler; exact Hse
      | apply storeAt_XeroContactsCreateHandler; exact Hse
      | eapply storeAt_ext;
        [apply contacts_shape
        |apply storeAt_listAcrossTenants; [apply store_fetchContacts|exact Hse]]
      | eapply storeAt_ext;
        [apply accounts_shape
        |apply storeAt_listAcrossTenants; [apply store_fetchAccounts|exact Hse]]
      | eapply storeAt_ext;
        [apply (resources_shape Invoices)
        |apply storeAt_listAcrossTenants; [apply store_FindResource|exact Hse]]
      | eapply storeAt_ext;
        [apply (resources_shape Organisations)
        |apply storeAt_listAcrossTenants; [apply store_FindResource|exact Hse]]
      | eapply storeAt_ext;
        [apply (resources_shape BankTransactions)
        |apply storeAt_listAcrossTenants; [apply store_FindResource|exact Hse]]
      | eapply storeAt_ext;
        [apply (resources_shape BankTransfers)
        |apply storeAt_listAcrossTenants; [apply store_FindResource|exact Hse]]
      | eapply storeAt_ext;
        [apply (resources_shape BrandingThemes)
        |apply storeAt_listAcrossTenants; [apply store_FindResource|exact Hse]]
      | eapply storeAt_ext;
        [apply (resources_shape ContactGroups)
        |apply storeAt_listAcrossTenants; [apply store_FindResource|exact Hse]]
      | eapply storeAt_ext;
        [apply (resources_shape CreditNotes)
        |apply storeAt_listAcrossTenants; [apply store_FindResource|exact Hse]]
      | eapply storeAt_ext;
        [apply (resources_shape Currencies)
        |apply storeAt_listAcrossTenants; [apply store_FindResource|exact Hse]]
      | eapply storeAt_ext;
        [apply (resources_shape Employees)
        |apply storeAt_listAcrossTenants; [apply store_FindResource|exact Hse]]
      | eapply storeAt_ext;
        [apply (resources_shape InvoiceReminders)
        |apply storeAt_listAcrossTenants; [apply store_FindResource|exact Hse]]
      | eapply storeAt_ext;
        [apply (resources_shape Items)
        |apply storeAt_listAcrossTenants; [apply store_FindResource|exact Hse]] ].
Qed.

End StoreFrame.

Section Store.
Context `{Environment}.

Lemma othersKept_refl (r : gmap UUID Token) : othersKept r r.
Proof. intros u _. reflexivity. Qed.

Lemma othersKept_trans (a b c : gmap UUID Token) :
  othersKept a b -> othersKept b c -> othersKept a c.
Proof. intros Hab Hbc u Hu. rewrite (Hbc u Hu). apply Hab, Hu. Qed.

Lemma othersKept_insert (r : gmap UUID Token) (t : Token) :
  othersKept r (<[uuid_Nil := t]> r).
Proof. intros u Hu. apply lookup_insert_ne. congruence. Qed.

(** With a token that does not expire the transport leaves the store as it
    is. *)
Lemma Do_valid_keeps_store (cl : HTTPClient) (rq : Request) :
  validToken (Token_ (session cl)) -> UserID (session cl) = uuid_Nil ->
  store eq (Auth.Do cl rq).
Proof.
  intros Hvalid _ w. unfold storeAt, Auth.Do.
  destruct (Token_ (session cl)) as [t|]; [|reflexivity].
  unfold bind at 1, get. rewrite (Hvalid t eq_refl), send_run. reflexivity.
Qed.

(** Whatever its token, the transport of a client of [uuid.Nil] writes no
    session but the one of [uuid.Nil]. *)
Lemma Do_keeps_others (cl : HTTPClient) (rq : Request) :
  True -> UserID (session cl) = uuid_Nil ->
  store othersKept (Auth.Do cl rq).
Proof.
  intros _ Huser w. unfold storeAt, Auth.Do.
  destruct (Token_ (session cl)) as [t|]; [|apply othersKept_refl].
  unfold bind at 1, get.
  destruct (Auth.expired (clock (trace w)) t);
    [|rewrite send_run; apply othersKept_refl].
  unfold bind at 1. destruct (Refresh_run (Some t) w) as [r Hr]. rewrite Hr.
  destruct r as [t'|e]; [|apply othersKept_refl].
  unfold bind at 1. rewrite UpdateSession_run, Huser. cbn [logged repo].
  destruct (repo w !! uuid_Nil); [|apply othersKept_refl].
  rewrite send_run. apply othersKept_insert.
Qed.

(** X10.  The token store is written in two places only: serving any path
    but the callback and [/refresh] leaves it exactly as it was, as long as
    the stored token does not expire (an expired one is replaced by the
    transport).  The listing handlers, the connections view, contact
    creation, the home page and the start of the authorisation only read
    it. *)
Theorem only_callback_and_refresh_write_the_store :
  forall path h r w,
    Main.router path = Some h ->
    path <> "/auth/xero/callback" ->
    path <> "/refresh" ->
    validToken (repo w !! uuid_Nil) ->
    repo (snd (h r w)) = repo w.
Proof.
  intros path h r w Hh Hcallback Hrefresh Hvalid. symmetry.
  exact (storeAt_routes eq (@eq_refl _) (@eq_trans _) validToken Do_valid_keeps_store
           path h r w Hh Hcallback Hrefresh Hvalid).
Qed.

(** X11.  The application serves one user: every handler reads and writes
    the session of [uuid.Nil] and builds its clients for that user, so
    whatever path is served, whatever the stored token is and however the
    handler ends, the sessions of all other users are what they were. *)
Theorem no_route_touches_another_user :
  forall path h r w u,
    Main.router path = Some h ->
    u <> uuid_Nil ->
    repo (snd (h r w)) !! u = repo w !! u.
Proof.
  intros path h r w u Hh Hu.
  destruct (String.eqb_spec path "/auth/xero/callback") as [->|Hcallback].
  { rewrite router_callback in Hh. injection Hh as <-.
    unfold Main.XeroAuthCallbackHandler, bind. rewrite GetTokenFromCode_run.
    destruct (tokenExchange (trace w) _) as [t|]; [|reflexivity].
    rewrite CreateSession_run. cbn [snd repo]. apply lookup_insert_ne. congruence. }
  destruct (String.eqb_spec path "/refresh") as [->|Hrefresh].
  { rewrite router_refresh in Hh. injection Hh as <-.
    unfold Main.XeroRefreshTokenHandler. unfold bind at 1. rewrite GetSession_token.
    unfold bind at 1.
    destruct (Refresh_run (repo w !! uuid_Nil) (logged w [EvGetSession uuid_Nil]))
      as [res Hres].
    rewrite Hres. destruct res as [t|e]; [|reflexivity].
    unfold bind. rewrite UpdateSession_run. cbn [logged repo].
    destruct (repo w !! uuid_Nil); [|reflexivity].
    cbn [snd repo]. apply lookup_insert_ne. congruence. }
  exact (storeAt_routes othersKept othersKept_refl othersKept_trans (fun _ => True)
           Do_keeps_others path h r w Hh Hcallback Hrefresh I u Hu).
Qed.

End Store.

(** ** The routing table *)

Section Routing.
Context `{Environment}.

Lemma lookupRoute_found (table : list (string * Main.Handler)) (p : string)
    (h : Main.Handler) :
  NoDup (map fst table) -> In (p, h) table -> Main.lookupRoute table p = Some h.
Proof.
  induction table as [|[q g] rest IH]; intros Hnodup Hin; [destruct Hin|].
  cbn [map fst] in Hnodup. apply NoDup_cons in Hnodup as [Hfresh Hrest].
  cbn [Main.lookupRoute]. destruct Hin as [Heq|Hin].
  - injection Heq as -> ->. rewrite String.eqb_refl. reflexivity.
  - destruct (String.eqb_spec q p) as [->|_]; [|exact (IH Hrest Hin)].
    exfalso. apply Hfresh. apply list_elem_of_In.
    exact (in_map fst rest (p, h) Hin).
Qed.

Lemma lookupRoute_missing (table : list (string * Main.Handler)) (p : string) :
  Main.lookupRoute table p = None <-> ~ In p (map fst table).
Proof.
  induction table as [|[q g] rest IH]; cbn [Main.lookupRoute map fst In].
  - split; auto.
  - destruct (String.eqb_spec q p) as [->|Hne].
    + split; [discriminate|]. intros Hnot. exfalso. apply Hnot. left. reflexivity.
    + rewrite IH. split; [intros Hnot [Heq|Hin]; auto|intros Hnot Hin; auto].
Qed.

(** X12.  No route of [main] is shadowed by another: the nineteen paths
    are pairwise different, so every handler is served on the path it was
    registered with, and a path that was not registered has no handler. *)
Theorem every_registered_path_reaches_its_handler :
  NoDup (map fst Main.routes)
  /\ (forall p h, In (p, h) Main.routes -> Main.router p = Some h)
  /\ (forall p, Main.router p = None <-> ~ In p (map fst Main.routes)).
Proof.
  assert (Hnodup : NoDup (map fst Main.routes)).
  { cbn [map fst Main.routes]. apply (bool_decide_unpack _). vm_compute. exact I. }
  split; [exact Hnodup|]. split.
  - intros p h Hin. apply lookupRoute_found; assumption.
  - intros p. apply lookupRoute_missing.
Qed.

End Routing.

(** ** What a listing shows and what it asks for *)

Section Pages.
Context `{Environment}.

Lemma fetchContacts_normalised (cl : HTTPClient) (w : World) items w' :
  fetchContacts cl w = (Returned (Ok items), w') -> Forall normalisedContact items.
Proof.
  unfold fetchContacts. unfold bind at 1.
  destruct (Accounting.FindContacts cl w) as [[[c|e]|p] w1] eqn:Hfind;
    try discriminate.
  destruct (decode_after_contacts _ _ _ _ Hfind) as (bs & decoded & _ & Hall & Hheap).
  unfold bind. rewrite (loadContacts_run _ _ _ Hheap).
  intros Hrun. injection Hrun as <- _.
  apply Forall_map. eapply Forall_impl; [exact Hall|].
  intros c0 Hc0. exists c0. split; [exact Hc0|reflexivity].
Qed.

Lemma fetchAccounts_normalised (cl : HTTPClient) (w : World) items w' :
  fetchAccounts cl w = (Returned (Ok items), w') -> Forall normalisedAccount items.
Proof.
  unfold fetchAccounts. unfold bind at 1.
  destruct (Accounting.FindAccounts cl ∅ w) as [[[c|e]|p] w1] eqn:Hfind;
    try discriminate.
  destruct (decode_after_accounts _ _ _ _ Hfind) as (bs & decoded & _ & Hall & Hheap).
  unfold bind. rewrite (loadAccounts_run _ _ _ Hheap).
  intros Hrun. injection Hrun as <- _.
  apply Forall_map. eapply Forall_impl; [exact Hall|].
  intros a0 Ha0. exists a0. split; [exact Ha0|reflexivity].
Qed.

(** What a listing that returned has rendered. *)
Lemma listAcrossTenants_returned {A : Type}
    (fetch : HTTPClient -> M World (Result (list A)))
    (render : list A -> Main.Response) (w : World) resp w' :
  listAcrossTenants fetch render w = (Returned resp, w') ->
  exists tenants w2 results,
    Connection.GetTenants
      (Auth.Client (Main.sessionFor (repo w !! uuid_Nil) uuid_Nil))
      (logged w [EvGetSession uuid_Nil]) = (Returned (Ok tenants), w2)
    /\ fetchFromEvery fetch (repo w !! uuid_Nil) tenants w2 = (Returned results, w')
    /\ resp = render (concat results).
Proof.
  unfold listAcrossTenants. unfold bind at 1. rewrite GetSession_token.
  unfold bind at 1.
  destruct (Connection.GetTenants _ _) as [[[tenants|e]|p] w2]; try discriminate.
  unfold bind.
  destruct (fetchFromEvery fetch _ tenants w2) as [[results|p] w3] eqn:Hfetched;
    [|discriminate].
  intros Hrun. injection Hrun as <- <-. exists tenants, w2, results. auto.
Qed.

Lemma fetchFromEvery_all {A : Type}
    (fetch : HTTPClient -> M World (Result (list A))) (P : A -> Prop)
    (se : option Token) (tenants : list Tenant) :
  (forall cl w items w', fetch cl w = (Returned (Ok items), w') -> Forall P items) ->
  forall w results w',
    fetchFromEvery fetch se tenants w = (Returned results, w') ->
    Forall P (concat results).
Proof.
  intros Hfetch w results w' Hrun.
  pose proof (fetchFromEvery_in_order fetch se tenants w results w' Hrun) as Hall.
  clear Hrun. induction Hall as [|tenant items rest others (w1 & w2 & Hitems) _ IH].
  - constructor.
  - cbn [concat]. apply Forall_app. split; [exact (Hfetch _ _ _ _ Hitems)|exact IH].
Qed.

(** X13.  Everything the contacts page and the accounts page show has
    been through the date conversion: whenever [XeroContactsHandler] (or
    [XeroAccountsHandler]) renders, every element of the list it renders,
    from whichever tenant it came, is a decoded element whose
    [UpdatedDateUTC] converted, with the converted date in its place. *)
Theorem pages_show_converted_dates :
  (forall w t cs w',
      Main.XeroContactsHandler w
        = (Returned (Main.Executed t (Main.ContactsData cs)), w') ->
      Forall normalisedContact cs)
  /\
  (forall w t accs w',
      Main.XeroAccountsHandler w
        = (Returned (Main.Executed t (Main.AccountsData accs)), w') ->
      Forall normalisedAccount accs).
Proof.
  split.
  - intros w t cs w' Hrun. rewrite contacts_shape in Hrun.
    apply listAcrossTenants_returned in Hrun
      as (tenants & w2 & results & _ & Hfetched & Hresp).
    injection Hresp as _ ->.
    exact (fetchFromEvery_all _ _ _ _ fetchContacts_normalised _ _ _ Hfetched).
  - intros w t accs w' Hrun. rewrite accounts_shape in Hrun.
    apply listAcrossTenants_returned in Hrun
      as (tenants & w2 & results & _ & Hfetched & Hresp).
    injection Hresp as _ ->.
    exact (fetchFromEvery_all _ _ _ _ fetchAccounts_normalised _ _ _ Hfetched).
Qed.

Lemma loadContacts_silent (c : option nat) (w : World) :
  trace (snd (Accounting.loadContacts c w)) = trace w.
Proof.
  destruct (Accounting.loadContacts c w) as [o w'] eqn:Hrun.
  apply loadContacts_frame in Hrun. subst w'. reflexivity.
Qed.

Lemma loadAccounts_silent (a : option nat) (w : World) :
  trace (snd (Accounting.loadAccounts a w)) = trace w.
Proof.
  destruct (Accounting.loadAccounts a w) as [o w'] eqn:Hrun.
  apply loadAccounts_frame in Hrun. subst w'. reflexivity.
Qed.

Lemma fetchContacts_trace (t : Token) (cl : HTTPClient) (w : World) :
  Token_ (session cl) = Some t -> neverExpires t ->
  trace (snd (fetchContacts cl w))
  = trace w ++ [EvSend (TenantID (session cl)) (AccessToken t)
                  (findRequest Accounting.contactsURL ∅ ∅)].
Proof.
  intros Htoken Hnever. unfold fetchContacts.
  rewrite bind_silent.
  2:{ intros [c|e] w0; [|reflexivity]. rewrite bind_silent by reflexivity.
      apply loadContacts_silent. }
  unfold Accounting.FindContacts. rewrite bind_silent.
  2:{ intros [bs|e] w0; [apply unmarshalContact_silent|reflexivity]. }
  apply gateway_valid_trace; assumption.
Qed.

Lemma fetchAccounts_trace (t : Token) (cl : HTTPClient) (w : World) :
  Token_ (session cl) = Some t -> neverExpires t ->
  trace (snd (fetchAccounts cl w))
  = trace w ++ [EvSend (TenantID (session cl)) (AccessToken t)
                  (findRequest Accounting.accountsURL ∅ ∅)].
Proof.
  intros Htoken Hnever. unfold fetchAccounts.
  rewrite bind_silent.
  2:{ intros [c|e] w0; [|reflexivity]. rewrite bind_silent by reflexivity.
      apply loadAccounts_silent. }
  unfold Accounting.FindAccounts. rewrite bind_silent.
  2:{ intros [bs|e] w0; [apply unmarshalAccount_silent|reflexivity]. }
  apply gateway_valid_trace; assumption.
Qed.

Lemma FindResource_trace (k : Resource) (t : Token) (cl : HTTPClient) (w : World) :
  Token_ (session cl) = Some t -> neverExpires t ->
  trace (snd (Accounting.FindResource k cl w))
  = trace w ++ [EvSend (TenantID (session cl)) (AccessToken t)
                  (findRequest (resourceURL k) ∅ ∅)].
Proof.
  intros Htoken Hnever. unfold Accounting.FindResource. rewrite bind_silent.
  2:{ intros [bs|e] w0; reflexivity. }
  apply gateway_valid_trace; assumption.
Qed.

Lemma GetTenants_valid_trace (cl : HTTPClient) (t : Token) (w : World) :
  Token_ (session cl) = Some t -> neverExpires t ->
  trace (snd (Connection.GetTenants cl w))
  = trace w ++ [EvSend (TenantID (session cl)) (AccessToken t) connectionsRequest].
Proof.
  intros Htoken Hnever. unfold Connection.GetTenants. rewrite bind_silent.
  2:{ intros [b|e] w0; [|reflexivity]. destruct (decodeTenants b); reflexivity. }
  rewrite (Do_valid_run cl t _ w Htoken Hnever), send_run. reflexivity.
Qed.

Lemma fetchFromEvery_trace {A : Type}
    (fetch : HTTPClient -> M World (Result (list A))) (rq : Request) (t : Token) :
  (forall cl w, Token_ (session cl) = Some t ->
                trace (snd (fetch cl w))
                = trace w ++ [EvSend (TenantID (session cl)) (AccessToken t) rq]) ->
  forall tenants w results w',
    fetchFromEvery fetch (Some t) tenants w = (Returned results, w') ->
    trace w' = trace w ++ tenantRequests t rq tenants.
Proof.
  intros Hfetch tenants.
  induction tenants as [|tenant rest IH]; intros w results w' Hrun.
  - injection Hrun as _ <-. cbn. rewrite app_nil_r. reflexivity.
  - cbn [fetchFromEvery] in Hrun. unfold bind at 1 in Hrun.
    pose proof (Hfetch (Auth.Client (Main.sessionFor (Some t) (Tenant_TenantID tenant)))
                  w eq_refl) as Hone.
    destruct (fetch _ w) as [[[items|e]|p] w1]; try discriminate Hrun.
    unfold bind in Hrun.
    destruct (fetchFromEvery fetch (Some t) rest w1) as [[others|p] w2] eqn:Hrest;
      [|discriminate Hrun].
    injection Hrun as _ <-. rewrite (IH _ _ _ Hrest). cbn [snd] in Hone.
    rewrite Hone, <- app_assoc. reflexivity.
Qed.

Lemma listAcrossTenants_asks {A : Type}
    (fetch : HTTPClient -> M World (Result (list A)))
    (render : list A -> Main.Response) (rq : Request) (t : Token) (w : World) :
  (forall cl w, Token_ (session cl) = Some t ->
                trace (snd (fetch cl w))
                = trace w ++ [EvSend (TenantID (session cl)) (AccessToken t) rq]) ->
  repo w !! uuid_Nil = Some t -> neverExpires t ->
  asksEveryTenant (listAcrossTenants fetch render) rq t w.
Proof.
  intros Hfetch Hstored Hnever resp w' Hrun.
  apply listAcrossTenants_returned in Hrun
    as (tenants & w2 & results & Htenants & Hfetched & _).
  rewrite Hstored in Htenants, Hfetched.
  exists tenants, w2. split; [exact Htenants|].
  rewrite (fetchFromEvery_trace fetch rq t Hfetch _ _ _ _ Hfetched).
  pose proof (GetTenants_valid_trace
                (Auth.Client (Main.sessionFor (Some t) uuid_Nil)) t
                (logged w [EvGetSession uuid_Nil]) eq_refl Hnever) as Hasked.
  rewrite Htenants in Hasked. cbn [snd] in Hasked. rewrite Hasked.
  cbn [logged trace]. rewrite <- !app_assoc. reflexivity.
Qed.

Lemma asksEveryTenant_ext (h h' : M World Main.Response) rq t w :
  h w = h' w -> asksEveryTenant h' rq t w -> asksEveryTenant h rq t w.
Proof. unfold asksEveryTenant. intros ->. auto. Qed.

(** X14.  What a listing puts on the wire.  When the stored token does
    not expire and one of the thirteen listing handlers returns, all it has
    done to the outside is: read the session once, ask for the tenants once
    (for the nil tenant), and send the GET of its resource once for every
    tenant that came back, in their order, each with the tenant's ID and
    the access token read at the start.  No tenant is skipped or asked
    twice, and nothing else is logged. *)
Theorem a_listing_asks_every_tenant_once_in_order :
  forall w t,
    repo w !! uuid_Nil = Some t ->
    neverExpires t ->
    asksEveryTenant Main.XeroContactsHandler
      (findRequest Accounting.contactsURL ∅ ∅) t w
    /\ asksEveryTenant Main.XeroAccountsHandler
         (findRequest Accounting.accountsURL ∅ ∅) t w
    /\ forall k,
         asksEveryTenant (resourceHandler k) (findRequest (resourceURL k) ∅ ∅) t w.
Proof.
  intros w t Hstored Hnever. split; [|split].
  - eapply asksEveryTenant_ext; [apply contacts_shape|].
    apply listAcrossTenants_asks; [|exact Hstored|exact Hnever].
    intros cl w0 Htoken. apply fetchContacts_trace; assumption.
  - eapply asksEveryTenant_ext; [apply accounts_shape|].
    apply listAcrossTenants_asks; [|exact Hstored|exact Hnever].
    intros cl w0 Htoken. apply fetchAccounts_trace; assumption.
  - intros k. eapply asksEveryTenant_ext; [apply resources_shape|].
    apply listAcrossTenants_asks; [|exact Hstored|exact Hnever].
    intros cl w0 Htoken. apply FindResource_trace; assumption.
Qed.

(** X15.  When the code exchange returns a token, the callback stores it
    as the session of [uuid.Nil], in place of whatever was stored, and
    executes the connected template on that token; the home page served
    next finds it and shows the same. *)
Theorem callback_stores_the_token_and_home_shows_it :
  forall code w token w1,
    Auth.GetTokenFromCode code w = (Returned (Ok token), w1) ->
    let w2 := {| repo := <[uuid_Nil := token]> (repo w1); heap := heap w1;
                 trace := trace w1 ++ [EvCreateSession uuid_Nil token] |} in
    Main.XeroAuthCallbackHandler code w
    = (Returned (Main.Executed Main.connectedTemplate (Main.TokenData (Some token))), w2)
    /\ repo w2 = <[uuid_Nil := token]> (repo w)
    /\ Main.HomeHandler w2
       = (Returned (Main.Executed Main.connectedTemplate (Main.TokenData (Some token))),
          logged w2 [EvGetSession uuid_Nil]).
Proof.
  intros code w token w1 Hexchange w2. split; [|split].
  - unfold Main.XeroAuthCallbackHandler. unfold bind at 1. rewrite Hexchange.
    unfold bind. rewrite CreateSession_run. reflexivity.
  - rewrite GetTokenFromCode_run in Hexchange. injection Hexchange as _ <-.
    reflexivity.
  - unfold Main.HomeHandler, bind. rewrite GetSession_run.
    cbn [w2 repo]. rewrite lookup_insert_eq. reflexivity.
Qed.

End Pages.

(* ===================================================================== *)
(** * The properties at work on the small platform *)
(* ===================================================================== *)

Section Examples.
#[local] Existing Instances Demo.foreign Demo.environment.

(** The timestamp of the specification's example belongs to another
    instant: [1580000000000] is 26 January 2020, 00:53:20 UTC, while
    [2020-01-25T22:13:20Z] is [1579990400000]. *)
Lemma legacy_date_is_not_the_25th_of_january :
  DotNetDate.DotNetJSONTimeToRFC3339 "/Date(1580000000000+0000)/" true
  <> ("2020-01-25T22:13:20Z", None)
  /\ DotNetDate.DotNetJSONTimeToRFC3339 "/Date(1579990400000+0000)/" true
     = ("2020-01-25T22:13:20Z", None).
Proof.
  split; [|vm_compute; reflexivity].
  vm_compute. discriminate.
Qed.

Lemma legacy_date_becomes_the_equivalent_timestamp_witness :
  DotNetDate.isRFC3339 "2020-01-26T00:53:20Z" = true
  /\ (DotNetDate.DotNetJSONTimeToRFC3339 "2020-01-26T00:53:20Z" true
      = ("2020-01-26T00:53:20Z", None)
      \/ exists s e, DotNetDate.DotNetJSONTimeToRFC3339 "2020-01-26T00:53:20Z" true
                     = (s, Some e)).
Proof.
  split.
  - apply (proj1 (proj2 legacy_date_becomes_the_equivalent_timestamp)
             "/Date(1580000000000+0000)/" true).
    vm_compute. reflexivity.
  - apply (proj2 (proj2 legacy_date_becomes_the_equivalent_timestamp)).
    vm_compute. reflexivity.
Defined.

(** Before any session exists the connections view ends in a panic; no
    response, and so no 401, is written. *)
Lemma connections_before_any_session_is_a_panic :
  exists h,
    Main.router "/connections" = Some h
    /\ h Demo.request Demo.emptyWorld
       = (Panicked (LogPanic (ConnectionError (AuthError "no token"))),
          logged Demo.emptyWorld [EvGetSession uuid_Nil])
    /\ forall resp w', h Demo.request Demo.emptyWorld <> (Returned resp, w').
Proof.
  exists (fun _ => Main.XeroConnectionsHandler).
  split; [reflexivity|].
  assert (Hrun : Main.XeroConnectionsHandler Demo.emptyWorld
                 = (Panicked (LogPanic (ConnectionError (AuthError "no token"))),
                    logged Demo.emptyWorld [EvGetSession uuid_Nil]))
    by (vm_compute; reflexivity).
  split; [exact Hrun|].
  intros resp w'. cbv beta. rewrite Hrun. discriminate.
Qed.

Lemma connections_without_session_panics_on_error_witness :
  Main.XeroConnectionsHandler Demo.emptyWorld
  = (Panicked (LogPanic (ConnectionError (AuthError "no token"))),
     logged Demo.emptyWorld [EvGetSession uuid_Nil]).
Proof.
  apply (proj1 (connections_without_session_panics_on_error
                  (fun _ => Main.XeroConnectionsHandler) Demo.request
                  Demo.emptyWorld eq_refl eq_refl)).
  vm_compute. reflexivity.
Defined.

Lemma home_follows_the_stored_session_witness :
  fst (Main.HomeHandler Demo.emptyWorld)
  = Returned (Main.Executed Main.indexTemplate (Main.TokenData None))
  /\ exists token,
       tokenExchange [] "fake-code" = Some token
       /\ fst (Main.HomeHandler
                 (snd (Main.XeroAuthCallbackHandler "fake-code" Demo.emptyWorld)))
          = Returned (Main.Executed Main.connectedTemplate
                        (Main.TokenData (Some token))).
Proof.
  split.
  - exact (proj1 home_follows_the_stored_session
             (fun _ => Main.HomeHandler) Demo.request Demo.emptyWorld
             eq_refl eq_refl).
  - destruct (proj2 home_follows_the_stored_session
                (fun r => Main.XeroAuthCallbackHandler (Main.FormValue r "code"))
                (fun _ => Main.HomeHandler) Demo.request Demo.request
                Demo.emptyWorld
                (Main.Executed Main.connectedTemplate
                   (Main.TokenData (Some Demo.firstToken)))
                (snd (Main.XeroAuthCallbackHandler "fake-code" Demo.emptyWorld))
                eq_refl eq_refl)
      as (token & Hexchange & _ & _ & Hhome).
    + vm_compute. reflexivity.
    + exists token. split; [exact Hexchange|exact Hhome].
Defined.

(** A stored token whose refresh token the platform rejects: the handler of
    [/refresh] panics, and answers with no redirect. *)
Lemma refresh_with_a_rejected_token_panics :
  exists h,
    Main.router "/refresh" = Some h
    /\ repo (Demo.worldWith Demo.secondToken) !! uuid_Nil = Some Demo.secondToken
    /\ h Demo.request (Demo.worldWith Demo.secondToken)
       = (Panicked (LogPanic (AuthError "refresh rejected")),
          logged (Demo.worldWith Demo.secondToken)
            [EvGetSession uuid_Nil; EvRefresh (Some Demo.secondToken)])
    /\ forall resp w',
         h Demo.request (Demo.worldWith Demo.secondToken) <> (Returned resp, w').
Proof.
  exists (fun _ => Main.XeroRefreshTokenHandler).
  split; [reflexivity|]. split; [vm_compute; reflexivity|].
  assert (Hrun : Main.XeroRefreshTokenHandler (Demo.worldWith Demo.secondToken)
                 = (Panicked (LogPanic (AuthError "refresh rejected")),
                    logged (Demo.worldWith Demo.secondToken)
                      [EvGetSession uuid_Nil; EvRefresh (Some Demo.secondToken)]))
    by (vm_compute; reflexivity).
  split; [exact Hrun|].
  intros resp w'. cbv beta. rewrite Hrun. discriminate.
Qed.

Lemma refresh_route_refreshes_persists_redirects_witness :
  Main.XeroRefreshTokenHandler (Demo.worldWith Demo.firstToken)
  = (Returned (Main.Redirected "/" Main.StatusFound),
     {| repo := <[uuid_Nil := Demo.secondToken]> (repo (Demo.worldWith Demo.firstToken));
        heap := [];
        trace := [EvGetSession uuid_Nil; EvRefresh (Some Demo.firstToken);
                  EvUpdateSession uuid_Nil Demo.secondToken] |}).
Proof.
  apply (proj1 (refresh_route_refreshes_persists_redirects
                  (fun _ => Main.XeroRefreshTokenHandler) Demo.request
                  (Demo.worldWith Demo.firstToken) Demo.firstToken
                  eq_refl eq_refl)
           Demo.secondToken
           (logged (Demo.worldWith Demo.firstToken)
              [EvGetSession uuid_Nil; EvRefresh (Some Demo.firstToken)])).
  vm_compute. reflexivity.
Defined.

Lemma expired_token_is_refreshed_once_and_stored_witness :
  (exists r w',
      Auth.Do (Demo.clientOf Demo.staleToken 1%N) Demo.someRequest
        (Demo.worldWith Demo.staleToken) = (Returned r, w')
      /\ trace w' = [EvRefresh (Some Demo.staleToken);
                     EvUpdateSession uuid_Nil Demo.secondToken;
                     EvSend 1%N "access-2" Demo.someRequest]
      /\ repo w' !! uuid_Nil = Some Demo.secondToken)
  /\ refreshesOnlyInTransport Main.XeroContactsHandler
       (Demo.worldWith Demo.staleToken).
Proof.
  split.
  { destruct (proj1 expired_token_is_refreshed_once_and_stored
                (Main.sessionFor (Some Demo.staleToken) 1%N) Demo.staleToken
                Demo.someRequest (Demo.worldWith Demo.staleToken) eq_refl)
      as (r & w' & evs & Hrun & Htrace & _ & _ & Hthen).
    - vm_compute. reflexivity.
    - destruct (Hthen Demo.secondToken
                  (logged (Demo.worldWith Demo.staleToken)
                     [EvRefresh (Some Demo.staleToken)])) as [Hevs Hrepo].
      + vm_compute. reflexivity.
      + exists Demo.staleToken. vm_compute. reflexivity.
      + exists r, w'. split; [exact Hrun|]. split.
        * rewrite Htrace, Hevs. reflexivity.
        * rewrite Hrepo. apply lookup_insert_eq. }
  { apply (proj2 (proj2 expired_token_is_refreshed_once_and_stored) "/contacts"
             (fun _ => Main.XeroContactsHandler) Demo.request
             (Demo.worldWith Demo.staleToken) eq_refl).
    discriminate. }
Defined.

(** A handler that refreshed the stale token by hand before its call would
    be told apart: its log has a refresh that belongs to no request. *)
Lemma a_refresh_by_hand_is_told_apart :
  ~ refreshesOnlyInTransport
      (let* (se, _) := Auth.GetSession uuid_Nil in
       let* _ := Auth.Refresh se in
       let* r := Connection.GetTenants (Auth.Client (Main.sessionFor se uuid_Nil)) in
       match r with
       | Err e => log_Panic e
       | Ok tenants => ret (Main.Encoded tenants)
       end)
      (Demo.worldWith Demo.staleToken).
Proof.
  intros (own & calls & last & Htrace & Hown & Hcalls & Hlast).
  vm_compute in Htrace.
  destruct own as [|e1 own].
  - destruct calls as [|c calls].
    + cbn in Htrace. subst last.
      destruct Hlast as [Hl|[Hs _]]; [discriminate Hl|inversion Hs].
    + apply Forall_cons in Hcalls as [Hc _].
      inversion Hc; subst; cbn in Htrace; discriminate Htrace.
  - injection Htrace as <- Htrace. apply Forall_cons in Hown as [_ Hown].
    destruct own as [|e2 own].
    + destruct calls as [|c calls].
      * cbn in Htrace. subst last.
        destruct Hlast as [Hl|[Hs _]]; [discriminate Hl|inversion Hs].
      * apply Forall_cons in Hcalls as [Hc _].
        inversion Hc; subst; cbn in Htrace; discriminate Htrace.
    + injection Htrace as <- Htrace. apply Forall_cons in Hown as [Hr _].
      discriminate Hr.
Qed.

Lemma every_listing_handler_is_the_one_loop_witness :
  fst (Main.XeroContactsHandler (Demo.worldWith Demo.firstToken))
  = Returned (Main.Executed Main.contactsTemplate
                (Main.ContactsData
                   [Demo.contact "c-1" "Ann" "2020-01-26T00:53:20Z";
                    Demo.contact "c-2" "Bob" "2020-01-25T22:13:20Z";
                    Demo.contact "c-3" "Cy" "1970-01-01T00:00:00Z"]))
  /\ Forall2 (fun tenant items =>
                exists w1 w2,
                  fetchContacts (Demo.clientOf Demo.firstToken tenant) w1
                  = (Returned (Ok items), w2))
       ([1%N; 2%N] : list (@Tenant Demo.foreign))
       [[Demo.contact "c-1" "Ann" "2020-01-26T00:53:20Z"];
        [Demo.contact "c-2" "Bob" "2020-01-25T22:13:20Z";
         Demo.contact "c-3" "Cy" "1970-01-01T00:00:00Z"]].
Proof.
  split.
  - rewrite (proj1 every_listing_handler_is_the_one_loop). vm_compute. reflexivity.
  - apply (proj2 (proj2 (proj2 (proj2 (proj2 (proj2
             every_listing_handler_is_the_one_loop)))))
             Contact fetchContacts (Some Demo.firstToken)
             ([1%N; 2%N] : list (@Tenant Demo.foreign))
             (Demo.worldWith Demo.firstToken) _
             (snd (fetchFromEvery fetchContacts (Some Demo.firstToken)
                     ([1%N; 2%N] : list (@Tenant Demo.foreign))
                     (Demo.worldWith Demo.firstToken)))).
    vm_compute. reflexivity.
Defined.

Lemma every_result_has_converted_dates_witness :
  exists bs,
    contactsNormalised bs 0
      (snd (Accounting.FindContacts (Demo.clientOf Demo.firstToken 2%N)
              (Demo.worldWith Demo.firstToken))).
Proof.
  apply (proj1 (proj2 (proj2 every_result_has_converted_dates))
           (Demo.clientOf Demo.firstToken 2%N) (Demo.worldWith Demo.firstToken)).
  vm_compute. reflexivity.
Defined.

Lemma remote_errors_abort_every_handler_witness :
  fst (Main.XeroContactsHandler (Demo.worldWith Demo.secondToken))
  = Panicked (LogPanic (FetchError (TransportError "request failed"))).
Proof.
  destruct remote_errors_abort_every_handler
    as (_ & _ & _ & _ & [_ Hfetch] & _ & _ & _ & _).
  set (w := Demo.worldWith Demo.secondToken).
  set (se := repo w !! uuid_Nil).
  set (w2 := snd (Connection.GetTenants (Auth.Client (Main.sessionFor se uuid_Nil))
                    (logged w [EvGetSession uuid_Nil]))).
  set (run := fetchFromEvery fetchContacts se ([1%N; 2%N] : list (@Tenant Demo.foreign)) w2).
  set (w4 := snd (fetchContacts (Auth.Client (Main.sessionFor se 3%N)) (snd run))).
  rewrite (Hfetch w ([1%N; 2%N] : list (@Tenant Demo.foreign)) (3%N : @Tenant Demo.foreign) [] w2
             [[Demo.contact "c-1" "Ann" "2020-01-26T00:53:20Z"];
              [Demo.contact "c-2" "Bob" "2020-01-25T22:13:20Z";
               Demo.contact "c-3" "Cy" "1970-01-01T00:00:00Z"]]
             (snd run) (FetchError (TransportError "request failed")) w4).
  - reflexivity.
  - vm_compute. reflexivity.
  - vm_compute. reflexivity.
  - vm_compute. reflexivity.
Defined.

Lemma empty_collection_gives_nil_and_no_error_witness :
  fst (Accounting.FindContact (Demo.clientOf Demo.firstToken 1%N) 5%N
         (Demo.worldWith Demo.firstToken)) = Returned (Ok None)
  /\ fst (Accounting.FindAccount (Demo.clientOf Demo.firstToken 1%N) 5%N
            (Demo.worldWith Demo.firstToken)) = Returned (Ok None).
Proof.
  split.
  - rewrite (proj1 empty_collection_gives_nil_and_no_error
               (Demo.clientOf Demo.firstToken 1%N) 5%N
               (Demo.worldWith Demo.firstToken) (list_ascii_of_string "empty")
               (logged (Demo.worldWith Demo.firstToken)
                  [EvSend 1%N "access-1"
                     {| op := OpFind;
                        url := Accounting.contactsURL +:+ "/" +:+ UUID_String 5%N;
                        headers := ∅; query := ∅; body := [] |}])).
    + reflexivity.
    + vm_compute. reflexivity.
    + vm_compute. reflexivity.
  - rewrite (proj2 empty_collection_gives_nil_and_no_error
               (Demo.clientOf Demo.firstToken 1%N) 5%N
               (Demo.worldWith Demo.firstToken) (list_ascii_of_string "empty")
               (logged (Demo.worldWith Demo.firstToken)
                  [EvSend 1%N "access-1"
                     {| op := OpFind;
                        url := Accounting.accountsURL +:+ "/" +:+ UUID_String 5%N;
                        headers := ∅; query := ∅; body := [] |}])).
    + reflexivity.
    + vm_compute. reflexivity.
    + vm_compute. reflexivity.
Defined.

Lemma update_sends_the_receiver_alone_and_keeps_it_witness :
  trace (snd (Accounting.Contact_Update (Some (0%nat, 0%nat))
                (Demo.clientOf Demo.firstToken 1%N) Demo.worldWithObjects))
  = [EvSend 1%N "access-1"
       {| op := OpUpdate;
          url := "https://api.xero.com/api.xro/2.0/Contacts/c-1";
          headers := ∅; query := ∅;
          body := list_ascii_of_string "Ann" |}]
  /\ trace (snd (Accounting.Account_Update (Some (1%nat, 0%nat))
                   (Demo.clientOf Demo.firstToken 1%N) Demo.worldWithObjects))
     = [EvSend 1%N "access-1"
          {| op := OpUpdate;
             url := "https://api.xero.com/api.xro/2.0/Accounts/a-1";
             headers := ∅; query := ∅;
             body := list_ascii_of_string "Sales" |}]
  /\ exists o w' evs,
      Accounting.Contact_Update (Some (0%nat, 0%nat))
        (Demo.clientOf Demo.firstToken 1%N) Demo.worldWithObjects = (o, w')
      /\ trace w' = trace Demo.worldWithObjects ++ evs
      /\ (forall l', o = Returned (Ok l') ->
            sentRequests evs
            = [{| op := OpUpdate;
                  url := "https://api.xero.com/api.xro/2.0/Contacts/c-1";
                  headers := ∅; query := ∅;
                  body := list_ascii_of_string "Ann" |}])
      /\ heap w' !! 0%nat
         = Some (OContacts [Demo.contact "c-1" "Ann" "2020-01-26T00:53:20Z"]).
Proof.
  assert (Hnever : neverExpires Demo.firstToken) by (intros history; reflexivity).
  split; [|split].
  - destruct (proj1 (proj2 (proj2 update_sends_the_receiver_alone_and_keeps_it))
                0%nat 0%nat
                [Demo.contact "c-1" "Ann" "2020-01-26T00:53:20Z"]
                (Demo.contact "c-1" "Ann" "2020-01-26T00:53:20Z")
                (Demo.clientOf Demo.firstToken 1%N) Demo.worldWithObjects
                eq_refl eq_refl) as [_ Hmade].
    destruct (Hmade (list_ascii_of_string "Ann")) as [_ Hsent];
      [vm_compute; reflexivity|].
    rewrite (Hsent Demo.firstToken eq_refl Hnever). reflexivity.
  - destruct (proj2 (proj2 (proj2 update_sends_the_receiver_alone_and_keeps_it))
                1%nat 0%nat
                [Demo.account "a-1" "Sales" "2020-01-26T00:53:20Z"]
                (Demo.account "a-1" "Sales" "2020-01-26T00:53:20Z")
                (Demo.clientOf Demo.firstToken 1%N) Demo.worldWithObjects
                eq_refl eq_refl) as [_ Hmade].
    destruct (Hmade (list_ascii_of_string "Sales")) as [_ Hsent];
      [vm_compute; reflexivity|].
    rewrite (Hsent Demo.firstToken eq_refl Hnever). reflexivity.
  - destruct (proj1 update_sends_the_receiver_alone_and_keeps_it 0%nat 0%nat
                [Demo.contact "c-1" "Ann" "2020-01-26T00:53:20Z"]
                (Demo.contact "c-1" "Ann" "2020-01-26T00:53:20Z")
                (Demo.clientOf Demo.firstToken 1%N) Demo.worldWithObjects
                eq_refl eq_refl)
      as (o & w' & evs & Hrun & Htrace & _ & Hsent & Hkept).
    exists o, w', evs. repeat split; try assumption.
    intros l' Hl'. destruct (Hsent l' Hl') as (buf & Hbuf & ->).
    injection Hbuf as <-. reflexivity.
Defined.

End Examples.

(* ===================================================================== *)
(** * Further runs, on the rougher platform *)
(* ===================================================================== *)

Section MoreExamples.
#[local] Existing Instances Demo.foreign Demo.roughEnvironment.

Local Abbreviation Dee := (Demo.contact "c-4" "Dee").
Local Abbreviation Eve := (Demo.contact "c-5" "Eve").
Local Abbreviation Fay := (Demo.contact "c-6" "Fay").
Local Abbreviation Rent := (Demo.account "a-2" "Rent").
Local Abbreviation Fees := (Demo.account "a-3" "Fees").
Local Abbreviation bytesOf := list_ascii_of_string.

Lemma neverExpires_firstToken : neverExpires Demo.firstToken.
Proof. intros history. reflexivity. Defined.

Lemma validToken_firstToken : validToken (repo (Demo.worldWith Demo.firstToken) !! uuid_Nil).
Proof.
  intros t Ht. vm_compute in Ht. injection Ht as <-. exact neverExpires_firstToken.
Defined.

(** Eve's date is no legacy date: the loop converts Fay, fails on Eve and
    never reaches Dee. *)
Lemma convertDates_stops_at_the_last_bad_date_witness :
  Accounting.Contacts_convertDates (Some 0%nat) Demo.worldWithRawObjects
  = (Returned (Some (DecodeError "not a .Net JSON date")),
     withHeap Demo.worldWithRawObjects
       [OContacts [Dee "/Date(0)/"; Eve ""; Fay "1970-01-02T00:00:00Z"];
        OAccounts [Rent "soon"; Fees "/Date(86400000)/"]])
  /\ Accounting.Accounts_convertDates (Some 1%nat) Demo.worldWithRawObjects
     = (Returned (Some (DecodeError "not a .Net JSON date")),
        withHeap Demo.worldWithRawObjects
          [OContacts [Dee "/Date(0)/"; Eve "yesterday"; Fay "/Date(86400000)/"];
           OAccounts [Rent ""; Fees "1970-01-02T00:00:00Z"]]).
Proof.
  split.
  - etransitivity.
    + apply (proj1 convertDates_stops_at_the_last_bad_date 0%nat
               [Dee "/Date(0)/"] (Eve "yesterday") [Fay "/Date(86400000)/"]
               "" (DecodeError "not a .Net JSON date") Demo.worldWithRawObjects).
      * reflexivity.
      * constructor; [vm_compute; reflexivity|constructor].
      * vm_compute. reflexivity.
    + vm_compute. reflexivity.
  - etransitivity.
    + apply (proj2 convertDates_stops_at_the_last_bad_date 1%nat
               [] (Rent "soon") [Fees "/Date(86400000)/"]
               "" (DecodeError "not a .Net JSON date") Demo.worldWithRawObjects).
      * reflexivity.
      * constructor; [vm_compute; reflexivity|constructor].
      * vm_compute. reflexivity.
    + vm_compute. reflexivity.
Defined.

Lemma convertDates_touches_only_the_date_witness :
  (exists err cs',
      Accounting.Contacts_convertDates (Some 0%nat) Demo.worldWithRawObjects
      = (Returned err,
         withHeap Demo.worldWithRawObjects
           (<[0%nat := OContacts cs']> (heap Demo.worldWithRawObjects)))
      /\ Forall2 sameContactButDate
           [Dee "/Date(0)/"; Eve "yesterday"; Fay "/Date(86400000)/"] cs')
  /\ (exists err accs',
      Accounting.Accounts_convertDates (Some 1%nat) Demo.worldWithRawObjects
      = (Returned err,
         withHeap Demo.worldWithRawObjects
           (<[1%nat := OAccounts accs']> (heap Demo.worldWithRawObjects)))
      /\ Forall2 sameAccountButDate [Rent "soon"; Fees "/Date(86400000)/"] accs').
Proof.
  split.
  - apply (proj1 convertDates_touches_only_the_date 0%nat _ Demo.worldWithRawObjects).
    reflexivity.
  - apply (proj2 convertDates_touches_only_the_date 1%nat _ Demo.worldWithRawObjects).
    reflexivity.
Defined.

Lemma decoding_succeeds_exactly_when_every_date_converts_witness :
  Accounting.unmarshalContact (bytesOf "contacts-2") Demo.emptyWorld
  = (Returned (Ok 0%nat),
     withHeap Demo.emptyWorld
       [OContacts [Demo.contact "c-2" "Bob" "2020-01-25T22:13:20Z";
                   Demo.contact "c-3" "Cy" "1970-01-01T00:00:00Z"]])
  /\ (exists e, fst (Accounting.unmarshalContact (bytesOf "contacts-bad") Demo.emptyWorld)
                = Returned (Err e))
  /\ Accounting.unmarshalAccount (bytesOf "accounts") Demo.emptyWorld
     = (Returned (Ok 0%nat),
        withHeap Demo.emptyWorld
          [OAccounts [Demo.account "a-1" "Sales" "2020-01-26T00:53:20Z"]])
  /\ (exists e, fst (Accounting.unmarshalAccount (bytesOf "accounts-bad") Demo.emptyWorld)
                = Returned (Err e)).
Proof.
  destruct (proj1 decoding_succeeds_exactly_when_every_date_converts
              (bytesOf "contacts-2")
              [Demo.contact "c-2" "Bob" "/Date(1579990400000+0000)/";
               Demo.contact "c-3" "Cy" "/Date(0)/"]
              Demo.emptyWorld) as [Hcontacts _]; [vm_compute; reflexivity|].
  destruct (proj1 decoding_succeeds_exactly_when_every_date_converts
              (bytesOf "contacts-bad")
              [Dee "/Date(0)/"; Eve "yesterday"; Fay "/Date(86400000)/"]
              Demo.emptyWorld) as [_ Hbadcontacts]; [vm_compute; reflexivity|].
  destruct (proj2 decoding_succeeds_exactly_when_every_date_converts
              (bytesOf "accounts")
              [Demo.account "a-1" "Sales" "/Date(1580000000000+0000)/"]
              Demo.emptyWorld) as [Haccounts _]; [vm_compute; reflexivity|].
  destruct (proj2 decoding_succeeds_exactly_when_every_date_converts
              (bytesOf "accounts-bad")
              [Rent "soon"; Fees "/Date(86400000)/"]
              Demo.emptyWorld) as [_ Hbadaccounts]; [vm_compute; reflexivity|].
  split; [|split; [|split]].
  - rewrite Hcontacts; [vm_compute; reflexivity|].
    repeat (constructor; [vm_compute; reflexivity|]). constructor.
  - apply Hbadcontacts. intros Hall. apply Forall_inv_tail, Forall_inv in Hall.
    vm_compute in Hall. discriminate Hall.
  - rewrite Haccounts; [vm_compute; reflexivity|].
    repeat (constructor; [vm_compute; reflexivity|]). constructor.
  - apply Hbadaccounts. intros Hall. apply Forall_inv in Hall.
    vm_compute in Hall. discriminate Hall.
Defined.

(** Tenant 9 answers [null] to everything. *)
Lemma null_body_is_a_nil_dereference_witness :
  Accounting.unmarshalContact (bytesOf "null") Demo.emptyWorld
  = (Panicked NilDereference, Demo.emptyWorld)
  /\ Accounting.unmarshalAccount (bytesOf "null") Demo.emptyWorld
     = (Panicked NilDereference, Demo.emptyWorld)
  /\ Accounting.FindContacts (Demo.clientOf Demo.firstToken 9%N)
       (Demo.worldWith Demo.firstToken)
     = (Panicked NilDereference,
        logged (Demo.worldWith Demo.firstToken)
          [EvSend 9%N "access-1" (findRequest Accounting.contactsURL ∅ ∅)])
  /\ Accounting.FindAccounts (Demo.clientOf Demo.firstToken 9%N) ∅
       (Demo.worldWith Demo.firstToken)
     = (Panicked NilDereference,
        logged (Demo.worldWith Demo.firstToken)
          [EvSend 9%N "access-1" (findRequest Accounting.accountsURL ∅ ∅)])
  /\ Accounting.RemoveAccount (Demo.clientOf Demo.firstToken 9%N) 5%N
       (Demo.worldWith Demo.firstToken)
     = (Panicked NilDereference,
        logged (Demo.worldWith Demo.firstToken)
          [EvSend 9%N "access-1"
             (removeRequest (Accounting.accountsURL +:+ "/" +:+ UUID_String 5%N))]).
Proof.
  split; [|split; [|split; [|split]]].
  - apply (proj1 null_body_is_a_nil_dereference). vm_compute. reflexivity.
  - apply (proj1 (proj2 null_body_is_a_nil_dereference)). vm_compute. reflexivity.
  - apply (proj1 (proj2 (proj2 null_body_is_a_nil_dereference))
             _ _ (bytesOf "null")); vm_compute; reflexivity.
  - apply (proj1 (proj2 (proj2 (proj2 null_body_is_a_nil_dereference)))
             _ _ _ (bytesOf "null")); vm_compute; reflexivity.
  - apply (proj1 (proj2 (proj2 (proj2 (proj2 null_body_is_a_nil_dereference))))
             _ _ _ (bytesOf "null")); vm_compute; reflexivity.
Defined.

(** Tenant 8 answers Bob and Cy to the lookup of one contact, tenant 7
    the sales account: the lookups return Bob, and the sales account. *)
Lemma find_one_returns_the_first_element_witness :
  (exists w2,
      Accounting.FindContact (Demo.clientOf Demo.firstToken 8%N) 5%N
        (Demo.worldWith Demo.firstToken) = (Returned (Ok (Some (0%nat, 0%nat))), w2)
      /\ Accounting.loadContact (Some (0%nat, 0%nat)) w2
         = (Returned (Demo.contact "c-2" "Bob" "2020-01-25T22:13:20Z"), w2))
  /\ (exists w2,
      Accounting.FindAccount (Demo.clientOf Demo.firstToken 7%N) 5%N
        (Demo.worldWith Demo.firstToken) = (Returned (Ok (Some (0%nat, 0%nat))), w2)
      /\ Accounting.loadAccount (Some (0%nat, 0%nat)) w2
         = (Returned (Demo.account "a-1" "Sales" "2020-01-26T00:53:20Z"), w2)).
Proof.
  split.
  - destruct (proj1 find_one_returns_the_first_element
                (Demo.clientOf Demo.firstToken 8%N) 5%N (Demo.worldWith Demo.firstToken)
                (bytesOf "contacts-2")
                (logged (Demo.worldWith Demo.firstToken)
                   [EvSend 8%N "access-1"
                      (findRequest
                         (Accounting.contactsURL +:+ "/" +:+ UUID_String 5%N) ∅ ∅)])
                (Demo.contact "c-2" "Bob" "/Date(1579990400000+0000)/")
                [Demo.contact "c-3" "Cy" "/Date(0)/"]) as [Hfind Hload].
    + vm_compute. reflexivity.
    + vm_compute. reflexivity.
    + repeat (constructor; [vm_compute; reflexivity|]). constructor.
    + eexists. split; [exact Hfind|].
      etransitivity; [exact Hload|vm_compute; reflexivity].
  - destruct (proj2 find_one_returns_the_first_element
                (Demo.clientOf Demo.firstToken 7%N) 5%N (Demo.worldWith Demo.firstToken)
                (bytesOf "accounts")
                (logged (Demo.worldWith Demo.firstToken)
                   [EvSend 7%N "access-1"
                      (findRequest
                         (Accounting.accountsURL +:+ "/" +:+ UUID_String 5%N) ∅ ∅)])
                (Demo.account "a-1" "Sales" "/Date(1580000000000+0000)/") [])
      as [Hfind Hload].
    + vm_compute. reflexivity.
    + vm_compute. reflexivity.
    + repeat (constructor; [vm_compute; reflexivity|]). constructor.
    + eexists. split; [exact Hfind|].
      etransitivity; [exact Hload|vm_compute; reflexivity].
Defined.

(** An update of Ann: the answer is a third object, Ann and the sales
    account stay where they are. *)
Lemma results_are_new_objects_and_old_ones_are_kept_witness :
  exists added,
    heap (snd (Accounting.Contact_Update (Some (0%nat, 0%nat))
                 (Demo.clientOf Demo.firstToken 1%N) Demo.worldWithObjects))
    = heap Demo.worldWithObjects ++ added
    /\ fst (Accounting.Contact_Update (Some (0%nat, 0%nat))
              (Demo.clientOf Demo.firstToken 1%N) Demo.worldWithObjects)
       = Returned (Ok 2%nat).
Proof.
  destruct (proj1 (proj2 (proj2 (proj2 results_are_new_objects_and_old_ones_are_kept)))
              (Some (0%nat, 0%nat)) (Demo.clientOf Demo.firstToken 1%N)
              Demo.worldWithObjects) as (added & Hheap & _).
  exists added. split; [exact Hheap|]. vm_compute. reflexivity.
Defined.

Lemma every_call_sends_its_one_request_witness :
  sendsOnlyAt (Accounting.Contacts_Create (Some 0%nat) (Demo.clientOf Demo.firstToken 1%N))
    (createRequest Accounting.contactsURL (bytesOf "Ann")) Demo.worldWithObjects
  /\ sendsOnlyAt (Accounting.Accounts_Create (Some 1%nat) (Demo.clientOf Demo.firstToken 1%N))
       (createRequest Accounting.accountsURL (bytesOf "Sales")) Demo.worldWithObjects.
Proof.
  split.
  - apply (proj1 (proj2 (proj2 (proj2 (proj2 (proj2 (proj2
             every_call_sends_its_one_request))))))
             0%nat [Demo.contact "c-1" "Ann" "2020-01-26T00:53:20Z"]);
      vm_compute; reflexivity.
  - apply (proj2 (proj2 (proj2 (proj2 (proj2 (proj2 (proj2
             every_call_sends_its_one_request))))))
             1%nat [Demo.account "a-1" "Sales" "2020-01-26T00:53:20Z"]);
      vm_compute; reflexivity.
Defined.

(** The lone token has no tenant. *)
Lemma no_tenants_gives_an_empty_listing_witness :
  Main.XeroContactsHandler (Demo.worldWith Demo.loneToken)
  = (Returned (Main.Executed Main.contactsTemplate (Main.ContactsData [])),
     logged (Demo.worldWith Demo.loneToken)
       [EvGetSession uuid_Nil; EvSend uuid_Nil "access-9" connectionsRequest])
  /\ Main.XeroAccountsHandler (Demo.worldWith Demo.loneToken)
     = (Returned (Main.Executed Main.accountsTemplate (Main.AccountsData [])),
        logged (Demo.worldWith Demo.loneToken)
          [EvGetSession uuid_Nil; EvSend uuid_Nil "access-9" connectionsRequest]).
Proof.
  destruct (no_tenants_gives_an_empty_listing (Demo.worldWith Demo.loneToken)
              (logged (Demo.worldWith Demo.loneToken)
                 [EvGetSession uuid_Nil; EvSend uuid_Nil "access-9" connectionsRequest]))
    as (Hcontacts & Haccounts & _).
  - vm_compute. reflexivity.
  - split; assumption.
Defined.

Lemma contact_creation_needs_a_first_tenant_witness :
  fst (Main.XeroContactsCreateHandler (Demo.worldWith Demo.loneToken))
  = Panicked IndexOutOfRange
  /\ fst (Main.XeroContactsCreateHandler (Demo.worldWith Demo.firstToken))
     = Returned (Main.Redirected "/" 302).
Proof.
  split.
  - rewrite (proj1 (contact_creation_needs_a_first_tenant (Demo.worldWith Demo.loneToken))
               (snd (Main.XeroContactsCreateHandler (Demo.worldWith Demo.loneToken)))).
    + reflexivity.
    + vm_compute. reflexivity.
  - destruct (proj2 (contact_creation_needs_a_first_tenant
                       (Demo.worldWith Demo.firstToken))
                (1%N : @Tenant Demo.foreign) [(2%N : @Tenant Demo.foreign)]
                (withHeap
                   (logged (Demo.worldWith Demo.firstToken)
                      [EvGetSession uuid_Nil;
                       EvSend uuid_Nil "access-1" connectionsRequest])
                   [OContacts [Main.testContact 17%N]])
                1%nat
                (snd (Main.XeroContactsCreateHandler (Demo.worldWith Demo.firstToken))))
      as [Hrun _].
    + vm_compute. reflexivity.
    + vm_compute. reflexivity.
    + rewrite Hrun. reflexivity.
Defined.

Lemma only_callback_and_refresh_write_the_store_witness :
  repo (snd (Main.XeroContactsHandler (Demo.worldWith Demo.firstToken)))
  = repo (Demo.worldWith Demo.firstToken)
  /\ repo (snd (Main.XeroContactsCreateHandler (Demo.worldWith Demo.firstToken)))
     = repo (Demo.worldWith Demo.firstToken).
Proof.
  split.
  - apply (only_callback_and_refresh_write_the_store "/contacts"
             (fun _ => Main.XeroContactsHandler) Demo.request
             (Demo.worldWith Demo.firstToken) eq_refl);
      [discriminate|discriminate|exact validToken_firstToken].
  - apply (only_callback_and_refresh_write_the_store "/contacts/create"
             (fun _ => Main.XeroContactsCreateHandler) Demo.request
             (Demo.worldWith Demo.firstToken) eq_refl);
      [discriminate|discriminate|exact validToken_firstToken].
Defined.

(** The stale token of [uuid.Nil] is replaced while the contacts are
    listed; the session of user 5 is not. *)
Lemma no_route_touches_another_user_witness :
  repo (snd (Main.XeroContactsHandler Demo.worldWithTwoUsers)) !! 5%N
  = repo Demo.worldWithTwoUsers !! 5%N
  /\ repo (snd (Main.XeroRefreshTokenHandler Demo.worldWithTwoUsers)) !! 5%N
     = repo Demo.worldWithTwoUsers !! 5%N.
Proof.
  split.
  - apply (no_route_touches_another_user "/contacts"
             (fun _ => Main.XeroContactsHandler) Demo.request
             Demo.worldWithTwoUsers 5%N eq_refl).
    discriminate.
  - apply (no_route_touches_another_user "/refresh"
             (fun _ => Main.XeroRefreshTokenHandler) Demo.request
             Demo.worldWithTwoUsers 5%N eq_refl).
    discriminate.
Defined.

Lemma every_registered_path_reaches_its_handler_witness :
  Main.router "/invoiceItems" = Some (fun _ => Main.XeroInvoiceItemsHandler)
  /\ Main.router "/contacts/" = None.
Proof.
  split.
  - apply (proj1 (proj2 every_registered_path_reaches_its_handler)).
    do 18 right. left. reflexivity.
  - apply (proj2 (proj2 every_registered_path_reaches_its_handler)).
    cbn [map fst Main.routes In]. intros Hin.
    repeat (destruct Hin as [Hin|Hin]; [discriminate Hin|]). exact Hin.
Defined.

Lemma pages_show_converted_dates_witness :
  Forall normalisedContact
    [Demo.contact "c-1" "Ann" "2020-01-26T00:53:20Z";
     Demo.contact "c-2" "Bob" "2020-01-25T22:13:20Z";
     Demo.contact "c-3" "Cy" "1970-01-01T00:00:00Z"]
  /\ Forall normalisedAccount
       [Demo.account "a-1" "Sales" "2020-01-26T00:53:20Z";
        Demo.account "a-1" "Sales" "2020-01-26T00:53:20Z"].
Proof.
  split.
  - apply (proj1 pages_show_converted_dates (Demo.worldWith Demo.firstToken)
             Main.contactsTemplate _
             (snd (Main.XeroContactsHandler (Demo.worldWith Demo.firstToken)))).
    vm_compute. reflexivity.
  - apply (proj2 pages_show_converted_dates (Demo.worldWith Demo.firstToken)
             Main.accountsTemplate _
             (snd (Main.XeroAccountsHandler (Demo.worldWith Demo.firstToken)))).
    vm_compute. reflexivity.
Defined.

Lemma a_listing_asks_every_tenant_once_in_order_witness :
  trace (snd (Main.XeroContactsHandler (Demo.worldWith Demo.firstToken)))
  = [EvGetSession uuid_Nil;
     EvSend uuid_Nil "access-1" connectionsRequest;
     EvSend 1%N "access-1" (findRequest Accounting.contactsURL ∅ ∅);
     EvSend 2%N "access-1" (findRequest Accounting.contactsURL ∅ ∅)].
Proof.
  destruct (proj1 (a_listing_asks_every_tenant_once_in_order
                     (Demo.worldWith Demo.firstToken) Demo.firstToken
                     eq_refl neverExpires_firstToken)
              (Main.Executed Main.contactsTemplate
                 (Main.ContactsData
                    [Demo.contact "c-1" "Ann" "2020-01-26T00:53:20Z";
                     Demo.contact "c-2" "Bob" "2020-01-25T22:13:20Z";
                     Demo.contact "c-3" "Cy" "1970-01-01T00:00:00Z"]))
              (snd (Main.XeroContactsHandler (Demo.worldWith Demo.firstToken))))
    as (tenants & w2 & Htenants & Htrace).
  - vm_compute. reflexivity.
  - vm_compute in Htenants. injection Htenants as <- _.
    rewrite Htrace. reflexivity.
Defined.

Lemma callback_stores_the_token_and_home_shows_it_witness :
  fst (Main.XeroAuthCallbackHandler "fake-code" (Demo.worldWith Demo.staleToken))
  = Returned (Main.Executed Main.connectedTemplate (Main.TokenData (Some Demo.firstToken)))
  /\ repo (snd (Main.XeroAuthCallbackHandler "fake-code" (Demo.worldWith Demo.staleToken)))
     = <[uuid_Nil := Demo.firstToken]> (repo (Demo.worldWith Demo.staleToken)).
Proof.
  destruct (callback_stores_the_token_and_home_shows_it "fake-code"
              (Demo.worldWith Demo.staleToken) Demo.firstToken
              (logged (Demo.worldWith Demo.staleToken) [EvExchange "fake-code"]))
    as (Hrun & Hrepo & _).
  - vm_compute. reflexivity.
  - rewrite Hrun. split; [reflexivity|exact Hrepo].
Defined.

End MoreExamples.
